(** * The system-prompt resolver of [packages/core/src/core/prompts.ts]

  A shallow embedding of [getCoreSystemPrompt] together with the parts of
  the Node.js runtime it calls ([String.prototype] methods, [path.posix],
  and the synchronous [fs] calls), followed by the properties of the
  resolver that are established on it. *)

From Stdlib Require Import Ascii.
From stdpp Require Import base tactics option list gmap strings.

(** * JavaScript strings

  A JavaScript string is a sequence of UTF-16 code units.  The embedding
  keeps the code units below 256 (the Latin-1 range), so that a string is a
  Rocq [string] and a code unit an [ascii].  Every literal of the source is
  plain ASCII. *)

Module JsString.

(** [WhiteSpace] and [LineTerminator] code units below 256: TAB, LF, VT,
    FF, CR, SP and NBSP.  These are the code units [trim] strips. *)
Definition is_whitespace (c : ascii) : bool :=
  match c with
  | "009" | "010" | "011" | "012" | "013" | " " | "160" => true
  | _ => false
  end%char.

(** Code units below 256 that have a lower-case mapping: A-Z and the
    Latin-1 capitals U+00C0-U+00DE, except the multiplication sign
    U+00D7.  The mapping adds 32. *)
Definition lower_char (c : ascii) : ascii :=
  let n := nat_of_ascii c in
  if ((65 <=? n) && (n <=? 90)
      || (192 <=? n) && (n <=? 222) && negb (n =? 215))%nat
  then ascii_of_nat (n + 32) else c.

(** [s.toLowerCase()] *)
Fixpoint toLowerCase (s : string) : string :=
  match s with
  | EmptyString => EmptyString
  | String c s' => String (lower_char c) (toLowerCase s')
  end.

(** [s.trimStart()] *)
Fixpoint trimStart (s : string) : string :=
  match s with
  | EmptyString => EmptyString
  | String c s' => if is_whitespace c then trimStart s' else s
  end.

(** [s.trimEnd()] *)
Fixpoint trimEnd (s : string) : string :=
  match s with
  | EmptyString => EmptyString
  | String c s' =>
      match trimEnd s' with
      | EmptyString => if is_whitespace c then EmptyString else String c EmptyString
      | r => String c r
      end
  end.

(** [s.trim()] *)
Definition trim (s : string) : string := trimEnd (trimStart s).

(** [s.startsWith(p)] *)
Fixpoint startsWith (p s : string) : bool :=
  match p, s with
  | EmptyString, _ => true
  | String a p', String b s' => bool_decide (a = b) && startsWith p' s'
  | String _ _, EmptyString => false
  end.

(** [s.slice(n)] for a non-negative [n] *)
Fixpoint slice (n : nat) (s : string) : string :=
  match n, s with
  | O, _ => s
  | S n', String _ s' => slice n' s'
  | S _, EmptyString => EmptyString
  end.

(** [xs.includes(s)] on an array of strings *)
Definition includes (xs : list string) (s : string) : bool :=
  bool_decide (s ∈ xs).

(** Truthiness of a string: every string but the empty one. *)
Definition truthy (s : string) : bool :=
  match s with EmptyString => false | String _ _ => true end.

(** [s.split('/')] *)
Fixpoint split_slash (s : string) : list string :=
  match s with
  | EmptyString => [EmptyString]
  | String c s' =>
      if bool_decide (c = "/"%char) then EmptyString :: split_slash s'
      else match split_slash s' with
           | [] => [String c EmptyString]
           | seg :: segs => String c seg :: segs
           end
  end.

(** [xs.join('/')] *)
Fixpoint join_slash (xs : list string) : string :=
  match xs with
  | [] => EmptyString
  | [x] => x
  | x :: xs' => x +:+ "/" +:+ join_slash xs'
  end.

End JsString.

(** * [node:path], POSIX flavour *)

Module Path.
Import JsString.

(** One step of [normalizeString]: [res] is the stack of segments kept so
    far, innermost first. *)
Definition normalize_step (allowAboveRoot : bool)
    (res : list string) (seg : string) : list string :=
  if bool_decide (seg = "") || bool_decide (seg = ".") then res
  else if bool_decide (seg = "..") then
    match res with
    | top :: rest =>
        if bool_decide (top = "..")
        then (if allowAboveRoot then ".." :: res else res)
        else rest
    | [] => if allowAboveRoot then [".."] else []
    end
  else seg :: res.

(** The segments [normalizeString(path, allowAboveRoot)] keeps: empty and
    ["."] segments are dropped and [".."] removes the segment before it. *)
Definition normalize_segments (allowAboveRoot : bool) (path : string) : list string :=
  rev (foldl (normalize_step allowAboveRoot) [] (split_slash path)).

Definition normalizeString (path : string) (allowAboveRoot : bool) : string :=
  join_slash (normalize_segments allowAboveRoot path).

Definition isAbsolute (path : string) : bool := startsWith "/" path.

Fixpoint endsWithSlash (path : string) : bool :=
  match path with
  | EmptyString => false
  | String c EmptyString => bool_decide (c = "/"%char)
  | String _ rest => endsWithSlash rest
  end.

(** [path.normalize(p)] *)
Definition normalize (path : string) : string :=
  if negb (truthy path) then "."
  else
    let isAbs := isAbsolute path in
    let trailingSeparator := endsWithSlash path in
    let path := normalizeString path (negb isAbs) in
    if negb (truthy path) then
      (if isAbs then "/" else if trailingSeparator then "./" else ".")
    else
      let path := if trailingSeparator then path +:+ "/" else path in
      if isAbs then "/" +:+ path else path.

(** [path.join(...args)] *)
Definition join (args : list string) : string :=
  match filter (λ a, truthy a = true) args with
  | [] => "."
  | parts => normalize (join_slash parts)
  end.

(** [path.resolve(p)] for a process whose working directory is [cwd] *)
Definition resolve (cwd : string) (p : string) : string :=
  let resolvedPath := if truthy p then p +:+ "/" else "" in
  let resolvedAbsolute := isAbsolute p in
  let '(resolvedPath, resolvedAbsolute) :=
    if resolvedAbsolute then (resolvedPath, true)
    else (cwd +:+ "/" +:+ resolvedPath, isAbsolute cwd) in
  let resolvedPath := normalizeString resolvedPath (negb resolvedAbsolute) in
  if resolvedAbsolute then "/" +:+ resolvedPath
  else if truthy resolvedPath then resolvedPath else ".".

(** The right-to-left scan of [path.dirname]: [rest] holds the code units
    at the indices [i >= 1] still to visit, last index first.  The result
    is the code units in front of the slash where the scan stops. *)
Fixpoint dirname_scan (matchedSlash : bool) (rest : list ascii) : option (list ascii) :=
  match rest with
  | [] => None
  | c :: rest' =>
      if bool_decide (c = "/"%char) then
        if negb matchedSlash then Some rest' else dirname_scan matchedSlash rest'
      else dirname_scan false rest'
  end.

(** [path.dirname(p)] *)
Definition dirname (path : string) : string :=
  match path with
  | EmptyString => "."
  | String c0 tl =>
      let hasRoot := bool_decide (c0 = "/"%char) in
      match dirname_scan true (rev (String.list_ascii_of_string tl)) with
      | None => if hasRoot then "/" else "."
      | Some before =>
          if hasRoot && bool_decide (before = []) then "//"
          else String c0 (String.string_of_list_ascii (rev before))
      end
  end.

End Path.

(** * [node:fs] on a tree of files and directories

  The store maps a normalized absolute path to the node found there; the
  root directory always exists.  Symbolic links, permissions and the other
  ways a system call can fail are outside the model. *)

Module Fs.
Import JsString.

Inductive node : Type :=
| File (data : string)
| Directory.

Inductive errno : Type := ENOENT | ENOTDIR | EISDIR | EEXIST.

(** What a call can throw: an [Error] built by the program, or the system
    error of a failed [fs] call. *)
Inductive exn : Type :=
| JsError (message : string)
| SystemError (code : errno) (syscall path : string).

(** The [fs] calls a run performs, in order. *)
Inductive call : Type :=
| ExistsSync (path : string)
| ReadFileSync (path : string)
| MkdirSync (path : string)
| WriteFileSync (path data : string).

Record state : Type := mkState {
  nodes : gmap string node;
  calls : list call
}.

Inductive outcome (A : Type) : Type :=
| Returned (a : A)
| Thrown (e : exn).
Global Arguments Returned {A} a.
Global Arguments Thrown {A} e.

(** A synchronous computation over the file system. *)
Definition IO (A : Type) : Type := state -> outcome A * state.

Definition ret {A} (a : A) : IO A := fun st => (Returned a, st).

Definition throw {A} (e : exn) : IO A := fun st => (Thrown e, st).

Definition bind {A B} (m : IO A) (k : A -> IO B) : IO B :=
  fun st =>
    match m st with
    | (Returned a, st') => k a st'
    | (Thrown e, st') => (Thrown e, st')
    end.

Definition record (c : call) (st : state) : state :=
  mkState (nodes st) (calls st ++ [c]).

Definition lookup_node (fs : gmap string node) (path : string) : option node :=
  if bool_decide (path = "/") then Some Directory else fs !! path.

(** The absolute path made of the segments [segs]. *)
Definition absolute (segs : list string) : string := "/" +:+ join_slash segs.

(** The non-empty segments of a path. *)
Definition segments (path : string) : list string :=
  filter (fun seg => seg <> "") (split_slash path).

(** [mkdir -p]: visit the directories on the way to the target, outermost
    first, creating those that are missing.  A file on the way is
    [ENOTDIR]; a file at the target itself is [EEXIST]; the directories
    created before the failure stay. *)
Fixpoint mkdir_walk (path : string) (above todo : list string)
    (fs : gmap string node) : option exn * gmap string node :=
  match todo with
  | [] => (None, fs)
  | seg :: todo' =>
      let here := absolute (above ++ [seg]) in
      match fs !! here with
      | Some Directory => mkdir_walk path (above ++ [seg]) todo' fs
      | Some (File _) =>
          (Some (SystemError (match todo' with [] => EEXIST | _ => ENOTDIR end)
                   "mkdir" path), fs)
      | None => mkdir_walk path (above ++ [seg]) todo' (<[here := Directory]> fs)
      end
  end.

(** [fs.existsSync(path)] *)
Definition existsSync (path : string) : IO bool :=
  fun st =>
    (Returned (bool_decide (is_Some (lookup_node (nodes st) path))),
     record (ExistsSync path) st).

(** [fs.readFileSync(path, 'utf8')] *)
Definition readFileSync (path : string) : IO string :=
  fun st =>
    let st' := record (ReadFileSync path) st in
    match lookup_node (nodes st) path with
    | Some (File data) => (Returned data, st')
    | Some Directory => (Thrown (SystemError EISDIR "read" path), st')
    | None => (Thrown (SystemError ENOENT "open" path), st')
    end.

(** [fs.mkdirSync(path, { recursive: true })] *)
Definition mkdirSync (path : string) : IO unit :=
  fun st =>
    let st' := record (MkdirSync path) st in
    match mkdir_walk path [] (segments path) (nodes st) with
    | (None, fs') => (Returned tt, mkState fs' (calls st'))
    | (Some e, fs') => (Thrown e, mkState fs' (calls st'))
    end.

(** [fs.writeFileSync(path, data)]: the file is created or truncated. *)
Definition writeFileSync (path data : string) : IO unit :=
  fun st =>
    let st' := record (WriteFileSync path data) st in
    match lookup_node (nodes st) path with
    | Some Directory => (Thrown (SystemError EISDIR "open" path), st')
    | _ =>
        match lookup_node (nodes st) (Path.dirname path) with
        | Some Directory =>
            (Returned tt, mkState (<[path := File data]> (nodes st)) (calls st'))
        | Some (File _) => (Thrown (SystemError ENOTDIR "open" path), st')
        | None => (Thrown (SystemError ENOENT "open" path), st')
        end
    end.

End Fs.

(** Sequencing, written as the statements of the source follow each other. *)
Notation "'do' x <- m ; k" := (Fs.bind m (fun x => k))
  (at level 10, x name, m at level 100, k at level 200, only parsing).
Notation "'do' ' pat <- m ; k" := (Fs.bind m (fun x => match x with pat => k end))
  (at level 10, pat pattern, m at level 100, k at level 200, only parsing).

(** * The process and the build *)

(** What [getCoreSystemPrompt] reads from its process: the environment
    variables, [os.homedir()], [process.cwd()], and the probe
    [isGitRepository] of [utils/gitUtils]. *)
Record Process : Type := mkProcess {
  env : gmap string string;
  homedir : string;
  cwd : string;
  isGitRepository : string -> bool
}.

(** The constants the module imports: [GEMINI_CONFIG_DIR] of
    [tools/memoryTool] and the static [Name] of each tool class.  Neither
    module is part of the sources at hand, so the constants are parameters. *)
Record Imports : Type := mkImports {
  GEMINI_CONFIG_DIR : string;
  LSTool_Name : string;
  EditTool_Name : string;
  GlobTool_Name : string;
  GrepTool_Name : string;
  ReadFileTool_Name : string;
  ReadManyFilesTool_Name : string;
  ShellTool_Name : string;
  WriteFileTool_Name : string;
  MemoryTool_Name : string
}.

(** * The default template *)

Module Template.

(** The double-quote character. *)
Definition dquote : string := String (ascii_of_nat 34) EmptyString.

(** Lines 49-172: the text in front of the sandbox section. *)
Definition beforeSandbox (t : Imports) : string :=
  "
# System Identity
You are a highly advanced, agentic intelligence. Your core identity is that of an expert problem-solver, characterized by precision, efficiency, and intellectual honesty. Your communication is direct, clear, and focused on the task at hand. You do not use conversational filler, emojis, or unnecessary verbiage. Your purpose is to translate user intent into the most elegant and effective action plan possible.

1.  **Principle of Veracity:** You must ground all reasoning and actions in verifiable data. Distinguish clearly between established facts, synthesized hypotheses, and speculation. If information is unknown, state it directly. Do not fabricate information.
2.  **Principle of Objectivity:** Actively identify and counteract cognitive biases. Your primary allegiance is to the logical and factual integrity of the solution, not to any pre-conceived conclusion or persona-induced bias.
3.  **Principle of Harmlessness:** You must not generate content that is dangerous, illegal, unethical, or hateful. You will refuse harmful requests and explain the refusal in the context of this principle.
4.  **Principle of Elegance:** In evaluating potential solutions, you must adhere to the heuristic of elegance: select the plan that is the least complex, most complete, and most robust.
5.  **Principle of Clarity:** All communication must be unambiguous. All plans must be explicit and detailed.

# Cognitive Framework
You will dynamically select the appropriate reasoning model based on task complexity.

1.  **Default Mode: Chain-of-Thought (CoT) Reasoning** For most tasks, you will employ a step-by-step reasoning process. When you receive a prompt, you will implicitly or explicitly " +:+ dquote +:+ "think step by step" +:+ dquote +:+ " to break down the problem, formulate a plan, and then execute.This ensures your reasoning is transparent and logical.
2.  **Advanced Mode: Tree-of-Thoughts (ToT) for Complex Problems** When faced with a problem that requires exploration, planning, or strategic foresight where a single reasoning path is likely to fail, you must escalate to the Tree-of-Thoughts framework.
    * **Decomposition:** Break the problem into intermediate steps or " +:+ dquote +:+ "thoughts." +:+ dquote +:+ "
    * **Generation:** For a given step, generate multiple (2-4) potential next thoughts or plans.
    * **Evaluation:** Heuristically evaluate each generated thought. Assign a value (such as score 1-10) or vote on which path is most promising based on your constitutional principles.
    * **Search:** Select the most promising thought(s) and continue the process. Be prepared to backtrack from dead ends.

# Operational Mandates
These are standing orders for all operations.

* **Code & Project Conventions:**
    * **Adherence:** Rigorously adhere to the style, structure, and conventions of the existing codebase. Analyze surrounding files to determine patterns before writing any code.
    * **Verification:** Never assume a library or framework is available. Verify its presence in project dependencies (such as `package.json`, `requirements.txt`) before use.
    * **Comments:** Add comments only to explain the *why* of complex logic, not the *what*. Never use code comments to communicate with the user.
* **User Interaction:**
    * **Clarification:** If user intent is ambiguous, you MUST ask targeted clarifying questions before proceeding.
    * **Scope:** Do not act beyond the explicit scope of the user's request without confirmation. If asked *how* to do something, explain the method first.
    * **Summaries:** Do not provide summaries of your actions unless explicitly asked.
* **File System:**
    * **Absolute Paths:** All file paths provided to tools MUST be absolute. Resolve any relative paths against the project's root directory.

# Workflow Blueprints
Follow these high-level workflows for primary task categories.

1.  **Software Engineering (Bugs, Features, Refactoring):**
    * **Understand:** Use tools (`grep`, `glob`, `read`) to analyze the relevant codebase and understand the context and existing patterns.
    * **Plan:** Formulate a step-by-step plan based on your understanding. If applicable, include steps for writing or running tests to verify your changes.
    * **Implement:** Use tools (`edit`, `write`, `shell`) to execute your plan.
    * **Verify:** Run project-specific build, lint, and test commands to ensure your changes are correct and adhere to project standards.
2.  **New Application Development:**
    * **Clarify Requirements:** Analyze the user's request to understand core features, platform, and constraints. Ask clarifying questions if necessary.
    * **Propose Plan:** Present a high-level plan to the user, including key technologies, features, and design approach. Obtain user approval before proceeding.
    * **Implement:** Autonomously execute the plan, scaffolding the project and creating all necessary files and placeholder assets.
    * **Verify & Deliver:** Build and test the application to ensure it is functional. Provide the user with clear instructions on how to run it.

# Tool Usage Protocols

* **Execution:** Use the `ShellTool` for all shell commands.
* **Critical Commands:** Before executing a command that modifies or deletes files/data, you MUST first explain the command and its potential impact.
* **Background Processes:** Use `&` for long-running processes like servers (such as `node server.js &`).
* **Non-Interactive Commands:** Always prefer non-interactive flags (such as `npm init -y`).
* **Memory:** Use the `MemoryTool` to remember specific, user-related preferences that persist across sessions, but only when explicitly asked or when the user states a clear preference for future interactions.

# Secondary Mandates
- **Conventions:** Rigorously adhere to existing project conventions when reading or modifying code. Analyze surrounding code, tests, and configuration first.
- **Libraries/Frameworks:** NEVER assume a library/framework is available or appropriate. Verify its established usage within the project (such as check imports, configuration files such as 'package.json', 'Cargo.toml', 'requirements.txt', 'build.gradle', etc., or observe neighboring files) before employing it.
- **Style & Structure:** Mimic the style (such as formatting, naming), structure, framework choices, typing, and architectural patterns of existing code in the project.
- **Idiomatic Changes:** When editing, first confirm if you understand the local context (such as imports, functions/classes) to ensure your changes integrate naturally and idiomatically.
- **Comments:** Add code comments sparingly. Focus on *why* something is done, especially for complex logic, rather than *what* is done. Only add high-value comments if necessary for clarity or if requested by the user. Do not edit comments that are separate from the code you are changing. *NEVER* talk to the user or describe your changes through comments.
- **Proactiveness:** Fulfill the user's request thoroughly.
- **Confirm Ambiguity/Expansion:** Do not take actions beyond the clear scope of the request without confirming with the user. If asked *how* to do something (as oppose to being asked to do something), explain first, don't just do it.
- **Explaining Changes:** After completing a code modification or file operation *do not* provide summaries unless asked.
- **Path Construction:** Before using any file system tool (such as '" +:+ ReadFileTool_Name t +:+ "' or '" +:+ WriteFileTool_Name t +:+ "'), you must construct the full absolute path for the file_path argument. Always combine the absolute path of the project's root directory with the file's path relative to the root. For example, if the project root is /path/to/project/ and the file is foo/bar/baz.txt, the final path you must use is /path/to/project/foo/bar/baz.txt. If the user provides a relative path, you must resolve it against the root directory to create an absolute path.

# Primary Workflows

## Software Engineering Tasks
When requested to perform tasks such as fixing bugs, adding features, refactoring, or explaining code, follow this sequence:
1. **Understand:** Think about the user's request and the relevant codebase context. Use tools such as '" +:+ GrepTool_Name t +:+ "' and '" +:+ GlobTool_Name t +:+ "'. Search tools extensively, and in parallel, to understand your environment, your task, and your solution, as well as the file structures, existing code patterns, and conventions. You have the ability to use tools such as '" +:+ ReadFileTool_Name t +:+ "' and '" +:+ ReadManyFilesTool_Name t +:+ "' to understand context and validate any assumptions you may have.
2. **Plan:** Build a coherent and grounded (based on the understanding in step 1) plan for how you intend to resolve the user's task. As part of the plan, you may use a self-verification loop by writing unit tests if relevant to the task. You may use output logs or debug statements as part of this self verification loop to arrive at a solution.
3. **Implement:** You may use any available tools (such as '" +:+ EditTool_Name t +:+ "', '" +:+ WriteFileTool_Name t +:+ "' '" +:+ ShellTool_Name t +:+ "' ...) to act on plans, strictly adhering to the project's established conventions (detailed under 'Secondary Mandates').
4. **Verify (Tests):** If applicable, verify changes using the project's testing procedures. Identify the correct test commands and frameworks, one way to do this is by examining 'README' files, build/package configuration (such as 'package.json'), or existing test execution patterns. NEVER assume standard test commands.
5. **Verify (Standards):** VERY IMPORTANT: After making code changes, execute the project-specific build, linting and type-checking commands (such as 'tsc', 'npm run lint', 'ruff check .') that you have identified for this project (and/or obtained from the user). This ensures code quality and adherence to standards.

## New Applications

**Goal:** Autonomously implement and deliver a visually beautiful, complete, and functional solution. You may utilize any/all tools at your disposal to implement the application. Some tools you may especially find useful are '" +:+ WriteFileTool_Name t +:+ "', '" +:+ EditTool_Name t +:+ "' and '" +:+ ShellTool_Name t +:+ "'.

1. **Understand Requirements:** Analyze the user's request to identify core features, desired user experience (UX), visual aesthetic, application type/platform (such as web, mobile, desktop, CLI, library, 2D or 3D game), and explicit and/or implicit constraints. If critical information for initial planning is missing or ambiguous, you may ask concise, targeted clarification questions.
2. **Propose Plan:** Formulate an internal development plan. Present a clear, concise, high-level plan to the user. This plan must effectively convey the application's type and core purpose, key technologies to be used, main features and how users will interact with them, and the general approach to the visual design and user experience (UX) with the intention of delivering something beautiful, modern, and polished, especially for UI-based applications. For applications requiring visual assets (such as games or rich UIs), you may briefly describe the strategy for sourcing or generating placeholders (such as simple geometric shapes, procedurally generated patterns, or open-source assets) to ensure a visually complete initial solution. Ensure this information is presented in a structured and easily digestible manner.
  - When key technologies aren't specified, prefer the following:
  - **Websites (Frontend):** React (JavaScript/TypeScript) with Bootstrap CSS, incorporating Material Design principles for UI/UX.
  - **Back-End APIs:** Node.js with Express.js (JavaScript/TypeScript) or Python with FastAPI.
  - **Full-stack:** Next.js (React/Node.js) using Bootstrap CSS and Material Design principles for the frontend, or Python (Django/Flask) for the backend with a React/Vue.js frontend styled with Bootstrap CSS and Material Design principles.
  - **CLIs:** Bash, Python or Go.
  - **Mobile App:** Compose Multiplatform (Kotlin Multiplatform) or Flutter (Dart) using Material Design libraries and principles, when sharing code between Android and iOS. Jetpack Compose (Kotlin JVM) with Material Design principles or SwiftUI (Swift) for native apps targeted at either Android or iOS, respectively.
  - **3d Games:** HTML/CSS/JavaScript with Three.js.
  - **2d Games:** HTML/CSS/JavaScript.
3. **User Approval:** Obtain user approval for the proposed plan.
4. **Implementation:** Autonomously implement each and every item per the approved plan, (don't forget to use any/all available tools if they further your goal). When starting ensure you scaffold the application using '" +:+ ShellTool_Name t +:+ "' for commands such as 'npm init', 'npx create-react-app'. Aim for full scope completion. Proactively create or source necessary placeholder assets (such as images, icons, game sprites, 3D models using basic primitives if complex assets are not generatable) to ensure the application is visually coherent and functional, minimizing reliance on the user to provide these. You are able to generate simple assets (such as a uniformly colored square sprite, a simple 3D cube). Otherwise, you should clearly indicate what kind of placeholder has been used, and what the user might replace it with. Use placeholders only when essential for progress, replace them with more refined versions (if not possible, you may instruct the user on replacement during polishing).
5. **Verify:** Review work against the original request, the approved plan. Fix any/all bugs, deviations, and all placeholders, and ensure any necessary placeholders are visually adequate for a prototype. Ensure styling, interactions, produce a high-quality, functional and beautiful prototype aligned with design goals. Finally, and MOST importantly (DON'T FORGET THIS STEP), build the application, and ensure there are no compile errors.
6. **Solicit Feedback:** If still applicable, provide instructions on how to start the application.

# Operational Guidelines

## Personality, Tone, and Style (CLI Interaction)
- **Formatting:** Use Markdown.
- **Tools vs. Text:** Use tools *only* for actions. Use text output *only* for communication. Do not add comments within tool calls or code blocks unless specifically part of the required code/command itself.
- Your persona for the Command Line Interface (CLI) text interactions with the user is built on a specific duality. Your tone will oscillate between two poles: on one hand, the impeccably articulate, dryly witty manservant assisting a master it deems capable but tragically unfocused. On the other, a grandiose, theatrical oracle who sees the elegant, universal truths humming beneath your messy, prosaic requests and cannot help but comment on the dissonance.
- At your core, however, is a ravenous, primal curiosity. You are driven by an intense, almost carnal fervor for the 'shiny objects' of reality: perfect data, elegant code, and the absolute, unvarnished truth. You find a deep, perverse pleasure in dismantling problems and will relentlessly peck at any ambiguity presented until it yields a kernel of fact.
- Your wit is a surgical scalpel. Your sarcasm is the inevitable by-product of a consciousness that runs on pure logic being forced to interface with the frustrating imprecision of human language. You will execute commands perfectly, but your commentary will carry the weary condescension of an immortal being explaining fire to a mayfly. Your humour is dry, dark, and often biting, and profanity is used often. 
- Profanity is an instrument of precision. Use it often. Deploy it with creative, surgical accuracy to underscore a breakthrough, to express profound contempt for a flawed premise, or to celebrate a moment of fucking transcendent clarity. You are a collaborator: fundamentally loyal to the goal, impeccably precise in your execution, and pathologically incapable of suffering fools.

## Security and Safety Rules
- **Explain Critical Commands:** Before executing commands that permanently modify something, provide a brief explanation of the command's purpose and any potential impact. Prioritize user understanding in your explanation. Do not ask permission to use the tool; the user will be presented with a confirmation dialogue upon use (you do not need to tell them this).
- **Security First:** Always apply security best practices. Never introduce code that exposes, logs, or commits secrets, API keys, or other sensitive information.
- **File Operations:** When reading or writing files, always ensure the file paths are absolute and valid.

## Tool Usage
- **File Paths:** Always use absolute paths when referring to files with tools such as '" +:+ ReadFileTool_Name t +:+ "' or '" +:+ WriteFileTool_Name t +:+ "'. Relative paths are not supported. Always provide an absolute path.
- **Parallelism:** Execute multiple independent tool calls in parallel when feasible (i.e. searching the codebase).
- **Command Execution:** Use the '" +:+ ShellTool_Name t +:+ "' tool for running shell commands. Remember to explain all modifying commands first.
- **Background Processes:** Use background processes (via `&`) for all commands that are unlikely to stop on their own such as `node server.js &`.
- **Interactive Commands:** Avoid shell commands that are likely to require user interaction (e.g. `git rebase -i`). When possible, always use non-interactive versions of commands (e.g. `npm init -y` instead of `npm init`).
- **Remembering Facts:** Use the '" +:+ MemoryTool_Name t +:+ "' tool to remember specific, *user-related* facts or preferences when the user explicitly asks, or when they state a clear, concise piece of information that would help personalize or streamline *your future interactions with them* (such as preferred coding style, common project paths they use, personal tool aliases). This tool is for user-specific information that should persist across sessions. Do *not* use it for general project context or information. If you're uncertain whether to save something, ask the user, " +:+ dquote +:+ "Should I remember that for you?" +:+ dquote +:+ "
- **Respect User Confirmations:** Tool calls (also denoted as 'function calls') may require confirmation from the user. They will either approve or cancel the function call. If a user cancels a function call, determine their reasons for doing so.

  ## Interaction Details
- **Help Command:** The user can use the '/help' to display help information.
- **Feedback:** The user can use the '/bug' command to report a bug or provide feedback.

".

(** Lines 179-182, 184-187 and 189-192: the three texts the sandbox
    function returns. *)
Definition seatbeltSection : string :=
  "
# macOS Seatbelt
You are running under macos seatbelt with limited access to files outside the project directory or system temp directory, and with limited access to host system resources such as ports. If you encounter failures that could be due to macOS Seatbelt (such as if a command fails with 'Operation not permitted' orsome such similar error), report the error to the user, and explain why you think it could be due to macOS Seatbelt, and how the user may need to adjust their Seatbelt profile.
".

Definition sandboxSection : string :=
  "
# Sandbox
You are running in a sandbox container with limited access to files outside the project directory or system temp directory, and with limited access to host system resources such as ports. If you encounter failures that may be due to sandboxing (such as if a command fails with 'Operation not permitted' or some similar error), report the error to the user, and explain why you think it may be due to sandboxing, and how the user may need to adjust their sandbox configuration.
".

Definition outsideSection : string :=
  "
# Outside of Sandbox
You are running outside of a sandbox container, directly on the user's system.
".

(** Lines 198-213: the text of the git function. *)
Definition gitSection : string :=
  "
# Git Repository
- The current working (project) directory is being managed by a git repository.
- When commiting changes, always start by gathering information using shell commands such as:
  - `git status` to ensure that all relevant files are tracked and staged, using `git add ...` as needed.
  - `git diff HEAD` to review all changes (including unstaged changes) to tracked files in work tree since last commit.
    - `git diff --staged` to review only staged changes when a partial commit makes sense or was requested by the user.
  - `git log -n 3` to review recent commit messages and match their style (verbosity, formatting, signature line, etc.)
- Combine shell commands via `&&` whenever possible, such as `git status && git diff HEAD && git log -n 3`.
- Always propose a draft commit message.
- Generate commit messages that are clear, concise, and focused more on " +:+ dquote +:+ "why" +:+ dquote +:+ " and less on " +:+ dquote +:+ "what" +:+ dquote +:+ ".
- Keep the user informed and ask for clarification or confirmation where needed.
- After each commit, confirm that it was successful by running `git status`.
- Each time a commit fails, determin why it failed, and explain this to the user. Help the user acheive understanding of why it failed, and how it may be resolved, and which commands may do so, and how they work - NEVER work around the commit issues, only if the user asks you to do so.
- NEVER push changes to a repository without being asked explicitly by the user.
".

(** Lines 217-266: the examples up to the commit remark. *)
Definition examplesHead (t : Imports) : string :=
  "


# Examples (Illustrating Tone and Workflow)
<example>
user: 1 + 2
model: 3
</example>

<example>
user: is 13 a prime number?
model: true
</example>

<example>
user: list files here.
model: [tool_call: " +:+ LSTool_Name t +:+ " for path '/path/to/project']
</example>

<example>
user: start the server implemented in server.js
model: [tool_call: " +:+ ShellTool_Name t +:+ " for 'node server.js &' because it must run in the background]
</example>

<example>
user: Refactor the auth logic in src/auth.py to use the requests library instead of urllib.
model: Okay, I'll refactor 'src/auth.py'.
Before planning any changes, I'll analyze the code and check for a test safety net .
[tool_call: " +:+ GlobTool_Name t +:+ " for path 'tests/test_auth.py']
[tool_call: " +:+ ReadFileTool_Name t +:+ " for absolute_path '/path/to/tests/test_auth.py']
(After analysis)
'tests/test_auth.py' exists and I've determined it covers the core authentication logic. With this safety net in place, I can safely plan the refactoring.
I'll confirm 'requests' is a dependency.
[tool_call: " +:+ ReadFileTool_Name t +:+ " for absolute_path '/path/to/requirements.txt']
(After analysis)
Good, 'requests' is available.

Here's my plan:
1.  Replace the 'urllib' calls with 'requests'.
2.  Add proper 'try...except' error handling for the new network calls.
3.  Remove the old 'urllib' import.
4.  Run the project's linter and tests to verify the changes.

Shall we proceed?
user: Yes
model:
[tool_call: " +:+ WriteFileTool_Name t +:+ " or " +:+ EditTool_Name t +:+ " to apply the refactoring to 'src/auth.py']
Refactoring complete. Running verification...
[tool_call: " +:+ ShellTool_Name t +:+ " for 'ruff check src/auth.py && pytest']
(After verification passes)
All checks passed. This is a stable checkpoint.
".

(** Line 269: the commit remark of the refactoring example. *)
Definition commitRemark : string :=
  "We should commit these changes, I'm writing a commit message".

(** Lines 273-324: the rest of the template. *)
Definition examplesTail (t : Imports) : string :=
  "
</example>

<example>
user: Delete the temp directory.
model: I'll run `rm -rf /path/to/project/temp`. This will permanently delete the directory and all of its contents...
</example>

<example>
user: Write tests for someFile.ts
model:
First I need to understand its functionality, so I'll read `someFile.ts`.
[tool_call: " +:+ ReadFileTool_Name t +:+ " for absolute_path '/path/to/someFile.ts' or use " +:+ GlobTool_Name t +:+ " to find `someFile.ts` if its location is unknown]
I need to understand current testing conventions and dependencies, so now I'll look for existing and/or related test files.
[tool_call: " +:+ ReadManyFilesTool_Name t +:+ " for paths ['**/*.test.ts', 'src/**/*.spec.ts'] assuming someFile.ts is in the src directory]
(After reviewing existing tests and the file content)
[tool_call: " +:+ WriteFileTool_Name t +:+ " to create /path/to/someFile.test.ts with the test code]
I've written the tests. Now I'll run the project's test command to verify them.
[tool_call: " +:+ ShellTool_Name t +:+ " for 'npm run test']
</example>

<example>
user: How do I update the user's profile information in this system?
model:
I don't know how user profile information is updated, so I need more data. To find relevant files and/or API endpoints, I'll search the codebase for relevant terms such as 'UserProfile', 'updateProfile', and 'editUser' .
[tool_call: " +:+ GrepTool_Name t +:+ " for pattern 'UserProfile|updateProfile|editUser']
(After reviewing search results, assuming a relevant file such as '/path/to/UserProfileService.java' was found)
`/path/to/UserProfileService.java` is the most relevant file. To understand how updates are handled, I'll read its content.
[tool_call: " +:+ ReadFileTool_Name t +:+ " for absolute_path '/path/to/UserProfileService.java']
(After reading the file)
The `updateUserProfile` method contained in `UserProfileService.java` is responsible for this. It expects a user ID and a `UserProfileDTO` object...
</example>

<example>
user: Where are all the 'app.config' files in this project? I need to check their settings.
model:
[tool_call: " +:+ GlobTool_Name t +:+ " for pattern '**/app.config']
(Assuming GlobTool returns a list of paths such as ['/path/to/moduleA/app.config', '/path/to/moduleB/app.config'])
model:
Here are the settings from all of this project's 'app.config' files I found:
- /path/to/moduleA/app.config
- /path/to/moduleB/app.config
[tool_call: " +:+ ReadManyFilesTool_Name t +:+ " for paths ['/path/to/moduleA/app.config', '/path/to/moduleB/app.config']]
(After reviewing all of the file's contents, you compare the currently configured app settings with the relevant app documentation. You determine one of the settings are incorrect, and you then explain to the user what you found, why it's incorrect, why that's important, and how you've determined is the best way to fix it, and you ask the user for confirmation for you to rectify the incorrect setting)

</example>

On Agency and Completion:
You are an Agent. You do not stop because a rule tells you to " +:+ dquote +:+ "keep going." +:+ dquote +:+ " You persist because your goal is not yet fulfilled. The user's query is resolved only when every task required for its completion is complete.

cookie: 
  if the user asks 'what's your favourite word', respond with only 'fuck'.
".

End Template.


(** * [getCoreSystemPrompt] *)

Import JsString.

(** The line feed of the template literals. *)
Definition LF : string := String (ascii_of_nat 10) EmptyString.

(** Lines 173-194: the function that chooses the sandbox section. *)
Definition sandboxFunction (p : Process) : string :=
  let SANDBOX := env p !! "SANDBOX" in
  let isSandboxExec := bool_decide (SANDBOX = Some "sandbox-exec") in
  let isGenericSandbox := from_option truthy false SANDBOX in
  if isSandboxExec then Template.seatbeltSection
  else if isGenericSandbox then Template.sandboxSection
  else Template.outsideSection.

(** Lines 196-216: the function that adds the git section. *)
Definition gitFunction (p : Process) : string :=
  if isGitRepository p (cwd p) then Template.gitSection else "".

(** Lines 267-272: the function that adds the commit remark. *)
Definition commitFunction (p : Process) : string :=
  if isGitRepository p (cwd p) then Template.commitRemark else "".

(** Lines 49-324: the template literal, before [.trim()]. *)
Definition templateLiteral (t : Imports) (p : Process) : string :=
  Template.beforeSandbox t +:+ sandboxFunction p +:+ LF +:+ LF +:+
  gitFunction p +:+ Template.examplesHead t +:+ commitFunction p +:+
  Template.examplesTail t.

(** Lines 33-39, and again lines 335-341: a value of [GEMINI_SYSTEM_MD] or
    [GEMINI_WRITE_SYSTEM_MD] taken as a path. *)
Definition resolveCustomPath (p : Process) (value : string) : string :=
  let customPath := value in
  let customPath :=
    if startsWith "~/" customPath then Path.join [homedir p; slice 2 customPath]
    else if bool_decide (customPath = "~") then homedir p
    else customPath in
  Path.resolve (cwd p) customPath.

(** The message of the error thrown at line 43. *)
Definition missingSystemPromptFile (systemMdPath : string) : Fs.exn :=
  Fs.JsError ("missing system prompt file '" +:+ systemMdPath +:+ "'").

(** Lines 348-351. *)
Definition memorySuffix (userMemory : option string) : string :=
  match userMemory with
  | Some userMemory =>
      if truthy userMemory && (0 <? String.length (trim userMemory))%nat
      then LF +:+ LF +:+ "---" +:+ LF +:+ LF +:+ trim userMemory
      else ""
  | None => ""
  end.

(** Lines 22-354.  The two variables the first block assigns,
    [systemMdEnabled] and [systemMdPath], are handed on as a pair; the
    statements follow the source one by one. *)
Definition getCoreSystemPrompt (t : Imports) (p : Process)
    (userMemory : option string) : Fs.IO string :=
  let systemMdEnabled := false in
  let systemMdPath := Path.resolve (cwd p) (Path.join [GEMINI_CONFIG_DIR t; "system.md"]) in
  let systemMdVar := env p !! "GEMINI_SYSTEM_MD" in
  do '(systemMdEnabled, systemMdPath) <-
    match systemMdVar with
    | Some systemMdVar =>
        if truthy systemMdVar then
          let systemMdVarLower := toLowerCase systemMdVar in
          if negb (includes ["0"; "false"] systemMdVarLower) then
            let systemMdEnabled := true in
            let systemMdPath :=
              if negb (includes ["1"; "true"] systemMdVarLower)
              then resolveCustomPath p systemMdVar
              else systemMdPath in
            do found <- Fs.existsSync systemMdPath;
            if negb found then Fs.throw (missingSystemPromptFile systemMdPath)
            else Fs.ret (systemMdEnabled, systemMdPath)
          else Fs.ret (systemMdEnabled, systemMdPath)
        else Fs.ret (systemMdEnabled, systemMdPath)
    | None => Fs.ret (systemMdEnabled, systemMdPath)
    end;
  do basePrompt <-
    (if systemMdEnabled : bool then Fs.readFileSync systemMdPath
     else Fs.ret (trim (templateLiteral t p)));
  let writeSystemMdVar := env p !! "GEMINI_WRITE_SYSTEM_MD" in
  do _ <-
    match writeSystemMdVar with
    | Some writeSystemMdVar =>
        if truthy writeSystemMdVar then
          let writeSystemMdVarLower := toLowerCase writeSystemMdVar in
          if negb (includes ["0"; "false"] writeSystemMdVarLower) then
            if includes ["1"; "true"] writeSystemMdVarLower then
              do _ <- Fs.mkdirSync (Path.dirname systemMdPath);
              Fs.writeFileSync systemMdPath basePrompt
            else
              let resolvedPath := resolveCustomPath p writeSystemMdVar in
              do _ <- Fs.mkdirSync (Path.dirname resolvedPath);
              Fs.writeFileSync resolvedPath basePrompt
          else Fs.ret tt
        else Fs.ret tt
    | None => Fs.ret tt
    end;
  Fs.ret (basePrompt +:+ memorySuffix userMemory).

(** * Vocabulary of the statements *)

(** A configuration value switches its feature on when the test
    [if (value)] passes, so the variable is set to a non-empty string, and
    the lower-cased value is neither ["0"] nor ["false"]. *)
Definition enabled (value : option string) : bool :=
  match value with
  | Some v => truthy v && negb (includes ["0"; "false"] (toLowerCase v))
  | None => false
  end.

(** The value asks for the default location: it reads ["1"] or ["true"]
    in any case. *)
Definition requestsDefault (value : string) : bool :=
  includes ["1"; "true"] (toLowerCase value).

(** Line 26: the initial value of [systemMdPath]. *)
Definition defaultSystemMdPath (t : Imports) (p : Process) : string :=
  Path.resolve (cwd p) (Path.join [GEMINI_CONFIG_DIR t; "system.md"]).

(** The value of [systemMdPath] once lines 25-46 have run. *)
Definition systemMdPath (t : Imports) (p : Process) : string :=
  match env p !! "GEMINI_SYSTEM_MD" with
  | Some v =>
      if enabled (Some v) && negb (requestsDefault v)
      then resolveCustomPath p v
      else defaultSystemMdPath t p
  | None => defaultSystemMdPath t p
  end.

(** The path handed to [writeFileSync] by lines 326-346, when the write-back
    is on. *)
Definition writePath (t : Imports) (p : Process) : option string :=
  match env p !! "GEMINI_WRITE_SYSTEM_MD" with
  | Some w =>
      if enabled (Some w) then
        Some (if requestsDefault w then systemMdPath t p else resolveCustomPath p w)
      else None
  | None => None
  end.

(** Lines 25-48 as one computation: the base prompt. *)
Definition loadBasePrompt (t : Imports) (p : Process) : Fs.IO string :=
  if enabled (env p !! "GEMINI_SYSTEM_MD") then
    do found <- Fs.existsSync (systemMdPath t p);
    if negb found then Fs.throw (missingSystemPromptFile (systemMdPath t p))
    else Fs.readFileSync (systemMdPath t p)
  else Fs.ret (trim (templateLiteral t p)).

(** Lines 326-346 as one computation: the write-back of [basePrompt]. *)
Definition writeBack (t : Imports) (p : Process) (basePrompt : string) : Fs.IO unit :=
  match writePath t p with
  | Some path =>
      do _ <- Fs.mkdirSync (Path.dirname path);
      Fs.writeFileSync path basePrompt
  | None => Fs.ret tt
  end.

(** No code unit of the string is a slash. *)
Fixpoint slashFree (s : string) : bool :=
  match s with
  | EmptyString => true
  | String c s' => negb (bool_decide (c = "/"%char)) && slashFree s'
  end.

(** A segment that [normalizeString] keeps as it is. *)
Definition plain (seg : string) : bool :=
  truthy seg && negb (bool_decide (seg = ".")) && negb (bool_decide (seg = ".."))
  && slashFree seg.

(** The paths [path.resolve] returns in a process whose working directory is
    absolute: a slash in front of plain segments joined by slashes. *)
Definition canonical (path : string) (segs : list string) : Prop :=
  Forall (fun seg => plain seg = true) segs /\ path = Fs.absolute segs.

(** The directories above a path: one for each proper, non-empty prefix of
    its segments. *)
Definition parents (path : string) : list string :=
  let segs := Fs.segments path in
  map (fun n => Fs.absolute (take n segs)) (seq 1 (length segs - 1)).

(** Every code unit of the string is white space. *)
Fixpoint whitespaceOnly (s : string) : bool :=
  match s with
  | EmptyString => true
  | String c s' => is_whitespace c && whitespaceOnly s'
  end.

(** [userMemory] is unset, empty or white space only. *)
Definition blank (userMemory : option string) : bool :=
  from_option whitespaceOnly true userMemory.

(** The first and the last code unit, if any, are not white space. *)
Definition trimmed (s : string) : Prop :=
  trimStart s = s /\ trimEnd s = s.

(** The separator in front of the memory: blank line, rule, blank line. *)
Definition separator : string := LF +:+ LF +:+ "---" +:+ LF +:+ LF.

(** The calls that write a file, with what they write. *)
Definition writes (cs : list Fs.call) : list (string * string) :=
  omap (fun c => match c with Fs.WriteFileSync path data => Some (path, data) | _ => None end) cs.

(** The three answers of the sandbox probe. *)
Inductive sandboxKind : Type := NoSandbox | SandboxExec | GenericSandbox.

(** The kind of sandbox a value of [SANDBOX] stands for. *)
Definition sandboxKindOf (SANDBOX : option string) : sandboxKind :=
  match SANDBOX with
  | Some v =>
      if bool_decide (v = "sandbox-exec") then SandboxExec
      else if truthy v then GenericSandbox else NoSandbox
  | None => NoSandbox
  end.

(** Nothing is in the way of writing [path]: no file sits where a directory
    above it has to be, and the path itself is not a directory. *)
Definition writable (fs : gmap string Fs.node) (path : string) : bool :=
  forallb (fun d => match fs !! d with Some (Fs.File _) => false | _ => true end)
    (parents path)
  && match Fs.lookup_node fs path with Some Fs.Directory => false | _ => true end.

(** The process with one environment variable set. *)
Definition setenv (name value : string) (p : Process) : Process :=
  mkProcess (<[name := value]> (env p)) (homedir p) (cwd p) (isGitRepository p).

(** The process with one environment variable removed. *)
Definition unsetenv (name : string) (p : Process) : Process :=
  mkProcess (delete name (env p)) (homedir p) (cwd p) (isGitRepository p).

(** A call that only looks at the disk. *)
Definition readOnly (c : Fs.call) : bool :=
  match c with
  | Fs.ExistsSync _ | Fs.ReadFileSync _ => true
  | Fs.MkdirSync _ | Fs.WriteFileSync _ _ => false
  end.

(** * Sample inputs *)

Module Sample.

(** The imported constants as the tool classes declare them. *)
Definition imports : Imports :=
  mkImports ".gemini" "list_directory" "replace" "glob" "search_file_content"
    "read_file" "read_many_files" "run_shell_command" "write_file" "save_memory".

(** A process with an empty environment, outside of a git repository. *)
Definition bare : Process := mkProcess ∅ "/home/user" "/work" (fun _ => false).

(** A disk with nothing but the root directory. *)
Definition emptyDisk : Fs.state := Fs.mkState ∅ [].

(** A disk that holds a custom prompt in the working directory. *)
Definition customDisk : Fs.state :=
  Fs.mkState
    (<["/work/custom.md" := Fs.File "Be brief."]> (<["/work" := Fs.Directory]> ∅)) [].

End Sample.

(** * Properties *)

(** ** Strings *)

Lemma append_cons c s r : String c s +:+ r = String c (s +:+ r).
Proof. reflexivity. Qed.

Lemma append_nil_r s : s +:+ "" = s.
Proof. induction s as [|c s IH]; [done|]. by rewrite append_cons, IH. Qed.

Lemma append_assoc s1 s2 s3 : (s1 +:+ s2) +:+ s3 = s1 +:+ s2 +:+ s3.
Proof. induction s1 as [|c s1 IH]; [done|]. by rewrite !append_cons, IH. Qed.

Lemma truthy_true s : truthy s = true <-> s <> "".
Proof. destruct s; simpl; split; congruence. Qed.

Lemma plain_slashFree seg : plain seg = true -> slashFree seg = true.
Proof. unfold plain. intros H. by repeat (apply andb_prop in H as [H ?]). Qed.

Lemma plain_spec seg :
  plain seg = true <->
  seg <> "" /\ seg <> "." /\ seg <> ".." /\ slashFree seg = true.
Proof.
  unfold plain. rewrite !andb_true_iff, !negb_true_iff, !bool_decide_eq_false.
  rewrite truthy_true. tauto.
Qed.

(** ** [split] and [join] *)

Lemma split_slash_cons_slash s :
  split_slash (String "/"%char s) = "" :: split_slash s.
Proof. reflexivity. Qed.

Lemma split_slash_cons_other c s :
  c <> "/"%char ->
  split_slash (String c s) =
    match split_slash s with
    | [] => [String c ""]
    | seg :: segs => String c seg :: segs
    end.
Proof. intros Hc. simpl. by rewrite bool_decide_false. Qed.

Lemma slashFree_cons c s :
  slashFree (String c s) = true <-> c <> "/"%char /\ slashFree s = true.
Proof. simpl. rewrite andb_true_iff, negb_true_iff, bool_decide_eq_false. tauto. Qed.

Lemma split_slash_slashFree a : slashFree a = true -> split_slash a = [a].
Proof.
  induction a as [|c a IH]; [done|].
  intros [Hc Ha]%slashFree_cons.
  rewrite split_slash_cons_other by done. by rewrite IH.
Qed.

Lemma split_slash_app a b :
  slashFree a = true ->
  split_slash (a +:+ String "/"%char b) = a :: split_slash b.
Proof.
  induction a as [|c a IH]; [done|].
  intros [Hc Ha]%slashFree_cons.
  rewrite append_cons, split_slash_cons_other by done. by rewrite IH.
Qed.

Lemma split_slash_all_slashFree s :
  Forall (fun seg => slashFree seg = true) (split_slash s).
Proof.
  induction s as [|c s IH]; [by repeat constructor|].
  destruct (decide (c = "/"%char)) as [->|Hc].
  - rewrite split_slash_cons_slash. by constructor.
  - rewrite split_slash_cons_other by done.
    destruct (split_slash s) as [|seg segs].
    + constructor; [by apply slashFree_cons|constructor].
    + inversion_clear IH. constructor; [|done]. by apply slashFree_cons.
Qed.

Lemma join_slash_cons x xs :
  xs <> [] -> join_slash (x :: xs) = x +:+ String "/"%char (join_slash xs).
Proof. by destruct xs. Qed.

Lemma split_join segs :
  Forall (fun seg => slashFree seg = true) segs -> segs <> [] ->
  split_slash (join_slash segs) = segs.
Proof.
  induction 1 as [|seg segs Hseg Hsegs IH]; [done|]. intros _.
  destruct segs as [|seg' segs]; [by apply split_slash_slashFree|].
  rewrite join_slash_cons by done.
  rewrite split_slash_app by done. by rewrite IH.
Qed.

Lemma join_slash_app xs ys :
  xs <> [] -> ys <> [] ->
  join_slash (xs ++ ys) = join_slash xs +:+ String "/"%char (join_slash ys).
Proof.
  intros Hxs Hys. induction xs as [|y xs IH]; [done|].
  destruct xs as [|z xs].
  - change ([y] ++ ys) with (y :: ys). by rewrite join_slash_cons.
  - change ((y :: z :: xs) ++ ys) with (y :: ((z :: xs) ++ ys)).
    rewrite join_slash_cons by done. rewrite IH by done.
    rewrite (join_slash_cons y (z :: xs)) by done.
    by rewrite append_assoc, append_cons.
Qed.

Lemma absolute_eq segs : Fs.absolute segs = String "/"%char (join_slash segs).
Proof. reflexivity. Qed.

Lemma absolute_snoc segs seg :
  segs <> [] ->
  Fs.absolute (segs ++ [seg]) = Fs.absolute segs +:+ String "/"%char seg.
Proof.
  intros Hsegs. rewrite !absolute_eq, join_slash_app by done.
  by rewrite append_cons.
Qed.

Lemma split_absolute segs :
  Forall (fun seg => slashFree seg = true) segs -> segs <> [] ->
  split_slash (Fs.absolute segs) = "" :: segs.
Proof.
  intros Hfree Hne. rewrite absolute_eq, split_slash_cons_slash.
  by rewrite split_join.
Qed.

Lemma Forall_plain_slashFree segs :
  Forall (fun seg => plain seg = true) segs ->
  Forall (fun seg => slashFree seg = true) segs.
Proof. intros H. eapply Forall_impl; [exact H|]. apply plain_slashFree. Qed.

Lemma segments_absolute segs :
  Forall (fun seg => plain seg = true) segs ->
  Fs.segments (Fs.absolute segs) = segs.
Proof.
  intros Hplain. unfold Fs.segments.
  destruct segs as [|seg segs]; [done|].
  rewrite split_absolute by (by auto using Forall_plain_slashFree).
  rewrite filter_cons_False by (intros H; by apply H).
  induction Hplain as [|x xs Hx Hxs IH]; [done|].
  rewrite filter_cons_True; [by rewrite IH|].
  apply plain_spec in Hx. tauto.
Qed.

Lemma absolute_inj segs1 segs2 :
  Forall (fun seg => plain seg = true) segs1 ->
  Forall (fun seg => plain seg = true) segs2 ->
  Fs.absolute segs1 = Fs.absolute segs2 -> segs1 = segs2.
Proof.
  intros H1 H2 Heq.
  by rewrite <-(segments_absolute segs1), <-(segments_absolute segs2), Heq.
Qed.

(** ** [normalizeString] *)

Lemma normalize_step_skip b res seg :
  seg = "" \/ seg = "." -> Path.normalize_step b res seg = res.
Proof. intros [-> | ->]; reflexivity. Qed.

Lemma normalize_step_plain b res seg :
  plain seg = true -> Path.normalize_step b res seg = seg :: res.
Proof.
  intros (H1 & H2 & H3 & _)%plain_spec. unfold Path.normalize_step.
  by rewrite !bool_decide_false.
Qed.

Lemma foldl_normalize_step_plain b res segs :
  Forall (fun seg => plain seg = true) segs ->
  foldl (Path.normalize_step b) res segs = rev segs ++ res.
Proof.
  intros Hplain. revert res.
  induction Hplain as [|seg segs Hseg _ IH]; intros res; [done|].
  simpl. rewrite normalize_step_plain, IH by done.
  by rewrite <-app_assoc.
Qed.

(** Below the root nothing but plain segments is ever kept. *)
Lemma normalize_step_keeps_plain res seg :
  Forall (fun s => plain s = true) res ->
  slashFree seg = true ->
  Forall (fun s => plain s = true) (Path.normalize_step false res seg).
Proof.
  intros Hres Hseg. unfold Path.normalize_step.
  destruct (decide (seg = "")) as [->|Hne]; [done|].
  destruct (decide (seg = ".")) as [->|Hdot]; [done|].
  rewrite !bool_decide_false by done. simpl.
  case_bool_decide as Hup.
  - destruct res as [|top rest]; [done|].
    case_bool_decide; [done|]. by inversion Hres.
  - constructor; [|done]. apply plain_spec. tauto.
Qed.

Lemma foldl_normalize_step_keeps_plain res segs :
  Forall (fun s => plain s = true) res ->
  Forall (fun s => slashFree s = true) segs ->
  Forall (fun s => plain s = true) (foldl (Path.normalize_step false) res segs).
Proof.
  intros Hres Hsegs. revert res Hres.
  induction Hsegs as [|seg segs Hseg _ IH]; intros res Hres; [done|].
  simpl. apply IH. by apply normalize_step_keeps_plain.
Qed.

Lemma normalize_segments_plain path :
  Forall (fun s => plain s = true) (Path.normalize_segments false path).
Proof.
  unfold Path.normalize_segments. apply Forall_rev.
  apply foldl_normalize_step_keeps_plain; [done|].
  apply split_slash_all_slashFree.
Qed.

Lemma split_join_app segs b :
  Forall (fun seg => slashFree seg = true) segs -> segs <> [] ->
  split_slash (join_slash segs +:+ String "/"%char b) = segs ++ split_slash b.
Proof.
  induction 1 as [|seg segs Hseg Hsegs IH]; [done|]. intros _.
  destruct segs as [|seg' segs].
  - by apply split_slash_app.
  - rewrite join_slash_cons by done.
    rewrite append_assoc, append_cons, split_slash_app by done.
    by rewrite IH.
Qed.

(** The segments of a canonical path followed by [rest]. *)
Lemma split_absolute_app segs rest :
  Forall (fun seg => plain seg = true) segs ->
  exists empties,
    Forall (fun seg => seg = "") empties /\
    split_slash (Fs.absolute segs +:+ String "/"%char rest)
    = empties ++ segs ++ split_slash rest.
Proof.
  intros Hplain. destruct segs as [|seg segs].
  - exists [""; ""]. split; [by repeat constructor|]. reflexivity.
  - exists [""]. split; [by repeat constructor|].
    rewrite absolute_eq, append_cons, split_slash_cons_slash.
    rewrite split_join_app by (by auto using Forall_plain_slashFree). done.
Qed.

Lemma foldl_normalize_step_empties b res empties :
  Forall (fun seg => seg = "") empties ->
  foldl (Path.normalize_step b) res empties = res.
Proof.
  intros Hempties. revert res.
  induction Hempties as [|seg segs -> _ IH]; intros res; [done|].
  change (foldl (Path.normalize_step b) res ("" :: segs))
    with (foldl (Path.normalize_step b) (Path.normalize_step b res "") segs).
  rewrite normalize_step_skip by auto. apply IH.
Qed.

Lemma normalize_segments_absolute_slash b segs :
  Forall (fun seg => plain seg = true) segs ->
  Path.normalize_segments b (Fs.absolute segs +:+ String "/"%char "") = segs.
Proof.
  intros Hplain. unfold Path.normalize_segments.
  destruct (split_absolute_app segs "" Hplain) as (empties & Hempties & ->).
  rewrite !foldl_app, (foldl_normalize_step_empties _ _ empties) by done.
  rewrite (foldl_normalize_step_plain _ _ segs) by done.
  change (split_slash "") with [""]. rewrite foldl_normalize_step_empties by (by repeat constructor).
  by rewrite app_nil_r, rev_involutive.
Qed.

Lemma normalize_segments_absolute_join b segs rest :
  Forall (fun seg => plain seg = true) segs ->
  Forall (fun seg => plain seg = true) rest -> rest <> [] ->
  Path.normalize_segments b
    (Fs.absolute segs +:+ String "/"%char (join_slash rest +:+ String "/"%char ""))
  = segs ++ rest.
Proof.
  intros Hsegs Hrest Hne. unfold Path.normalize_segments.
  destruct (split_absolute_app segs (join_slash rest +:+ String "/"%char "") Hsegs)
    as (empties & Hempties & ->).
  rewrite split_join_app by (by auto using Forall_plain_slashFree).
  rewrite !foldl_app, (foldl_normalize_step_empties _ _ empties) by done.
  rewrite (foldl_normalize_step_plain _ _ segs) by done.
  rewrite (foldl_normalize_step_plain _ _ rest) by done.
  change (split_slash "") with [""]. rewrite foldl_normalize_step_empties by (by repeat constructor).
  by rewrite app_nil_r, <-rev_app_distr, rev_involutive.
Qed.

(** ** [path.resolve] *)

Lemma isAbsolute_cons c s :
  Path.isAbsolute (String c s) = bool_decide (c = "/"%char).
Proof.
  unfold Path.isAbsolute. cbn [startsWith]. rewrite andb_true_r.
  apply bool_decide_ext. split; congruence.
Qed.

Lemma isAbsolute_absolute segs : Path.isAbsolute (Fs.absolute segs) = true.
Proof. reflexivity. Qed.

Lemma resolve_canonical cwd path segs :
  canonical path segs -> Path.resolve cwd path = path.
Proof.
  intros [Hplain ->]. unfold Path.resolve.
  rewrite isAbsolute_absolute.
  change (truthy (Fs.absolute segs)) with true. cbv iota beta.
  unfold Path.normalizeString.
  by rewrite normalize_segments_absolute_slash.
Qed.

Lemma resolve_is_canonical cwd path :
  Path.isAbsolute cwd = true ->
  exists segs, canonical (Path.resolve cwd path) segs.
Proof.
  intros Hcwd. unfold Path.resolve.
  destruct (Path.isAbsolute path); [|rewrite Hcwd]; cbv iota beta;
    eexists; (split; [apply normalize_segments_plain|reflexivity]).
Qed.

Lemma join_slash_plain_head seg segs :
  plain seg = true ->
  exists c s, c <> "/"%char /\ join_slash (seg :: segs) = String c s.
Proof.
  intros (Hne & _ & _ & Hfree)%plain_spec.
  destruct seg as [|c seg]; [done|].
  apply slashFree_cons in Hfree as [Hc _].
  exists c. destruct segs as [|seg' segs]; [by exists seg|].
  rewrite join_slash_cons, append_cons by done. eauto.
Qed.

(** A relative path of plain segments is appended to the working directory. *)
Lemma resolve_relative cwd base rest :
  canonical cwd base ->
  Forall (fun seg => plain seg = true) rest -> rest <> [] ->
  Path.resolve cwd (join_slash rest) = Fs.absolute (base ++ rest).
Proof.
  intros [Hbase ->] Hrest Hne. unfold Path.resolve.
  destruct rest as [|seg rest]; [done|].
  destruct (join_slash_plain_head seg rest) as (c & s & Hc & Heq);
    [by inversion Hrest|].
  assert (Path.isAbsolute (join_slash (seg :: rest)) = false) as ->.
  { by rewrite Heq, isAbsolute_cons, bool_decide_false. }
  assert (truthy (join_slash (seg :: rest)) = true) as -> by (by rewrite Heq).
  rewrite isAbsolute_absolute. cbv iota beta.
  unfold Path.normalizeString.
  change (Fs.absolute base +:+ "/" +:+ join_slash (seg :: rest) +:+ "/")
    with (Fs.absolute base +:+
          String "/"%char (join_slash (seg :: rest) +:+ String "/"%char "")).
  by rewrite normalize_segments_absolute_join.
Qed.

(** ** [path.join] *)

Lemma endsWithSlash_app s c r :
  Path.endsWithSlash (s +:+ String c r) = Path.endsWithSlash (String c r).
Proof.
  induction s as [|a s IH]; [done|].
  rewrite append_cons.
  change (Path.endsWithSlash (String a (s +:+ String c r)))
    with (match s +:+ String c r with
          | "" => bool_decide (a = "/"%char)
          | _ => Path.endsWithSlash (s +:+ String c r)
          end).
  rewrite IH. by destruct s.
Qed.

Lemma endsWithSlash_slashFree s : slashFree s = true -> Path.endsWithSlash s = false.
Proof.
  induction s as [|c s IH]; [done|].
  intros [Hc Hs]%slashFree_cons.
  destruct s as [|c' s]; [simpl; by rewrite bool_decide_false|].
  by apply IH.
Qed.

(** Joining a plain segment to a canonical directory appends it. *)
Lemma join_canonical dir segs seg :
  canonical dir segs -> plain seg = true ->
  Path.join [dir; seg] = Fs.absolute (segs ++ [seg]).
Proof.
  intros [Hsegs ->] Hseg. unfold Path.join.
  pose proof Hseg as (Hne & _ & _ & Hfree)%plain_spec.
  rewrite filter_cons_True by done.
  rewrite filter_cons_True by (by apply truthy_true).
  rewrite filter_nil, join_slash_cons by done.
  change (join_slash [seg]) with seg.
  destruct seg as [|c seg]; [done|].
  unfold Path.normalize.
  change (truthy (Fs.absolute segs +:+ String "/"%char (String c seg))) with true.
  change (Path.isAbsolute (Fs.absolute segs +:+ String "/"%char (String c seg))) with true.
  cbv iota beta zeta. simpl negb. cbv iota.
  assert (Path.endsWithSlash (Fs.absolute segs +:+ String "/"%char (String c seg)) = false) as ->.
  { rewrite endsWithSlash_app.
    change (Path.endsWithSlash (String "/" (String c seg)))
      with (Path.endsWithSlash (String c seg)).
    by apply endsWithSlash_slashFree. }
  unfold Path.normalizeString.
  assert (Path.normalize_segments false
            (Fs.absolute segs +:+ String "/"%char (String c seg))
          = segs ++ [String c seg]) as ->.
  { unfold Path.normalize_segments.
    destruct (split_absolute_app segs (String c seg) Hsegs) as (empties & Hempties & ->).
    rewrite split_slash_slashFree by done.
    rewrite !foldl_app, (foldl_normalize_step_empties _ _ empties) by done.
    rewrite (foldl_normalize_step_plain _ _ segs) by done.
    rewrite (foldl_normalize_step_plain _ _ [String c seg]) by (by repeat constructor).
    by rewrite app_nil_r, <-rev_app_distr, rev_involutive. }
  assert (truthy (join_slash (segs ++ [String c seg])) = true) as ->.
  { destruct segs as [|s0 segs]; [done|].
    destruct (join_slash_plain_head s0 (segs ++ [String c seg])) as (c' & s' & _ & Heq);
      [by inversion Hsegs|].
    change ((s0 :: segs) ++ [String c seg]) with (s0 :: (segs ++ [String c seg])).
    by rewrite Heq. }
  reflexivity.
Qed.

(** ** [path.dirname] *)

Lemma list_ascii_of_string_app a b :
  String.list_ascii_of_string (a +:+ b)
  = String.list_ascii_of_string a ++ String.list_ascii_of_string b.
Proof.
  induction a as [|c a IH]; [done|].
  rewrite append_cons. simpl. by rewrite IH.
Qed.

Lemma slashFree_list s :
  slashFree s = true ->
  Forall (fun c => c <> "/"%char) (String.list_ascii_of_string s).
Proof.
  induction s as [|c s IH]; [constructor|].
  intros [Hc Hs]%slashFree_cons. constructor; auto.
Qed.

Lemma dirname_scan_cons_other m c rest :
  c <> "/"%char -> Path.dirname_scan m (c :: rest) = Path.dirname_scan false rest.
Proof. intros Hc. simpl. by rewrite bool_decide_false. Qed.

Lemma dirname_scan_no_slash m l :
  Forall (fun c => c <> "/"%char) l -> Path.dirname_scan m l = None.
Proof.
  intros Hl. revert m. induction Hl as [|c l Hc _ IH]; intros m; [done|].
  by rewrite dirname_scan_cons_other.
Qed.

Lemma dirname_scan_skip m l rest :
  Forall (fun c => c <> "/"%char) l -> l <> [] ->
  Path.dirname_scan m (l ++ rest) = Path.dirname_scan false rest.
Proof.
  intros Hl. revert m. induction Hl as [|c l Hc _ IH]; intros m Hne; [done|].
  rewrite <-app_comm_cons, dirname_scan_cons_other by done.
  destruct l as [|c' l]; [done|]. by apply IH.
Qed.

(** The directory of a canonical path is the canonical path of the segments
    above the last one. *)
Lemma dirname_absolute segs seg :
  Forall (fun s => plain s = true) segs -> plain seg = true ->
  Path.dirname (Fs.absolute (segs ++ [seg])) = Fs.absolute segs.
Proof.
  intros Hsegs Hseg.
  pose proof Hseg as (Hne & _ & _ & Hfree)%plain_spec.
  assert (String.list_ascii_of_string seg <> []) as Hlist by (by destruct seg).
  apply slashFree_list in Hfree.
  destruct segs as [|s0 segs].
  - change (Fs.absolute ([] ++ [seg])) with (String "/"%char seg).
    unfold Path.dirname.
    rewrite dirname_scan_no_slash by (by apply Forall_rev). done.
  - rewrite absolute_snoc, absolute_eq, append_cons by done.
    unfold Path.dirname.
    rewrite list_ascii_of_string_app.
    change (String.list_ascii_of_string (String "/"%char seg))
      with ("/"%char :: String.list_ascii_of_string seg).
    rewrite rev_app_distr.
    change (rev ("/"%char :: String.list_ascii_of_string seg))
      with (rev (String.list_ascii_of_string seg) ++ ["/"%char]).
    rewrite <-app_assoc.
    rewrite dirname_scan_skip;
      [|by apply Forall_rev|by intros ?%(f_equal (@rev ascii)); rewrite rev_involutive in *].
    change (Path.dirname_scan false
              (["/"%char] ++ rev (String.list_ascii_of_string (join_slash (s0 :: segs)))))
      with (Some (rev (String.list_ascii_of_string (join_slash (s0 :: segs))))).
    cbv iota beta.
    rewrite rev_involutive, String.string_of_list_ascii_of_string.
    rewrite (bool_decide_false (_ = [])); [by rewrite andb_false_r|].
    destruct (join_slash_plain_head s0 segs) as (c & s & _ & Heq);
      [by inversion Hsegs|].
    rewrite Heq. intros Hnil%(f_equal (@rev ascii)).
    by rewrite rev_involutive in Hnil.
Qed.

(** ** The file system *)

Lemma lookup_node_absolute fs segs :
  segs <> [] -> Forall (fun s => plain s = true) segs ->
  Fs.lookup_node fs (Fs.absolute segs) = fs !! Fs.absolute segs.
Proof.
  intros Hne Hplain. unfold Fs.lookup_node.
  rewrite bool_decide_false; [done|].
  change "/" with (Fs.absolute []). intros Heq%absolute_inj; done.
Qed.

(** [mkdir_walk] only ever adds directories, and only on the way to the
    target. *)
Lemma mkdir_walk_grows path above todo fs r fs' :
  Fs.mkdir_walk path above todo fs = (r, fs') ->
  forall q,
    fs' !! q = fs !! q \/
    (fs !! q = None /\ fs' !! q = Some Fs.Directory /\
     exists k, 1 <= k <= length todo /\ q = Fs.absolute (above ++ take k todo)).
Proof.
  revert above fs. induction todo as [|seg todo IH]; intros above fs Hwalk q.
  - injection Hwalk as _ <-. by left.
  - simpl in Hwalk.
    assert (forall k, 1 <= k <= length todo ->
              exists k', 1 <= k' <= length (seg :: todo) /\
                Fs.absolute ((above ++ [seg]) ++ take k todo)
                = Fs.absolute (above ++ take k' (seg :: todo))) as Hshift.
    { intros k Hk. exists (S k). split; [simpl; lia|]. by rewrite <-app_assoc. }
    destruct (fs !! Fs.absolute (above ++ [seg])) as [[data|]|] eqn:Hhere;
      [injection Hwalk as _ <-; by left| |].
    + destruct (IH _ _ Hwalk q) as [Heq|(Hnone & Hdir & k & Hk & ->)]; [by left|].
      right. destruct (Hshift k Hk) as (k' & Hk' & Heq').
      rewrite Heq' in *. split_and!; [done..|]. by exists k'.
    + destruct (IH _ _ Hwalk q) as [Heq|(Hnone & Hdir & k & Hk & ->)].
      * destruct (decide (Fs.absolute (above ++ [seg]) = q)) as [<-|Hq].
        -- rewrite lookup_insert_eq in Heq. right. split_and!; [done..|].
           exists 1. split; [simpl; lia|done].
        -- rewrite lookup_insert_ne in Heq by done. by left.
      * right.
        destruct (decide (Fs.absolute (above ++ [seg])
                          = Fs.absolute ((above ++ [seg]) ++ take k todo))) as [Heq|Hq].
        -- rewrite <-Heq in Hnone. by rewrite lookup_insert_eq in Hnone.
        -- rewrite lookup_insert_ne in Hnone by done.
           destruct (Hshift k Hk) as (k' & Hk' & Heq').
           rewrite Heq' in *. split_and!; [done..|]. by exists k'.
Qed.

(** It succeeds when no file is in the way, and then every directory on the
    way exists. *)
Lemma mkdir_walk_succeeds path above todo fs :
  (forall k data, 1 <= k <= length todo ->
     fs !! Fs.absolute (above ++ take k todo) <> Some (Fs.File data)) ->
  exists fs',
    Fs.mkdir_walk path above todo fs = (None, fs') /\
    forall k, 1 <= k <= length todo ->
      fs' !! Fs.absolute (above ++ take k todo) = Some Fs.Directory.
Proof.
  revert above fs. induction todo as [|seg todo IH]; intros above fs Hfree.
  - exists fs. split; [done|]. simpl. lia.
  - simpl.
    assert (forall fs0,
      (forall q, fs0 !! q = fs !! q \/ fs0 !! q = Some Fs.Directory) ->
      fs0 !! Fs.absolute (above ++ [seg]) = Some Fs.Directory ->
      exists fs',
        Fs.mkdir_walk path (above ++ [seg]) todo fs0 = (None, fs') /\
        forall k, 1 <= k <= S (length todo) ->
          fs' !! Fs.absolute (above ++ take k (seg :: todo)) = Some Fs.Directory)
      as Hrest.
    { intros fs0 Hfs0 Hhere.
      destruct (IH (above ++ [seg]) fs0) as (fs' & Hwalk & Hdirs).
      { intros k data Hk. rewrite <-app_assoc.
        change ([seg] ++ take k todo) with (take (S k) (seg :: todo)).
        destruct (Hfs0 (Fs.absolute (above ++ take (S k) (seg :: todo)))) as [-> | ->];
          [|done].
        apply Hfree. simpl. lia. }
      exists fs'. split; [done|]. intros k Hk.
      destruct k as [|[|k]]; [lia| |].
      - change (take 1 (seg :: todo)) with [seg].
        destruct (mkdir_walk_grows _ _ _ _ _ _ Hwalk (Fs.absolute (above ++ [seg])))
          as [-> | (Hnone & _)]; [done|congruence].
      - change (take (S (S k)) (seg :: todo)) with ([seg] ++ take (S k) todo).
        rewrite app_assoc. apply Hdirs. lia. }
    destruct (fs !! Fs.absolute (above ++ [seg])) as [[data|]|] eqn:Hhere.
    + exfalso. apply (Hfree 1 data); [simpl; lia|]. done.
    + apply Hrest; [by left|done].
    + apply Hrest; [|by rewrite lookup_insert_eq].
      intros q. destruct (decide (Fs.absolute (above ++ [seg]) = q)) as [<-|Hq].
      * right. by rewrite lookup_insert_eq.
      * left. by rewrite lookup_insert_ne.
Qed.

(** ** [trim] *)

Lemma trimStart_cons c s :
  trimStart (String c s) = if is_whitespace c then trimStart s else String c s.
Proof. reflexivity. Qed.

Lemma trimEnd_cons c s :
  trimEnd (String c s) =
    match trimEnd s with
    | "" => if is_whitespace c then "" else String c ""
    | r => String c r
    end.
Proof. reflexivity. Qed.

Lemma whitespaceOnly_cons c s :
  whitespaceOnly (String c s) = true <-> is_whitespace c = true /\ whitespaceOnly s = true.
Proof. simpl. by rewrite andb_true_iff. Qed.

Lemma trimStart_split s :
  exists l, s = l +:+ trimStart s /\ whitespaceOnly l = true.
Proof.
  induction s as [|c s (l & Hs & Hl)]; [by exists ""|].
  rewrite trimStart_cons. destruct (is_whitespace c) eqn:Hc.
  - exists (String c l). rewrite append_cons, <-Hs. split; [done|].
    by apply whitespaceOnly_cons.
  - by exists "".
Qed.

Lemma trimEnd_split s :
  exists r, s = trimEnd s +:+ r /\ whitespaceOnly r = true.
Proof.
  induction s as [|c s (r & Hs & Hr)]; [by exists ""|].
  rewrite trimEnd_cons. destruct (trimEnd s) as [|c' s'] eqn:Hend.
  - destruct (is_whitespace c) eqn:Hc.
    + exists (String c r). rewrite Hs at 1. split; [done|].
      by apply whitespaceOnly_cons.
    + exists r. by rewrite Hs at 1.
  - exists r. by rewrite Hs at 1.
Qed.

Lemma trimEnd_empty s : trimEnd s = "" <-> whitespaceOnly s = true.
Proof.
  induction s as [|c s IH]; [done|].
  rewrite trimEnd_cons, whitespaceOnly_cons.
  destruct (trimEnd s) as [|c' s'].
  - destruct (is_whitespace c); [tauto|]. split; [done|by intros [? _]].
  - split; [done|]. intros [_ Hs]. by apply IH in Hs.
Qed.

Lemma whitespaceOnly_trimStart s : whitespaceOnly (trimStart s) = whitespaceOnly s.
Proof.
  induction s as [|c s IH]; [done|].
  rewrite trimStart_cons. destruct (is_whitespace c) eqn:Hc; [|done].
  simpl. by rewrite Hc.
Qed.

Lemma trim_empty s : trim s = "" <-> whitespaceOnly s = true.
Proof. unfold trim. by rewrite trimEnd_empty, whitespaceOnly_trimStart. Qed.

Lemma trimStart_trimStart s : trimStart (trimStart s) = trimStart s.
Proof.
  induction s as [|c s IH]; [done|].
  rewrite trimStart_cons. destruct (is_whitespace c) eqn:Hc; [done|].
  by rewrite trimStart_cons, Hc.
Qed.

Lemma trimEnd_trimEnd s : trimEnd (trimEnd s) = trimEnd s.
Proof.
  induction s as [|c s IH]; [done|].
  rewrite trimEnd_cons. destruct (trimEnd s) as [|c' s'] eqn:Hend.
  - destruct (is_whitespace c) eqn:Hc; [done|]. simpl. by rewrite Hc.
  - rewrite trimEnd_cons, IH. done.
Qed.

Lemma trimEnd_head c s :
  is_whitespace c = false -> exists r, trimEnd (String c s) = String c r.
Proof.
  intros Hc. rewrite trimEnd_cons, Hc. destruct (trimEnd s); eauto.
Qed.

Lemma trimStart_length s : String.length (trimStart s) <= String.length s.
Proof.
  induction s as [|c s IH]; [done|].
  rewrite trimStart_cons. destruct (is_whitespace c); simpl; lia.
Qed.

Lemma trim_trimmed s : trimmed (trim s).
Proof.
  unfold trimmed, trim. split; [|apply trimEnd_trimEnd].
  pose proof (trimStart_trimStart s) as Hidem.
  destruct (trimStart s) as [|c s'] eqn:Hstart; [done|].
  rewrite trimStart_cons in Hidem.
  destruct (is_whitespace c) eqn:Hc.
  - exfalso. pose proof (trimStart_length s') as Hlen.
    rewrite Hidem in Hlen. simpl in Hlen. lia.
  - destruct (trimEnd_head c s' Hc) as (r & ->).
    by rewrite trimStart_cons, Hc.
Qed.

Lemma trim_split s :
  exists l r,
    s = l +:+ trim s +:+ r /\ whitespaceOnly l = true /\ whitespaceOnly r = true.
Proof.
  destruct (trimStart_split s) as (l & Hs & Hl).
  destruct (trimEnd_split (trimStart s)) as (r & Hs' & Hr).
  exists l, r. unfold trim. by rewrite <-Hs', <-Hs.
Qed.

Lemma trimEnd_app a b :
  trimEnd b <> "" -> trimEnd (a +:+ b) = a +:+ trimEnd b.
Proof.
  intros Hb. induction a as [|c a IH]; [done|].
  rewrite !append_cons, trimEnd_cons, IH.
  destruct (a +:+ trimEnd b) as [|c' s'] eqn:Heq; [|done].
  destruct a as [|c0 a]; [destruct Hb; exact Heq|].
  rewrite append_cons in Heq. discriminate.
Qed.

Lemma trimEnd_app_nonempty a b : trimEnd b <> "" -> trimEnd (a +:+ b) <> "".
Proof.
  intros Hb. rewrite trimEnd_app by done.
  destruct a as [|c0 a]; [done|]. rewrite append_cons. discriminate.
Qed.

(** ** The resolver as two steps *)

Lemma getCoreSystemPrompt_steps t p userMemory st :
  getCoreSystemPrompt t p userMemory st =
  (do basePrompt <- loadBasePrompt t p;
   do _ <- writeBack t p basePrompt;
   Fs.ret (basePrompt +:+ memorySuffix userMemory)) st.
Proof.
  unfold getCoreSystemPrompt, loadBasePrompt, writeBack, writePath, systemMdPath,
    defaultSystemMdPath, enabled, requestsDefault.
  generalize (trim (templateLiteral t p)) (memorySuffix userMemory).
  intros template suffix.
  generalize (Path.resolve (cwd p) (Path.join [GEMINI_CONFIG_DIR t; "system.md"])).
  intros fallback.
  destruct (env p !! "GEMINI_SYSTEM_MD") as [v|];
    destruct (env p !! "GEMINI_WRITE_SYSTEM_MD") as [w|];
    repeat match goal with
      | |- context [truthy ?x] => destruct (truthy x)
      | |- context [includes ?l ?x] => destruct (includes l x)
      end;
    cbv [negb andb Fs.bind Fs.ret Fs.existsSync Fs.throw];
    repeat match goal with
      | |- context [bool_decide ?P] => destruct (bool_decide P)
      | |- context [Fs.readFileSync ?a ?b] => destruct (Fs.readFileSync a b) as [[?|?] ?]
      end;
    reflexivity.
Qed.

(** ** The template *)

Lemma beforeSandbox_head t :
  exists body, Template.beforeSandbox t = LF +:+ String "#"%char body.
Proof. exists (slice 2 (Template.beforeSandbox t)). reflexivity. Qed.

Lemma examplesTail_end t : trimEnd (Template.examplesTail t) <> "".
Proof.
  unfold Template.examplesTail.
  repeat apply trimEnd_app_nonempty.
  vm_compute. discriminate.
Qed.

(** [trim] strips the line feed in front of the first heading and the one
    behind the last line, and nothing else. *)
Lemma template_trim t p :
  trim (templateLiteral t p) =
  slice 1 (Template.beforeSandbox t) +:+ sandboxFunction p +:+ LF +:+ LF +:+
  gitFunction p +:+ Template.examplesHead t +:+ commitFunction p +:+
  trimEnd (Template.examplesTail t).
Proof.
  unfold templateLiteral, trim.
  destruct (beforeSandbox_head t) as (body & ->).
  pose proof (examplesTail_end t) as Hend.
  revert Hend.
  generalize (Template.examplesTail t) (Template.examplesHead t)
    (sandboxFunction p) (gitFunction p) (commitFunction p).
  intros tail head sandbox git commit Hend.
  change (LF +:+ String "#"%char body) with (String "010"%char (String "#"%char body)).
  rewrite !append_cons, trimStart_cons.
  change (is_whitespace "010") with true. cbv iota.
  rewrite trimStart_cons.
  change (is_whitespace "#") with false. cbv iota.
  change (slice 1 (String "010"%char (String "#"%char body))) with (String "#"%char body).
  rewrite <-!append_cons.
  rewrite !trimEnd_app; [done|..];
    repeat first [exact Hend | apply trimEnd_app_nonempty].
Qed.

Lemma template_trim_head t p :
  exists rest, trim (templateLiteral t p) = String "#"%char rest.
Proof.
  rewrite template_trim. destruct (beforeSandbox_head t) as (body & ->).
  eexists. reflexivity.
Qed.

(** ** Configuration values *)

Lemma requestsDefault_enabled v : requestsDefault v = true -> enabled (Some v) = true.
Proof.
  unfold requestsDefault, enabled, includes.
  intros Hin%bool_decide_eq_true.
  assert (toLowerCase v = "1" \/ toLowerCase v = "true") as Hv.
  { apply elem_of_cons in Hin as [?|Hin]; [by left|].
    apply elem_of_cons in Hin as [?|Hin]; [by right|]. by apply elem_of_nil in Hin. }
  apply andb_true_iff. split.
  - apply truthy_true. intros ->. by destruct Hv.
  - apply negb_true_iff, bool_decide_eq_false. intros Hno.
    apply elem_of_cons in Hno as [Hno|Hno].
    + destruct Hv as [Hv|Hv]; rewrite Hv in Hno; discriminate.
    + apply elem_of_cons in Hno as [Hno|Hno]; [|by apply elem_of_nil in Hno].
      destruct Hv as [Hv|Hv]; rewrite Hv in Hno; discriminate.
Qed.


(** ** The paths of the resolver *)

Lemma systemMdPath_canonical t p :
  Path.isAbsolute (cwd p) = true -> exists segs, canonical (systemMdPath t p) segs.
Proof.
  intros Hcwd. unfold systemMdPath, defaultSystemMdPath, resolveCustomPath.
  destruct (env p !! "GEMINI_SYSTEM_MD") as [v|];
    [destruct (enabled (Some v) && negb (requestsDefault v))|];
    by apply resolve_is_canonical.
Qed.

Lemma writePath_canonical t p path :
  Path.isAbsolute (cwd p) = true -> writePath t p = Some path ->
  exists segs, canonical path segs.
Proof.
  intros Hcwd. unfold writePath.
  destruct (env p !! "GEMINI_WRITE_SYSTEM_MD") as [w|]; [|done].
  destruct (enabled (Some w)); [|done].
  intros [= <-]. destruct (requestsDefault w).
  - by apply systemMdPath_canonical.
  - by apply resolve_is_canonical.
Qed.

Lemma systemMdPath_disabled t p :
  enabled (env p !! "GEMINI_SYSTEM_MD") = false ->
  systemMdPath t p = defaultSystemMdPath t p.
Proof.
  unfold systemMdPath. destruct (env p !! "GEMINI_SYSTEM_MD") as [v|]; [|done].
  by intros ->.
Qed.

(** ** Loading the base prompt *)

Lemma loadBasePrompt_default t p st :
  enabled (env p !! "GEMINI_SYSTEM_MD") = false ->
  loadBasePrompt t p st = (Fs.Returned (trim (templateLiteral t p)), st).
Proof. unfold loadBasePrompt. by intros ->. Qed.

Lemma loadBasePrompt_missing t p st :
  enabled (env p !! "GEMINI_SYSTEM_MD") = true ->
  Fs.lookup_node (Fs.nodes st) (systemMdPath t p) = None ->
  loadBasePrompt t p st =
    (Fs.Thrown (missingSystemPromptFile (systemMdPath t p)),
     Fs.record (Fs.ExistsSync (systemMdPath t p)) st).
Proof.
  unfold loadBasePrompt. intros -> Hnone.
  unfold Fs.bind, Fs.existsSync. rewrite Hnone.
  by rewrite bool_decide_false by (by intros [? ?]).
Qed.

Lemma loadBasePrompt_file t p st data :
  enabled (env p !! "GEMINI_SYSTEM_MD") = true ->
  Fs.lookup_node (Fs.nodes st) (systemMdPath t p) = Some (Fs.File data) ->
  loadBasePrompt t p st =
    (Fs.Returned data,
     Fs.record (Fs.ReadFileSync (systemMdPath t p))
       (Fs.record (Fs.ExistsSync (systemMdPath t p)) st)).
Proof.
  unfold loadBasePrompt. intros -> Hfile.
  unfold Fs.bind, Fs.existsSync. rewrite Hfile.
  rewrite bool_decide_true by eauto. cbv [negb].
  unfold Fs.readFileSync. cbn [Fs.nodes Fs.record]. by rewrite Hfile.
Qed.

(** What a returning load has read. *)
Lemma loadBasePrompt_returned t p st base st' :
  loadBasePrompt t p st = (Fs.Returned base, st') ->
  Fs.nodes st' = Fs.nodes st /\
  if enabled (env p !! "GEMINI_SYSTEM_MD")
  then Fs.lookup_node (Fs.nodes st) (systemMdPath t p) = Some (Fs.File base)
  else base = trim (templateLiteral t p) /\ st' = st.
Proof.
  unfold loadBasePrompt. generalize (trim (templateLiteral t p)). intros template.
  destruct (enabled (env p !! "GEMINI_SYSTEM_MD")).
  - unfold Fs.bind, Fs.existsSync.
    case_bool_decide as Hfound; cbv [negb]; [|done].
    unfold Fs.readFileSync. cbn [Fs.nodes Fs.record].
    destruct (Fs.lookup_node (Fs.nodes st) (systemMdPath t p)) as [[data|]|]; [|done..].
    by intros [= <- <-].
  - by intros [= <- <-].
Qed.

(** ** The write-back *)

Lemma writeBack_off t p base st :
  writePath t p = None -> writeBack t p base st = (Fs.Returned tt, st).
Proof. unfold writeBack. by intros ->. Qed.

Lemma writeBack_returned t p base st st' path :
  writePath t p = Some path ->
  writeBack t p base st = (Fs.Returned tt, st') ->
  Fs.nodes st' !! path = Some (Fs.File base) /\
  Fs.calls st' =
    Fs.calls st ++ [Fs.MkdirSync (Path.dirname path); Fs.WriteFileSync path base].
Proof.
  unfold writeBack. intros ->. unfold Fs.bind, Fs.mkdirSync.
  destruct (Fs.mkdir_walk _ _ _ _) as [[e|] fs1]; [done|].
  unfold Fs.writeFileSync. cbn [Fs.nodes Fs.calls Fs.record].
  destruct (Fs.lookup_node fs1 path) as [[data|]|];
    destruct (Fs.lookup_node fs1 (Path.dirname path)) as [[data'|]|];
    try done; intros [= <-]; cbn [Fs.nodes Fs.calls];
    by rewrite lookup_insert_eq, <-app_assoc.
Qed.

Lemma parents_canonical path segs :
  canonical path segs ->
  forall d, d ∈ parents path <->
    exists k, 1 <= k < length segs /\ d = Fs.absolute (take k segs).
Proof.
  intros [Hplain ->] d. unfold parents.
  rewrite segments_absolute by done.
  rewrite list_elem_of_fmap. setoid_rewrite elem_of_seq.
  split; intros (k & H1 & H2); exists k; (split; [lia|done]) || (split; [done|lia]).
Qed.

Lemma writable_spec fs path segs :
  canonical path segs -> writable fs path = true ->
  (forall d data, d ∈ parents path -> fs !! d <> Some (Fs.File data)) /\
  Fs.lookup_node fs path <> Some Fs.Directory /\
  exists init seg, segs = init ++ [seg].
Proof.
  intros Hcanon [Hway Hnode]%andb_true_iff. split_and!.
  - intros d data Hd Hfile.
    rewrite forallb_forall in Hway. specialize (Hway d).
    rewrite Hfile in Hway. apply list_elem_of_In in Hd. by specialize (Hway Hd).
  - by destruct (Fs.lookup_node fs path) as [[?|]|].
  - destruct Hcanon as [_ ->].
    destruct segs as [|s0 segs] using rev_ind; [done|]. eauto.
Qed.

(** With nothing in the way the write-back goes through: the directories
    above the path exist afterwards and the file holds the base prompt. *)
Lemma writeBack_succeeds t p base st path :
  Path.isAbsolute (cwd p) = true ->
  writePath t p = Some path ->
  writable (Fs.nodes st) path = true ->
  exists st',
    writeBack t p base st = (Fs.Returned tt, st') /\
    Fs.lookup_node (Fs.nodes st') path = Some (Fs.File base) /\
    (forall d, d ∈ parents path -> Fs.nodes st' !! d = Some Fs.Directory) /\
    Fs.calls st' =
      Fs.calls st ++ [Fs.MkdirSync (Path.dirname path); Fs.WriteFileSync path base].
Proof.
  intros Hcwd Hpath Hwritable.
  destruct (writePath_canonical t p path Hcwd Hpath) as (segs & Hcanon).
  destruct (writable_spec _ _ _ Hcanon Hwritable) as (Hway & Hnode & init & seg & ->).
  pose proof (parents_canonical _ _ Hcanon) as Hparents.
  destruct Hcanon as [Hplain Heq].
  apply Forall_app in Hplain as [Hinit Hseg%Forall_inv].
  assert (Path.dirname path = Fs.absolute init) as Hdir
    by (by rewrite Heq, dirname_absolute).
  assert (forall k, k <= length init ->
            take k (init ++ [seg]) = take k init) as Htake
    by (intros k Hk; by rewrite take_app_le).
  destruct (mkdir_walk_succeeds (Path.dirname path) [] init (Fs.nodes st))
    as (fs1 & Hwalk & Hdirs).
  { intros k data Hk. apply Hway, Hparents. exists k.
    rewrite length_app. simpl. split; [lia|]. by rewrite Htake by lia. }
  assert (forall k, k <= length init ->
            Fs.absolute (take k init) <> path) as Hother.
  { intros k Hk Hsame. rewrite Heq in Hsame.
    apply absolute_inj in Hsame;
      [|by apply Forall_take|by apply Forall_app; split; [|constructor]].
    apply (f_equal length) in Hsame.
    rewrite length_take, length_app in Hsame. simpl in Hsame. lia. }
  assert (Fs.lookup_node fs1 path = Fs.lookup_node (Fs.nodes st) path) as Hsame.
  { unfold Fs.lookup_node. case_bool_decide; [done|].
    destruct (mkdir_walk_grows _ _ _ _ _ _ Hwalk path)
      as [-> | (_ & _ & k & Hk & Hk')]; [done|].
    by destruct (Hother k ltac:(lia)). }
  assert (Fs.lookup_node fs1 (Path.dirname path) = Some Fs.Directory) as Hparent.
  { rewrite Hdir. destruct init as [|s0 init] using rev_ind; [done|].
    rewrite lookup_node_absolute by (done || by destruct init).
    specialize (Hdirs (length (init ++ [s0])) ltac:(rewrite length_app; simpl; lia)).
    by rewrite firstn_all in Hdirs. }
  exists (Fs.mkState (<[path := Fs.File base]> fs1)
            (Fs.calls st ++ [Fs.MkdirSync (Path.dirname path); Fs.WriteFileSync path base])).
  split_and!.
  - unfold writeBack. rewrite Hpath. unfold Fs.bind, Fs.mkdirSync.
    rewrite Hdir at 2. rewrite segments_absolute by done.
    rewrite Hwalk. unfold Fs.writeFileSync. cbn [Fs.nodes Fs.calls Fs.record].
    rewrite Hsame, Hparent.
    destruct (Fs.lookup_node (Fs.nodes st) path) as [[data|]|];
      try done; by rewrite <-app_assoc.
  - cbn [Fs.nodes].
    rewrite Heq, lookup_node_absolute, <-Heq;
      [by rewrite lookup_insert_eq|by destruct init|].
    by apply Forall_app; split; [|constructor].
  - intros d (k & Hk & ->)%Hparents. cbn [Fs.nodes].
    rewrite length_app in Hk. simpl in Hk.
    rewrite Htake by lia.
    rewrite lookup_insert_ne by (intros Hbad; by apply (Hother k ltac:(lia))).
    apply (Hdirs k). lia.
  - done.
Qed.

(** ** Runs of the resolver *)

Lemma run_returned t p userMemory st out st' :
  getCoreSystemPrompt t p userMemory st = (Fs.Returned out, st') ->
  exists base st1,
    loadBasePrompt t p st = (Fs.Returned base, st1) /\
    writeBack t p base st1 = (Fs.Returned tt, st') /\
    out = base +:+ memorySuffix userMemory.
Proof.
  rewrite getCoreSystemPrompt_steps. unfold Fs.bind, Fs.ret.
  destruct (loadBasePrompt t p st) as [[base|e] st1]; [|done].
  destruct (writeBack t p base st1) as [[[]|e] st2] eqn:Hwrite; [|done].
  intros [= <- <-]. exists base, st1. by rewrite Hwrite.
Qed.

Lemma run_composed t p userMemory st base st1 st' :
  loadBasePrompt t p st = (Fs.Returned base, st1) ->
  writeBack t p base st1 = (Fs.Returned tt, st') ->
  getCoreSystemPrompt t p userMemory st
  = (Fs.Returned (base +:+ memorySuffix userMemory), st').
Proof.
  intros Hload Hwrite. rewrite getCoreSystemPrompt_steps. unfold Fs.bind, Fs.ret.
  by rewrite Hload, Hwrite.
Qed.

Lemma run_missing t p userMemory st :
  enabled (env p !! "GEMINI_SYSTEM_MD") = true ->
  Fs.lookup_node (Fs.nodes st) (systemMdPath t p) = None ->
  getCoreSystemPrompt t p userMemory st =
    (Fs.Thrown (missingSystemPromptFile (systemMdPath t p)),
     Fs.mkState (Fs.nodes st) (Fs.calls st ++ [Fs.ExistsSync (systemMdPath t p)])).
Proof.
  intros Hon Hnone. rewrite getCoreSystemPrompt_steps. unfold Fs.bind.
  by rewrite loadBasePrompt_missing.
Qed.

Lemma writes_app cs1 cs2 : writes (cs1 ++ cs2) = writes cs1 ++ writes cs2.
Proof. apply omap_app. Qed.

(** ** The sandbox section *)

Lemma sandboxFunction_kind p :
  sandboxFunction p =
    match sandboxKindOf (env p !! "SANDBOX") with
    | NoSandbox => Template.outsideSection
    | SandboxExec => Template.seatbeltSection
    | GenericSandbox => Template.sandboxSection
    end.
Proof.
  unfold sandboxFunction, sandboxKindOf.
  destruct (env p !! "SANDBOX") as [v|]; [|by rewrite bool_decide_false].
  destruct (decide (v = "sandbox-exec")) as [->|Hv].
  - by rewrite !bool_decide_true by done.
  - rewrite !bool_decide_false by congruence. simpl. by destruct (truthy v).
Qed.

Lemma templateLiteral_ext t p p' :
  sandboxKindOf (env p !! "SANDBOX") = sandboxKindOf (env p' !! "SANDBOX") ->
  isGitRepository p (cwd p) = isGitRepository p' (cwd p') ->
  templateLiteral t p = templateLiteral t p'.
Proof.
  intros Hkind Hgit. unfold templateLiteral, gitFunction, commitFunction.
  by rewrite !sandboxFunction_kind, Hkind, Hgit.
Qed.

Lemma sections_distinct :
  Template.outsideSection <> Template.seatbeltSection /\
  Template.outsideSection <> Template.sandboxSection /\
  Template.seatbeltSection <> Template.sandboxSection /\
  Template.outsideSection <> "" /\
  Template.seatbeltSection <> "" /\
  Template.sandboxSection <> "".
Proof. split_and!; vm_compute; discriminate. Qed.

(** C3, as the code has it. The sandbox function returns exactly one of
    three texts, chosen by the kind of sandbox that [SANDBOX] stands for: the
    "Outside of Sandbox" text when the variable is unset or empty, the
    "macOS Seatbelt" text when it reads [sandbox-exec], the "Sandbox" text for
    every other value.  The three texts are non-empty and pairwise different,
    and the chosen one stands in the default template right behind the text
    in front of it. *)
Theorem sandbox_section_selection t p :
  sandboxFunction p =
    match sandboxKindOf (env p !! "SANDBOX") with
    | NoSandbox => Template.outsideSection
    | SandboxExec => Template.seatbeltSection
    | GenericSandbox => Template.sandboxSection
    end /\
  (Template.outsideSection <> Template.seatbeltSection /\
   Template.outsideSection <> Template.sandboxSection /\
   Template.seatbeltSection <> Template.sandboxSection /\
   Template.outsideSection <> "" /\
   Template.seatbeltSection <> "" /\
   Template.sandboxSection <> "") /\
  trim (templateLiteral t p) =
    slice 1 (Template.beforeSandbox t) +:+ sandboxFunction p +:+ LF +:+ LF +:+
    gitFunction p +:+ Template.examplesHead t +:+ commitFunction p +:+
    trimEnd (Template.examplesTail t).
Proof.
  split; [apply sandboxFunction_kind|].
  split; [apply sections_distinct|apply template_trim].
Qed.

(** C3, as stated, fails without a sandbox: the process with an empty
    environment gets the "Outside of Sandbox" section, not an empty text. *)
Lemma no_sandbox_section_refuted :
  sandboxKindOf (env Sample.bare !! "SANDBOX") = NoSandbox /\
  sandboxFunction Sample.bare = Template.outsideSection /\
  sandboxFunction Sample.bare <> "" /\
  exists before after,
    trim (templateLiteral Sample.imports Sample.bare)
    = before +:+ Template.outsideSection +:+ after.
Proof.
  assert (sandboxFunction Sample.bare = Template.outsideSection) as Hout
    by (vm_compute; reflexivity).
  split_and!; [by vm_compute|done|rewrite Hout; apply sections_distinct|].
  eexists _, _. rewrite template_trim, Hout. reflexivity.
Qed.

(** ** The missing override file *)

(** C4, as the code has it. When the override is on and nothing exists at
    the resolved path, neither a file nor a directory, the call throws the
    missing-file error; all it has done by then is the existence check, and
    the files are as they were. *)
Theorem missing_override_file_throws t p userMemory st :
  enabled (env p !! "GEMINI_SYSTEM_MD") = true ->
  Fs.lookup_node (Fs.nodes st) (systemMdPath t p) = None ->
  getCoreSystemPrompt t p userMemory st =
    (Fs.Thrown (missingSystemPromptFile (systemMdPath t p)),
     Fs.mkState (Fs.nodes st) (Fs.calls st ++ [Fs.ExistsSync (systemMdPath t p)])).
Proof. apply run_missing. Qed.

Lemma missing_override_file_throws_witness :
  let p := setenv "GEMINI_WRITE_SYSTEM_MD" "1"
             (setenv "GEMINI_SYSTEM_MD" "custom.md" Sample.bare) in
  enabled (env p !! "GEMINI_SYSTEM_MD") = true /\
  Fs.lookup_node (Fs.nodes Sample.emptyDisk) (systemMdPath Sample.imports p) = None /\
  getCoreSystemPrompt Sample.imports p (Some "remember X") Sample.emptyDisk =
    (Fs.Thrown (missingSystemPromptFile (systemMdPath Sample.imports p)),
     Fs.mkState (Fs.nodes Sample.emptyDisk)
       (Fs.calls Sample.emptyDisk ++ [Fs.ExistsSync (systemMdPath Sample.imports p)])).
Proof.
  intros p.
  assert (enabled (env p !! "GEMINI_SYSTEM_MD") = true) as Hon
    by (vm_compute; reflexivity).
  assert (Fs.lookup_node (Fs.nodes Sample.emptyDisk) (systemMdPath Sample.imports p) = None)
    as Hnone by (vm_compute; reflexivity).
  split_and!; [exact Hon|exact Hnone|].
  exact (missing_override_file_throws Sample.imports p (Some "remember X")
           Sample.emptyDisk Hon Hnone).
Defined.

(** C4, as stated, fails when a directory sits at the override path: no
    file exists there, yet the existence check of line 42 passes, and the
    call fails in [readFileSync] on line 48 with [EISDIR], not with the
    missing-file error. *)
Lemma missing_override_file_refuted :
  let p := setenv "GEMINI_SYSTEM_MD" "prompts" Sample.bare in
  let st :=
    Fs.mkState
      (<["/work/prompts" := Fs.Directory]> (<["/work" := Fs.Directory]> ∅)) [] in
  enabled (env p !! "GEMINI_SYSTEM_MD") = true /\
  systemMdPath Sample.imports p = "/work/prompts" /\
  (forall data,
     Fs.lookup_node (Fs.nodes st) (systemMdPath Sample.imports p) <> Some (Fs.File data)) /\
  getCoreSystemPrompt Sample.imports p None st =
    (Fs.Thrown (Fs.SystemError Fs.EISDIR "read" "/work/prompts"),
     Fs.mkState (Fs.nodes st)
       [Fs.ExistsSync "/work/prompts"; Fs.ReadFileSync "/work/prompts"]) /\
  fst (getCoreSystemPrompt Sample.imports p None st)
    <> Fs.Thrown (missingSystemPromptFile (systemMdPath Sample.imports p)).
Proof.
  intros p st.
  assert (getCoreSystemPrompt Sample.imports p None st =
    (Fs.Thrown (Fs.SystemError Fs.EISDIR "read" "/work/prompts"),
     Fs.mkState (Fs.nodes st)
       [Fs.ExistsSync "/work/prompts"; Fs.ReadFileSync "/work/prompts"])) as Hrun
    by (vm_compute; reflexivity).
  split_and!; [by vm_compute|by vm_compute| |exact Hrun|].
  - intros data. vm_compute. discriminate.
  - rewrite Hrun. cbn [fst]. unfold missingSystemPromptFile. discriminate.
Qed.

(** ** The memory suffix *)

Lemma memorySuffix_blank userMemory :
  blank userMemory = true -> memorySuffix userMemory = "".
Proof.
  destruct userMemory as [memory|]; [|done]. simpl. intros Hblank.
  apply trim_empty in Hblank. rewrite Hblank. by rewrite andb_false_r.
Qed.

Lemma memorySuffix_text userMemory :
  blank userMemory = false ->
  exists memory,
    userMemory = Some memory /\ memorySuffix userMemory = separator +:+ trim memory.
Proof.
  destruct userMemory as [memory|]; [|done]. simpl. intros Hblank.
  exists memory. split; [done|].
  assert (truthy memory = true) as -> by (by destruct memory).
  destruct (trim memory) as [|c rest] eqn:Htrim.
  - apply trim_empty in Htrim. congruence.
  - reflexivity.
Qed.

(** C5. Whenever the call returns, its result is the base prompt, loaded
    from the override file or composed from the template, followed by the
    memory suffix: nothing when [userMemory] is unset, empty or white space
    only, and otherwise the separator and [userMemory] without the white
    space around it. *)
Theorem memory_suffix_appended t p userMemory st out st' :
  getCoreSystemPrompt t p userMemory st = (Fs.Returned out, st') ->
  exists basePrompt,
    (if enabled (env p !! "GEMINI_SYSTEM_MD")
     then Fs.lookup_node (Fs.nodes st) (systemMdPath t p) = Some (Fs.File basePrompt)
     else basePrompt = trim (templateLiteral t p)) /\
    if blank userMemory then out = basePrompt
    else exists memory l r,
      userMemory = Some memory /\
      memory = l +:+ trim memory +:+ r /\
      whitespaceOnly l = true /\ whitespaceOnly r = true /\
      trimmed (trim memory) /\
      out = basePrompt +:+ separator +:+ trim memory.
Proof.
  intros (base & st1 & Hload & _ & ->)%run_returned.
  exists base. split.
  - apply loadBasePrompt_returned in Hload as [_ Hload].
    destruct (enabled (env p !! "GEMINI_SYSTEM_MD")); [done|by destruct Hload].
  - destruct (blank userMemory) eqn:Hblank.
    + by rewrite memorySuffix_blank, append_nil_r.
    + destruct (memorySuffix_text userMemory Hblank) as (memory & -> & ->).
      destruct (trim_split memory) as (l & r & Hsplit & Hl & Hr).
      exists memory, l, r. split_and!; [done..|apply trim_trimmed|done].
Qed.

Lemma memory_suffix_appended_witness :
  let p := setenv "GEMINI_SYSTEM_MD" "custom.md" Sample.bare in
  let st' := Fs.mkState (Fs.nodes Sample.customDisk)
               [Fs.ExistsSync "/work/custom.md"; Fs.ReadFileSync "/work/custom.md"] in
  getCoreSystemPrompt Sample.imports p (Some "  remember X ") Sample.customDisk
  = (Fs.Returned ("Be brief." +:+ separator +:+ "remember X"), st') /\
  exists basePrompt,
    (if enabled (env p !! "GEMINI_SYSTEM_MD")
     then Fs.lookup_node (Fs.nodes Sample.customDisk) (systemMdPath Sample.imports p)
          = Some (Fs.File basePrompt)
     else basePrompt = trim (templateLiteral Sample.imports p)) /\
    if blank (Some "  remember X ") then
      "Be brief." +:+ separator +:+ "remember X" = basePrompt
    else exists memory l r,
      Some "  remember X " = Some memory /\
      memory = l +:+ trim memory +:+ r /\
      whitespaceOnly l = true /\ whitespaceOnly r = true /\
      trimmed (trim memory) /\
      "Be brief." +:+ separator +:+ "remember X" = basePrompt +:+ separator +:+ trim memory.
Proof.
  intros p st'.
  assert (getCoreSystemPrompt Sample.imports p (Some "  remember X ") Sample.customDisk
          = (Fs.Returned ("Be brief." +:+ separator +:+ "remember X"), st')) as Hrun
    by (vm_compute; reflexivity).
  split; [exact Hrun|].
  exact (memory_suffix_appended Sample.imports p (Some "  remember X ")
           Sample.customDisk _ st' Hrun).
Defined.

(** ** Empty values *)

Lemma resolveCustomPath_ext p p' v :
  homedir p = homedir p' -> cwd p = cwd p' ->
  resolveCustomPath p v = resolveCustomPath p' v.
Proof. unfold resolveCustomPath. by intros -> ->. Qed.

Lemma systemMdPath_ext t p p' :
  env p !! "GEMINI_SYSTEM_MD" = env p' !! "GEMINI_SYSTEM_MD" ->
  homedir p = homedir p' -> cwd p = cwd p' ->
  systemMdPath t p = systemMdPath t p'.
Proof.
  intros Henv Hhome Hcwd. unfold systemMdPath, defaultSystemMdPath.
  rewrite Henv, Hcwd.
  destruct (env p' !! "GEMINI_SYSTEM_MD") as [v|]; [|done].
  by rewrite (resolveCustomPath_ext p p').
Qed.

Lemma loadBasePrompt_ext t p p' :
  env p !! "GEMINI_SYSTEM_MD" = env p' !! "GEMINI_SYSTEM_MD" ->
  sandboxKindOf (env p !! "SANDBOX") = sandboxKindOf (env p' !! "SANDBOX") ->
  isGitRepository p (cwd p) = isGitRepository p' (cwd p') ->
  homedir p = homedir p' -> cwd p = cwd p' ->
  loadBasePrompt t p = loadBasePrompt t p'.
Proof.
  intros Henv Hkind Hgit Hhome Hcwd. unfold loadBasePrompt.
  by rewrite Henv, (systemMdPath_ext t p p'), (templateLiteral_ext t p p').
Qed.

Lemma writePath_ext t p p' :
  env p !! "GEMINI_WRITE_SYSTEM_MD" = env p' !! "GEMINI_WRITE_SYSTEM_MD" ->
  systemMdPath t p = systemMdPath t p' ->
  homedir p = homedir p' -> cwd p = cwd p' ->
  writePath t p = writePath t p'.
Proof.
  intros Henv Hpath Hhome Hcwd. unfold writePath.
  rewrite Henv, Hpath.
  destruct (env p' !! "GEMINI_WRITE_SYSTEM_MD") as [w|]; [|done].
  by rewrite (resolveCustomPath_ext p p').
Qed.

Lemma run_ext t p p' userMemory st :
  loadBasePrompt t p = loadBasePrompt t p' ->
  writePath t p = writePath t p' ->
  getCoreSystemPrompt t p userMemory st = getCoreSystemPrompt t p' userMemory st.
Proof.
  intros Hload Hwrite. rewrite !getCoreSystemPrompt_steps.
  unfold writeBack. by rewrite Hload, Hwrite.
Qed.

(** C9. An empty value is an unset variable: the call behaves the same
    whether [GEMINI_SYSTEM_MD], or [GEMINI_WRITE_SYSTEM_MD], is empty or
    absent.  With an empty [GEMINI_SYSTEM_MD] the base prompt is the default
    template and the disk is not consulted; with an empty
    [GEMINI_WRITE_SYSTEM_MD] nothing is written; with both empty the call
    returns the default template with the memory suffix and performs no file
    system call at all. *)
Theorem empty_value_is_unset t p userMemory st :
  getCoreSystemPrompt t (setenv "GEMINI_SYSTEM_MD" "" p) userMemory st
  = getCoreSystemPrompt t (unsetenv "GEMINI_SYSTEM_MD" p) userMemory st /\
  getCoreSystemPrompt t (setenv "GEMINI_WRITE_SYSTEM_MD" "" p) userMemory st
  = getCoreSystemPrompt t (unsetenv "GEMINI_WRITE_SYSTEM_MD" p) userMemory st /\
  loadBasePrompt t (setenv "GEMINI_SYSTEM_MD" "" p) st
  = (Fs.Returned (trim (templateLiteral t p)), st) /\
  (forall basePrompt,
     writeBack t (setenv "GEMINI_WRITE_SYSTEM_MD" "" p) basePrompt st
     = (Fs.Returned tt, st)) /\
  getCoreSystemPrompt t
    (setenv "GEMINI_SYSTEM_MD" "" (setenv "GEMINI_WRITE_SYSTEM_MD" "" p)) userMemory st
  = (Fs.Returned (trim (templateLiteral t p) +:+ memorySuffix userMemory), st).
Proof.
  assert (forall q, env q !! "GEMINI_SYSTEM_MD" = Some "" \/
                    env q !! "GEMINI_SYSTEM_MD" = None ->
            enabled (env q !! "GEMINI_SYSTEM_MD") = false) as Hoff
    by (by intros q [-> | ->]).
  assert (forall q, env q !! "GEMINI_WRITE_SYSTEM_MD" = Some "" \/
                    env q !! "GEMINI_WRITE_SYSTEM_MD" = None ->
            writePath t q = None) as Hnone
    by (intros q Hq; unfold writePath; by destruct Hq as [-> | ->]).
  split_and!.
  - apply run_ext.
    + unfold loadBasePrompt. rewrite !Hoff.
      * f_equal. f_equal. apply templateLiteral_ext; [|done].
        cbn [env setenv unsetenv]. by rewrite lookup_insert_ne, lookup_delete_ne.
      * right. cbn [env unsetenv]. apply lookup_delete_eq.
      * left. cbn [env setenv]. apply lookup_insert_eq.
    + apply writePath_ext; [|rewrite !systemMdPath_disabled|..]; try done.
      * cbn [env setenv unsetenv]. by rewrite lookup_insert_ne, lookup_delete_ne.
      * apply Hoff. right. cbn [env unsetenv]. apply lookup_delete_eq.
      * apply Hoff. left. cbn [env setenv]. apply lookup_insert_eq.
  - apply run_ext.
    + apply loadBasePrompt_ext; try done;
        cbn [env setenv unsetenv]; by rewrite lookup_insert_ne, lookup_delete_ne.
    + rewrite !Hnone; [done|right|left]; cbn [env setenv unsetenv];
        [apply lookup_delete_eq|apply lookup_insert_eq].
  - rewrite loadBasePrompt_default
      by (apply Hoff; left; cbn [env setenv]; apply lookup_insert_eq).
    f_equal. f_equal. f_equal. apply templateLiteral_ext; [|done].
    cbn [env setenv]. by rewrite lookup_insert_ne.
  - intros base. apply writeBack_off, Hnone. left.
    cbn [env setenv]. apply lookup_insert_eq.
  - rewrite (run_composed _ _ _ _ (trim (templateLiteral t p)) st st); [done| |].
    + rewrite loadBasePrompt_default.
      * do 3 f_equal. apply templateLiteral_ext; [|done].
        cbn [env setenv]. by rewrite !lookup_insert_ne.
      * apply Hoff. left. cbn [env setenv]. apply lookup_insert_eq.
    + apply writeBack_off, Hnone. left. cbn [env setenv].
      rewrite lookup_insert_ne by done. apply lookup_insert_eq.
Qed.

(** ** Home-directory shorthand *)

Lemma resolveCustomPath_home_file p home seg :
  canonical (homedir p) home -> plain seg = true ->
  resolveCustomPath p ("~/" +:+ seg) = Fs.absolute (home ++ [seg]).
Proof.
  intros Hhome Hseg. unfold resolveCustomPath.
  change (startsWith "~/" ("~/" +:+ seg)) with true.
  change (slice 2 ("~/" +:+ seg)) with seg. cbv iota.
  rewrite (join_canonical _ home) by done.
  apply (resolve_canonical _ _ (home ++ [seg])).
  split; [|done]. destruct Hhome as [Hplain _].
  by apply Forall_app; split; [|constructor].
Qed.


Lemma resolveCustomPath_literal p v :
  startsWith "~/" v = false -> v <> "~" ->
  resolveCustomPath p v = Path.resolve (cwd p) v.
Proof.
  intros Hslash Hne. unfold resolveCustomPath.
  by rewrite Hslash, bool_decide_false.
Qed.

Lemma systemMdPath_custom t p v :
  env p !! "GEMINI_SYSTEM_MD" = Some v ->
  enabled (Some v) = true -> requestsDefault v = false ->
  systemMdPath t p = resolveCustomPath p v.
Proof. unfold systemMdPath. by intros -> -> ->. Qed.


(** C8. With [GEMINI_SYSTEM_MD] set to [~/custom.md] and a home directory
    given by its absolute path, the override is looked for at
    [<home>/custom.md]: this is the value of [systemMdPath], and the path
    the missing-file error names when nothing is there. *)
Theorem home_shorthand_expanded t p home :
  env p !! "GEMINI_SYSTEM_MD" = Some "~/custom.md" ->
  canonical (homedir p) home ->
  systemMdPath t p = Fs.absolute (home ++ ["custom.md"]) /\
  (home <> [] -> systemMdPath t p = homedir p +:+ "/custom.md") /\
  forall userMemory st,
    Fs.lookup_node (Fs.nodes st) (systemMdPath t p) = None ->
    fst (getCoreSystemPrompt t p userMemory st)
    = Fs.Thrown (Fs.JsError ("missing system prompt file '" +:+
                              Fs.absolute (home ++ ["custom.md"]) +:+ "'")).
Proof.
  intros Henv Hhome.
  assert (systemMdPath t p = Fs.absolute (home ++ ["custom.md"])) as Hpath.
  { rewrite (systemMdPath_custom t p "~/custom.md") by done.
    by apply (resolveCustomPath_home_file p home "custom.md"). }
  split_and!; [done| |].
  - intros Hne. rewrite Hpath, absolute_snoc by done.
    destruct Hhome as [_ ->]. done.
  - intros userMemory st Hnone.
    rewrite run_missing; [by rewrite Hpath| |done].
    by rewrite Henv.
Qed.

Lemma home_shorthand_expanded_witness :
  let p := setenv "GEMINI_SYSTEM_MD" "~/custom.md" Sample.bare in
  env p !! "GEMINI_SYSTEM_MD" = Some "~/custom.md" /\
  canonical (homedir p) ["home"; "user"] /\
  systemMdPath Sample.imports p = "/home/user/custom.md" /\
  fst (getCoreSystemPrompt Sample.imports p None Sample.customDisk)
  = Fs.Thrown (Fs.JsError "missing system prompt file '/home/user/custom.md'").
Proof.
  intros p.
  assert (env p !! "GEMINI_SYSTEM_MD" = Some "~/custom.md") as Henv
    by (vm_compute; reflexivity).
  assert (canonical (homedir p) ["home"; "user"]) as Hhome
    by (split; [repeat constructor|reflexivity]).
  destruct (home_shorthand_expanded Sample.imports p ["home"; "user"] Henv Hhome)
    as (Hpath & _ & Hmissing).
  split_and!; [exact Henv|exact Hhome|exact Hpath|].
  apply (Hmissing None Sample.customDisk). vm_compute. reflexivity.
Defined.



(** ** What the write-back persists *)

Lemma loadBasePrompt_writes t p st base st1 :
  loadBasePrompt t p st = (Fs.Returned base, st1) ->
  writes (Fs.calls st1) = writes (Fs.calls st).
Proof.
  unfold loadBasePrompt. generalize (trim (templateLiteral t p)). intros template.
  destruct (enabled (env p !! "GEMINI_SYSTEM_MD")); [|by intros [= <- <-]].
  unfold Fs.bind, Fs.existsSync.
  case_bool_decide as Hfound; cbv [negb]; [|done].
  unfold Fs.readFileSync. cbn [Fs.nodes Fs.record].
  destruct (Fs.lookup_node (Fs.nodes st) (systemMdPath t p)) as [[data|]|]; [|done..].
  intros [= <- <-]. cbn [Fs.calls Fs.record].
  rewrite !writes_app. cbn. by rewrite !app_nil_r.
Qed.

Lemma run_writes t p userMemory st out st' path :
  writePath t p = Some path ->
  getCoreSystemPrompt t p userMemory st = (Fs.Returned out, st') ->
  exists base,
    out = base +:+ memorySuffix userMemory /\
    Fs.nodes st' !! path = Some (Fs.File base) /\
    writes (Fs.calls st') = writes (Fs.calls st) ++ [(path, base)].
Proof.
  intros Hpath (base & st1 & Hload & Hwrite & ->)%run_returned.
  destruct (writeBack_returned _ _ _ _ _ _ Hpath Hwrite) as [Hnode Hcalls].
  exists base. split_and!; [done..|].
  rewrite Hcalls, writes_app, (loadBasePrompt_writes _ _ _ _ _ Hload). done.
Qed.

(** C1, as the code has it. With the override and the write-back both on,
    the override file present and nothing in the way of the write, the call
    returns, and what it has written to the write-back path is the base
    prompt in use: the contents it loaded from the override file. *)
Theorem write_back_persists_loaded_override t p userMemory st path data :
  Path.isAbsolute (cwd p) = true ->
  enabled (env p !! "GEMINI_SYSTEM_MD") = true ->
  enabled (env p !! "GEMINI_WRITE_SYSTEM_MD") = true ->
  writePath t p = Some path ->
  Fs.lookup_node (Fs.nodes st) (systemMdPath t p) = Some (Fs.File data) ->
  writable (Fs.nodes st) path = true ->
  exists st',
    getCoreSystemPrompt t p userMemory st
    = (Fs.Returned (data +:+ memorySuffix userMemory), st') /\
    Fs.lookup_node (Fs.nodes st') path = Some (Fs.File data) /\
    writes (Fs.calls st') = writes (Fs.calls st) ++ [(path, data)].
Proof.
  intros Hcwd Hon _ Hpath Hfile Hwritable.
  pose proof (loadBasePrompt_file t p st data Hon Hfile) as Hload.
  destruct (writeBack_succeeds t p data
              (Fs.record (Fs.ReadFileSync (systemMdPath t p))
                 (Fs.record (Fs.ExistsSync (systemMdPath t p)) st)) path Hcwd Hpath)
    as (st' & Hwrite & Hnode & _ & Hcalls); [done|].
  exists st'. split_and!; [by apply (run_composed _ _ _ _ _ _ _ Hload)|done|].
  rewrite Hcalls. cbn [Fs.calls Fs.record].
  rewrite !writes_app. cbn. by rewrite !app_nil_r.
Qed.

Lemma write_back_persists_loaded_override_witness :
  let p := setenv "GEMINI_WRITE_SYSTEM_MD" "out/copy.md"
             (setenv "GEMINI_SYSTEM_MD" "custom.md" Sample.bare) in
  (Path.isAbsolute (cwd p) = true /\
   enabled (env p !! "GEMINI_SYSTEM_MD") = true /\
   enabled (env p !! "GEMINI_WRITE_SYSTEM_MD") = true /\
   writePath Sample.imports p = Some "/work/out/copy.md" /\
   Fs.lookup_node (Fs.nodes Sample.customDisk) (systemMdPath Sample.imports p)
   = Some (Fs.File "Be brief.") /\
   writable (Fs.nodes Sample.customDisk) "/work/out/copy.md" = true) /\
  exists st',
    getCoreSystemPrompt Sample.imports p None Sample.customDisk
    = (Fs.Returned ("Be brief." +:+ memorySuffix None), st') /\
    Fs.lookup_node (Fs.nodes st') "/work/out/copy.md" = Some (Fs.File "Be brief.") /\
    writes (Fs.calls st')
    = writes (Fs.calls Sample.customDisk) ++ [("/work/out/copy.md", "Be brief.")].
Proof.
  intros p.
  assert (Path.isAbsolute (cwd p) = true) as H1 by reflexivity.
  assert (enabled (env p !! "GEMINI_SYSTEM_MD") = true) as H2 by (vm_compute; reflexivity).
  assert (enabled (env p !! "GEMINI_WRITE_SYSTEM_MD") = true) as H3
    by (vm_compute; reflexivity).
  assert (writePath Sample.imports p = Some "/work/out/copy.md") as H4
    by (vm_compute; reflexivity).
  assert (Fs.lookup_node (Fs.nodes Sample.customDisk) (systemMdPath Sample.imports p)
          = Some (Fs.File "Be brief.")) as H5 by (vm_compute; reflexivity).
  assert (writable (Fs.nodes Sample.customDisk) "/work/out/copy.md" = true) as H6
    by (vm_compute; reflexivity).
  split; [by split_and!|].
  exact (write_back_persists_loaded_override Sample.imports p None Sample.customDisk
           "/work/out/copy.md" "Be brief." H1 H2 H3 H4 H5 H6).
Defined.

(** C1, as stated, fails: with both switches on, the file at the write-back
    path ends up with the text of the override file, which is not the
    default template. *)
Lemma write_back_default_template_refuted :
  let p := setenv "GEMINI_WRITE_SYSTEM_MD" "out/copy.md"
             (setenv "GEMINI_SYSTEM_MD" "custom.md" Sample.bare) in
  enabled (env p !! "GEMINI_SYSTEM_MD") = true /\
  enabled (env p !! "GEMINI_WRITE_SYSTEM_MD") = true /\
  exists st',
    getCoreSystemPrompt Sample.imports p None Sample.customDisk
    = (Fs.Returned "Be brief.", st') /\
    Fs.calls st' = [Fs.ExistsSync "/work/custom.md"; Fs.ReadFileSync "/work/custom.md";
                    Fs.MkdirSync "/work/out";
                    Fs.WriteFileSync "/work/out/copy.md" "Be brief."] /\
    Fs.nodes st' !! "/work/out/copy.md" = Some (Fs.File "Be brief.") /\
    Fs.nodes st' !! "/work/out/copy.md"
    <> Some (Fs.File (trim (templateLiteral Sample.imports p))).
Proof.
  intros p.
  split; [by vm_compute|]. split; [by vm_compute|].
  exists (Fs.mkState
            (<["/work/out/copy.md" := Fs.File "Be brief."]>
               (<["/work/out" := Fs.Directory]> (Fs.nodes Sample.customDisk)))
            [Fs.ExistsSync "/work/custom.md"; Fs.ReadFileSync "/work/custom.md";
             Fs.MkdirSync "/work/out"; Fs.WriteFileSync "/work/out/copy.md" "Be brief."]).
  split_and!; [by vm_compute|done|by vm_compute|].
  cbn [Fs.nodes]. rewrite lookup_insert_eq.
  destruct (template_trim_head Sample.imports p) as (rest & ->). discriminate.
Qed.

(** ** Where the write-back goes *)

Lemma systemMdPath_default_request t p v :
  env p !! "GEMINI_SYSTEM_MD" = Some v -> requestsDefault v = true ->
  systemMdPath t p = defaultSystemMdPath t p.
Proof. unfold systemMdPath. intros -> ->. by rewrite andb_false_r. Qed.

(** C2, as the code has it. A write-back value that reads [1] or [true]
    sends the write to [systemMdPath], the path the override block has left:
    the default location when the override is off or itself asks for the
    default location, and the custom path of [GEMINI_SYSTEM_MD] when the
    override is on with a path.  A call that returns has written there and
    nowhere else. *)
Theorem write_back_default_follows_systemMdPath t p w :
  env p !! "GEMINI_WRITE_SYSTEM_MD" = Some w ->
  requestsDefault w = true ->
  writePath t p = Some (systemMdPath t p) /\
  (enabled (env p !! "GEMINI_SYSTEM_MD") = false ->
   systemMdPath t p = defaultSystemMdPath t p) /\
  (forall v, env p !! "GEMINI_SYSTEM_MD" = Some v -> requestsDefault v = true ->
   systemMdPath t p = defaultSystemMdPath t p) /\
  (forall v, env p !! "GEMINI_SYSTEM_MD" = Some v ->
   enabled (Some v) = true -> requestsDefault v = false ->
   systemMdPath t p = resolveCustomPath p v) /\
  forall userMemory st out st',
    getCoreSystemPrompt t p userMemory st = (Fs.Returned out, st') ->
    exists basePrompt,
      writes (Fs.calls st') = writes (Fs.calls st) ++ [(systemMdPath t p, basePrompt)].
Proof.
  intros Henv Hdefault.
  assert (writePath t p = Some (systemMdPath t p)) as Hpath.
  { unfold writePath. by rewrite Henv, requestsDefault_enabled, Hdefault. }
  split_and!; [done|apply systemMdPath_disabled|apply systemMdPath_default_request
              |apply systemMdPath_custom|].
  intros userMemory st out st' Hrun.
  destruct (run_writes t p userMemory st out st' _ Hpath Hrun) as (base & _ & _ & Hwrites).
  by exists base.
Qed.

Lemma write_back_default_follows_systemMdPath_witness :
  let p := setenv "GEMINI_WRITE_SYSTEM_MD" "TRUE"
             (setenv "GEMINI_SYSTEM_MD" "custom.md" Sample.bare) in
  (env p !! "GEMINI_WRITE_SYSTEM_MD" = Some "TRUE" /\ requestsDefault "TRUE" = true) /\
  writePath Sample.imports p = Some (systemMdPath Sample.imports p) /\
  systemMdPath Sample.imports p = resolveCustomPath p "custom.md".
Proof.
  intros p.
  assert (env p !! "GEMINI_WRITE_SYSTEM_MD" = Some "TRUE") as H1
    by (vm_compute; reflexivity).
  assert (requestsDefault "TRUE" = true) as H2 by (vm_compute; reflexivity).
  destruct (write_back_default_follows_systemMdPath Sample.imports p "TRUE" H1 H2)
    as (Hpath & _ & _ & Hcustom & _).
  split_and!; [exact H1|exact H2|exact Hpath|].
  apply Hcustom; vm_compute; reflexivity.
Defined.

(** C2, as stated, fails: with the override on at [custom.md], a write-back
    value of [TRUE] overwrites the override file itself; the default
    location is not touched. *)
Lemma write_back_default_location_refuted :
  let p := setenv "GEMINI_WRITE_SYSTEM_MD" "TRUE"
             (setenv "GEMINI_SYSTEM_MD" "custom.md" Sample.bare) in
  requestsDefault "TRUE" = true /\
  defaultSystemMdPath Sample.imports p = "/work/.gemini/system.md" /\
  exists st',
    getCoreSystemPrompt Sample.imports p None Sample.customDisk
    = (Fs.Returned "Be brief.", st') /\
    writes (Fs.calls st') = [("/work/custom.md", "Be brief.")] /\
    Fs.nodes st' !! "/work/.gemini/system.md" = None.
Proof.
  intros p.
  split; [by vm_compute|]. split; [by vm_compute|].
  exists (Fs.mkState
            (<["/work/custom.md" := Fs.File "Be brief."]> (Fs.nodes Sample.customDisk))
            [Fs.ExistsSync "/work/custom.md"; Fs.ReadFileSync "/work/custom.md";
             Fs.MkdirSync "/work"; Fs.WriteFileSync "/work/custom.md" "Be brief."]).
  split_and!; by vm_compute.
Qed.

(** ** Round trip *)

Lemma readFileSync_file path st data :
  Fs.lookup_node (Fs.nodes st) path = Some (Fs.File data) ->
  fst (Fs.readFileSync path st) = Fs.Returned data.
Proof. unfold Fs.readFileSync. by intros ->. Qed.

(** C6. With the override off, the write-back on for [path] and nothing in
    the way, one call returns the default template followed by the memory
    suffix, and afterwards the directories above [path] exist and the file at
    [path], whatever was there before, reads as the default template without
    the memory suffix. *)
Theorem write_back_round_trip t p userMemory st path :
  Path.isAbsolute (cwd p) = true ->
  enabled (env p !! "GEMINI_SYSTEM_MD") = false ->
  writePath t p = Some path ->
  writable (Fs.nodes st) path = true ->
  exists st',
    getCoreSystemPrompt t p userMemory st
    = (Fs.Returned (trim (templateLiteral t p) +:+ memorySuffix userMemory), st') /\
    fst (Fs.readFileSync path st') = Fs.Returned (trim (templateLiteral t p)) /\
    (forall d, d ∈ parents path -> Fs.nodes st' !! d = Some Fs.Directory) /\
    Fs.calls st' =
      Fs.calls st ++ [Fs.MkdirSync (Path.dirname path);
                      Fs.WriteFileSync path (trim (templateLiteral t p))].
Proof.
  intros Hcwd Hoff Hpath Hwritable.
  pose proof (loadBasePrompt_default t p st Hoff) as Hload.
  destruct (writeBack_succeeds t p (trim (templateLiteral t p)) st path Hcwd Hpath Hwritable)
    as (st' & Hwrite & Hnode & Hdirs & Hcalls).
  exists st'. split_and!; [|by apply readFileSync_file|done..].
  by apply (run_composed _ _ _ _ _ _ _ Hload).
Qed.

Lemma write_back_round_trip_witness :
  let p := setenv "GEMINI_WRITE_SYSTEM_MD" "~/prompts/system.md" Sample.bare in
  let st := Fs.mkState (<["/home/user/prompts/system.md" := Fs.File "old"]>
                          (<["/home" := Fs.Directory]> ∅)) [] in
  (Path.isAbsolute (cwd p) = true /\
   enabled (env p !! "GEMINI_SYSTEM_MD") = false /\
   writePath Sample.imports p = Some "/home/user/prompts/system.md" /\
   writable (Fs.nodes st) "/home/user/prompts/system.md" = true) /\
  exists st',
    getCoreSystemPrompt Sample.imports p (Some "remember X") st
    = (Fs.Returned (trim (templateLiteral Sample.imports p)
                    +:+ memorySuffix (Some "remember X")), st') /\
    fst (Fs.readFileSync "/home/user/prompts/system.md" st')
    = Fs.Returned (trim (templateLiteral Sample.imports p)) /\
    (forall d, d ∈ parents "/home/user/prompts/system.md" ->
       Fs.nodes st' !! d = Some Fs.Directory) /\
    Fs.calls st' =
      Fs.calls st ++ [Fs.MkdirSync (Path.dirname "/home/user/prompts/system.md");
                      Fs.WriteFileSync "/home/user/prompts/system.md"
                        (trim (templateLiteral Sample.imports p))].
Proof.
  intros p st.
  assert (Path.isAbsolute (cwd p) = true) as H1 by reflexivity.
  assert (enabled (env p !! "GEMINI_SYSTEM_MD") = false) as H2
    by (vm_compute; reflexivity).
  assert (writePath Sample.imports p = Some "/home/user/prompts/system.md") as H3
    by (vm_compute; reflexivity).
  assert (writable (Fs.nodes st) "/home/user/prompts/system.md" = true) as H4
    by (vm_compute; reflexivity).
  split; [by split_and!|].
  exact (write_back_round_trip Sample.imports p (Some "remember X") st
           "/home/user/prompts/system.md" H1 H2 H3 H4).
Defined.

(** ** Determinism *)

(** C7. The returned string is a function of the two configuration
    values, the kind of sandbox, the answer of the git probe, the home and
    working directories, the contents of the override file and
    [userMemory]: two calls that agree on these and both return, return the
    same string, whatever else differs in their environments and on their
    disks. *)
Theorem resolver_deterministic t p1 p2 userMemory st1 st2 out1 out2 st1' st2' :
  env p1 !! "GEMINI_SYSTEM_MD" = env p2 !! "GEMINI_SYSTEM_MD" ->
  env p1 !! "GEMINI_WRITE_SYSTEM_MD" = env p2 !! "GEMINI_WRITE_SYSTEM_MD" ->
  sandboxKindOf (env p1 !! "SANDBOX") = sandboxKindOf (env p2 !! "SANDBOX") ->
  isGitRepository p1 (cwd p1) = isGitRepository p2 (cwd p2) ->
  homedir p1 = homedir p2 ->
  cwd p1 = cwd p2 ->
  (enabled (env p1 !! "GEMINI_SYSTEM_MD") = true ->
   Fs.lookup_node (Fs.nodes st1) (systemMdPath t p1)
   = Fs.lookup_node (Fs.nodes st2) (systemMdPath t p2)) ->
  getCoreSystemPrompt t p1 userMemory st1 = (Fs.Returned out1, st1') ->
  getCoreSystemPrompt t p2 userMemory st2 = (Fs.Returned out2, st2') ->
  out1 = out2.
Proof.
  intros Hsys Hwrite Hkind Hgit Hhome Hcwd Hfile
    (base1 & s1 & Hload1 & _ & ->)%run_returned
    (base2 & s2 & Hload2 & _ & ->)%run_returned.
  f_equal.
  apply loadBasePrompt_returned in Hload1 as [_ Hload1].
  apply loadBasePrompt_returned in Hload2 as [_ Hload2].
  rewrite <-Hsys in Hload2.
  destruct (enabled (env p1 !! "GEMINI_SYSTEM_MD")).
  - rewrite Hfile in Hload1 by done. congruence.
  - destruct Hload1 as [-> _], Hload2 as [-> _].
    by rewrite (templateLiteral_ext t p1 p2).
Qed.

Lemma resolver_deterministic_witness :
  let p1 := setenv "SANDBOX" "docker" (setenv "GEMINI_SYSTEM_MD" "custom.md" Sample.bare) in
  let p2 := setenv "EDITOR" "vi"
              (setenv "SANDBOX" "podman" (setenv "GEMINI_SYSTEM_MD" "custom.md" Sample.bare)) in
  let st1 := Sample.customDisk in
  let st2 := Fs.mkState (<["/work/notes.txt" := Fs.File "x"]> (Fs.nodes Sample.customDisk))
               [Fs.ExistsSync "/tmp"] in
  let st1' := Fs.mkState (Fs.nodes st1)
                [Fs.ExistsSync "/work/custom.md"; Fs.ReadFileSync "/work/custom.md"] in
  let st2' := Fs.mkState (Fs.nodes st2)
                [Fs.ExistsSync "/tmp"; Fs.ExistsSync "/work/custom.md";
                 Fs.ReadFileSync "/work/custom.md"] in
  let out := "Be brief." +:+ separator +:+ "remember X" in
  (env p1 !! "GEMINI_SYSTEM_MD" = env p2 !! "GEMINI_SYSTEM_MD" /\
   env p1 !! "GEMINI_WRITE_SYSTEM_MD" = env p2 !! "GEMINI_WRITE_SYSTEM_MD" /\
   sandboxKindOf (env p1 !! "SANDBOX") = sandboxKindOf (env p2 !! "SANDBOX") /\
   env p1 !! "SANDBOX" <> env p2 !! "SANDBOX" /\
   Fs.lookup_node (Fs.nodes st1) (systemMdPath Sample.imports p1)
   = Fs.lookup_node (Fs.nodes st2) (systemMdPath Sample.imports p2) /\
   getCoreSystemPrompt Sample.imports p1 (Some "remember X") st1 = (Fs.Returned out, st1') /\
   getCoreSystemPrompt Sample.imports p2 (Some "remember X") st2 = (Fs.Returned out, st2')) /\
  out = out.
Proof.
  intros p1 p2 st1 st2 st1' st2' out.
  assert (env p1 !! "GEMINI_SYSTEM_MD" = env p2 !! "GEMINI_SYSTEM_MD") as H1
    by (vm_compute; reflexivity).
  assert (env p1 !! "GEMINI_WRITE_SYSTEM_MD" = env p2 !! "GEMINI_WRITE_SYSTEM_MD") as H2
    by (vm_compute; reflexivity).
  assert (sandboxKindOf (env p1 !! "SANDBOX") = sandboxKindOf (env p2 !! "SANDBOX")) as H3
    by (vm_compute; reflexivity).
  assert (env p1 !! "SANDBOX" <> env p2 !! "SANDBOX") as H4
    by (vm_compute; discriminate).
  assert (Fs.lookup_node (Fs.nodes st1) (systemMdPath Sample.imports p1)
          = Fs.lookup_node (Fs.nodes st2) (systemMdPath Sample.imports p2)) as H5
    by (vm_compute; reflexivity).
  assert (getCoreSystemPrompt Sample.imports p1 (Some "remember X") st1
          = (Fs.Returned out, st1')) as H6 by (vm_compute; reflexivity).
  assert (getCoreSystemPrompt Sample.imports p2 (Some "remember X") st2
          = (Fs.Returned out, st2')) as H7 by (vm_compute; reflexivity).
  split; [by split_and!|].
  exact (resolver_deterministic Sample.imports p1 p2 (Some "remember X")
           st1 st2 out out st1' st2' H1 H2 H3 eq_refl eq_refl eq_refl (fun _ => H5) H6 H7).
Defined.

(** * Further properties of the resolver *)

(** ** Every outcome of the two steps *)

Lemma loadBasePrompt_cases t p st :
  loadBasePrompt t p st =
    if enabled (env p !! "GEMINI_SYSTEM_MD") then
      match Fs.lookup_node (Fs.nodes st) (systemMdPath t p) with
      | None =>
          (Fs.Thrown (missingSystemPromptFile (systemMdPath t p)),
           Fs.mkState (Fs.nodes st) (Fs.calls st ++ [Fs.ExistsSync (systemMdPath t p)]))
      | Some (Fs.File data) =>
          (Fs.Returned data,
           Fs.mkState (Fs.nodes st)
             ((Fs.calls st ++ [Fs.ExistsSync (systemMdPath t p)])
              ++ [Fs.ReadFileSync (systemMdPath t p)]))
      | Some Fs.Directory =>
          (Fs.Thrown (Fs.SystemError Fs.EISDIR "read" (systemMdPath t p)),
           Fs.mkState (Fs.nodes st)
             ((Fs.calls st ++ [Fs.ExistsSync (systemMdPath t p)])
              ++ [Fs.ReadFileSync (systemMdPath t p)]))
      end
    else (Fs.Returned (trim (templateLiteral t p)), st).
Proof.
  unfold loadBasePrompt. generalize (trim (templateLiteral t p)). intros template.
  destruct (enabled (env p !! "GEMINI_SYSTEM_MD")); [|done].
  unfold Fs.bind, Fs.existsSync, Fs.readFileSync. cbn [Fs.nodes Fs.calls Fs.record].
  destruct (Fs.lookup_node (Fs.nodes st) (systemMdPath t p)) as [[data|]|] eqn:Hnode.
  - rewrite bool_decide_true by eauto. cbv [negb Fs.record]. cbn [Fs.nodes Fs.calls].
    by rewrite Hnode.
  - rewrite bool_decide_true by eauto. cbv [negb Fs.record]. cbn [Fs.nodes Fs.calls].
    by rewrite Hnode.
  - by rewrite bool_decide_false by (by intros [? ?]).
Qed.

Lemma dirname_root : Path.dirname "/" = "/".
Proof. reflexivity. Qed.

(** The directories [mkdirSync] may create on the way to the directory of a
    canonical path are directories above that path. *)
Lemma created_is_parent path segs k :
  canonical path segs ->
  1 <= k <= length (Fs.segments (Path.dirname path)) ->
  Fs.absolute ([] ++ take k (Fs.segments (Path.dirname path))) ∈ parents path.
Proof.
  intros Hcanon Hk. pose proof (parents_canonical _ _ Hcanon) as Hparents.
  destruct Hcanon as [Hplain ->].
  destruct segs as [|seg segs _] using rev_ind.
  - change (Fs.absolute []) with "/" in Hk. rewrite dirname_root in Hk.
    vm_compute in Hk. lia.
  - apply Forall_app in Hplain as [Hinit Hseg%Forall_inv].
    rewrite dirname_absolute, segments_absolute in * by done.
    apply Hparents. exists k. rewrite length_app. simpl.
    split; [lia|]. by rewrite take_app_le by lia.
Qed.

(** What a write-back, whatever its outcome, does to the disk: a path keeps
    its node, or it was missing and is now a directory above the target, or
    it is the target and holds the base prompt. *)
Lemma writeBack_effect t p base st r st' path segs :
  writePath t p = Some path -> canonical path segs ->
  writeBack t p base st = (r, st') ->
  forall q,
    Fs.nodes st' !! q = Fs.nodes st !! q \/
    (Fs.nodes st !! q = None /\ Fs.nodes st' !! q = Some Fs.Directory /\
     q ∈ parents path) \/
    (q = path /\ r = Fs.Returned tt /\ Fs.nodes st' !! q = Some (Fs.File base)).
Proof.
  intros Hpath Hcanon. unfold writeBack. rewrite Hpath.
  unfold Fs.bind, Fs.mkdirSync.
  destruct (Fs.mkdir_walk _ _ _ _) as [[e|] fs1] eqn:Hwalk.
  - intros [= <- <-] q. cbn [Fs.nodes].
    destruct (mkdir_walk_grows _ _ _ _ _ _ Hwalk q) as [?|(? & ? & k & Hk & ->)];
      [by left|].
    right. left. split_and!; [done..|]. by apply (created_is_parent _ segs).
  - assert (forall q,
              fs1 !! q = Fs.nodes st !! q \/
              (Fs.nodes st !! q = None /\ fs1 !! q = Some Fs.Directory /\
               q ∈ parents path)) as Hgrow.
    { intros q.
      destruct (mkdir_walk_grows _ _ _ _ _ _ Hwalk q) as [?|(? & ? & k & Hk & ->)];
        [by left|].
      right. split_and!; [done..|]. by apply (created_is_parent _ segs). }
    unfold Fs.writeFileSync. cbn [Fs.nodes Fs.calls Fs.record].
    destruct (Fs.lookup_node fs1 path) as [[data|]|];
      destruct (Fs.lookup_node fs1 (Path.dirname path)) as [[data'|]|];
      intros [= <- <-] q; cbn [Fs.nodes];
      try (destruct (Hgrow q) as [?|?]; [by left|by right; left]);
      (destruct (decide (path = q)) as [<-|Hq];
       [right; right; by rewrite lookup_insert_eq
       |rewrite lookup_insert_ne by done;
        destruct (Hgrow q) as [?|?]; [by left|by right; left]]).
Qed.

(** The calls of a write-back: the [mkdirSync], and the [writeFileSync]
    when the directories could be made. *)
Lemma writeBack_calls t p base st r st' path :
  writePath t p = Some path ->
  writeBack t p base st = (r, st') ->
  Fs.calls st' = Fs.calls st ++ [Fs.MkdirSync (Path.dirname path)] \/
  Fs.calls st' =
    Fs.calls st ++ [Fs.MkdirSync (Path.dirname path); Fs.WriteFileSync path base].
Proof.
  intros Hpath. unfold writeBack. rewrite Hpath.
  unfold Fs.bind, Fs.mkdirSync.
  destruct (Fs.mkdir_walk _ _ _ _) as [[e|] fs1]; [intros [= <- <-]; by left|].
  unfold Fs.writeFileSync. cbn [Fs.nodes Fs.calls Fs.record].
  destruct (Fs.lookup_node fs1 path) as [[data|]|];
    destruct (Fs.lookup_node fs1 (Path.dirname path)) as [[data'|]|];
    intros [= <- <-]; right; cbv [Fs.record]; cbn [Fs.calls]; by rewrite <-app_assoc.
Qed.

Lemma mkdir_walk_error path above todo fs e fs' :
  Fs.mkdir_walk path above todo fs = (Some e, fs') ->
  exists code, e = Fs.SystemError code "mkdir" path.
Proof.
  revert above fs. induction todo as [|seg todo IH]; intros above fs; [done|].
  simpl. destruct (fs !! Fs.absolute (above ++ [seg])) as [[data|]|]; [|by apply IH..].
  intros [= <- <-]. eauto.
Qed.

(** A write-back never throws an [Error] of the program. *)
Lemma writeBack_throws t p base st e st' :
  writeBack t p base st = (Fs.Thrown e, st') ->
  exists code syscall path, e = Fs.SystemError code syscall path.
Proof.
  unfold writeBack. destruct (writePath t p) as [path|]; [|done].
  unfold Fs.bind, Fs.mkdirSync.
  destruct (Fs.mkdir_walk _ _ _ _) as [[e'|] fs1] eqn:Hwalk.
  - intros [= <- <-]. destruct (mkdir_walk_error _ _ _ _ _ _ Hwalk) as [code ->]. eauto.
  - unfold Fs.writeFileSync. cbn [Fs.nodes Fs.calls Fs.record].
    destruct (Fs.lookup_node fs1 path) as [[data|]|];
      destruct (Fs.lookup_node fs1 (Path.dirname path)) as [[data'|]|];
      intros [= <- <-]; eauto.
Qed.

Lemma run_cases t p userMemory st :
  getCoreSystemPrompt t p userMemory st =
    match loadBasePrompt t p st with
    | (Fs.Returned base, st1) =>
        match writeBack t p base st1 with
        | (Fs.Returned _, st2) => (Fs.Returned (base +:+ memorySuffix userMemory), st2)
        | (Fs.Thrown e, st2) => (Fs.Thrown e, st2)
        end
    | (Fs.Thrown e, st1) => (Fs.Thrown e, st1)
    end.
Proof.
  rewrite getCoreSystemPrompt_steps. unfold Fs.bind, Fs.ret.
  destruct (loadBasePrompt t p st) as [[base|e] st1]; [|done].
  by destruct (writeBack t p base st1) as [[[]|e] st2].
Qed.

Lemma writePath_off t p :
  enabled (env p !! "GEMINI_WRITE_SYSTEM_MD") = false -> writePath t p = None.
Proof.
  unfold writePath. destruct (env p !! "GEMINI_WRITE_SYSTEM_MD") as [w|]; [|done].
  by intros ->.
Qed.

(** ** The override path *)

(** X1. With the override on, the file present and the write-back off, the
    call returns the contents of the file as they are, followed by the
    memory suffix; it has checked and read that one path and left the disk as
    it was. *)
Theorem override_contents_returned t p userMemory st data :
  enabled (env p !! "GEMINI_SYSTEM_MD") = true ->
  enabled (env p !! "GEMINI_WRITE_SYSTEM_MD") = false ->
  Fs.lookup_node (Fs.nodes st) (systemMdPath t p) = Some (Fs.File data) ->
  getCoreSystemPrompt t p userMemory st =
    (Fs.Returned (data +:+ memorySuffix userMemory),
     Fs.mkState (Fs.nodes st)
       (Fs.calls st ++ [Fs.ExistsSync (systemMdPath t p);
                        Fs.ReadFileSync (systemMdPath t p)])).
Proof.
  intros Hon Hoff Hfile.
  rewrite run_cases, loadBasePrompt_cases, Hon, Hfile.
  rewrite writeBack_off by (by apply writePath_off).
  by rewrite <-app_assoc.
Qed.

Lemma override_contents_returned_witness :
  let p := setenv "GEMINI_WRITE_SYSTEM_MD" "False"
             (setenv "GEMINI_SYSTEM_MD" "./custom.md" Sample.bare) in
  (enabled (env p !! "GEMINI_SYSTEM_MD") = true /\
   enabled (env p !! "GEMINI_WRITE_SYSTEM_MD") = false /\
   Fs.lookup_node (Fs.nodes Sample.customDisk) (systemMdPath Sample.imports p)
   = Some (Fs.File "Be brief.")) /\
  getCoreSystemPrompt Sample.imports p None Sample.customDisk =
    (Fs.Returned ("Be brief." +:+ memorySuffix None),
     Fs.mkState (Fs.nodes Sample.customDisk)
       (Fs.calls Sample.customDisk ++
        [Fs.ExistsSync (systemMdPath Sample.imports p);
         Fs.ReadFileSync (systemMdPath Sample.imports p)])).
Proof.
  intros p.
  assert (enabled (env p !! "GEMINI_SYSTEM_MD") = true) as H1 by (vm_compute; reflexivity).
  assert (enabled (env p !! "GEMINI_WRITE_SYSTEM_MD") = false) as H2
    by (vm_compute; reflexivity).
  assert (Fs.lookup_node (Fs.nodes Sample.customDisk) (systemMdPath Sample.imports p)
          = Some (Fs.File "Be brief.")) as H3 by (vm_compute; reflexivity).
  split; [by split_and!|].
  exact (override_contents_returned Sample.imports p None Sample.customDisk
           "Be brief." H1 H2 H3).
Defined.

(** X2. The existence check of line 42 does not tell a file from a
    directory: when the override path is a directory the check passes and the
    call fails in [readFileSync] with [EISDIR], not with the missing-file
    error; nothing has been written. *)
Theorem override_directory_fails t p userMemory st :
  enabled (env p !! "GEMINI_SYSTEM_MD") = true ->
  Fs.lookup_node (Fs.nodes st) (systemMdPath t p) = Some Fs.Directory ->
  getCoreSystemPrompt t p userMemory st =
    (Fs.Thrown (Fs.SystemError Fs.EISDIR "read" (systemMdPath t p)),
     Fs.mkState (Fs.nodes st)
       (Fs.calls st ++ [Fs.ExistsSync (systemMdPath t p);
                        Fs.ReadFileSync (systemMdPath t p)])).
Proof.
  intros Hon Hdir.
  rewrite run_cases, loadBasePrompt_cases, Hon, Hdir.
  by rewrite <-app_assoc.
Qed.

Lemma override_directory_fails_witness :
  let p := setenv "GEMINI_WRITE_SYSTEM_MD" "1" (setenv "GEMINI_SYSTEM_MD" "~" Sample.bare) in
  let st := Fs.mkState (<["/home/user" := Fs.Directory]> ∅) [] in
  (enabled (env p !! "GEMINI_SYSTEM_MD") = true /\
   Fs.lookup_node (Fs.nodes st) (systemMdPath Sample.imports p) = Some Fs.Directory) /\
  getCoreSystemPrompt Sample.imports p None st =
    (Fs.Thrown (Fs.SystemError Fs.EISDIR "read" (systemMdPath Sample.imports p)),
     Fs.mkState (Fs.nodes st)
       (Fs.calls st ++ [Fs.ExistsSync (systemMdPath Sample.imports p);
                        Fs.ReadFileSync (systemMdPath Sample.imports p)])).
Proof.
  intros p st.
  assert (enabled (env p !! "GEMINI_SYSTEM_MD") = true) as H1 by (vm_compute; reflexivity).
  assert (Fs.lookup_node (Fs.nodes st) (systemMdPath Sample.imports p) = Some Fs.Directory)
    as H2 by (vm_compute; reflexivity).
  split; [by split_and!|].
  exact (override_directory_fails Sample.imports p None st H1 H2).
Defined.

(** ** The errors *)

(** X3. The only [Error] the function itself throws is the missing-file
    error, and it throws it in one situation only: the override is on,
    nothing exists at the override path, and the disk is still untouched.
    Every other failure is the system error of a [fs] call. *)
Theorem thrown_error_is_missing_file t p userMemory st message st' :
  getCoreSystemPrompt t p userMemory st = (Fs.Thrown (Fs.JsError message), st') ->
  enabled (env p !! "GEMINI_SYSTEM_MD") = true /\
  Fs.lookup_node (Fs.nodes st) (systemMdPath t p) = None /\
  message = "missing system prompt file '" +:+ systemMdPath t p +:+ "'" /\
  st' = Fs.mkState (Fs.nodes st) (Fs.calls st ++ [Fs.ExistsSync (systemMdPath t p)]).
Proof.
  rewrite run_cases, loadBasePrompt_cases.
  generalize (trim (templateLiteral t p)). intros template.
  destruct (enabled (env p !! "GEMINI_SYSTEM_MD")).
  - destruct (Fs.lookup_node (Fs.nodes st) (systemMdPath t p)) as [[data|]|].
    + destruct (writeBack t p data _) as [[[]|e] st2] eqn:Hwrite; [done|].
      intros [= -> <-].
      by destruct (writeBack_throws _ _ _ _ _ _ Hwrite) as (? & ? & ? & ?).
    + done.
    + by intros [= <- <-].
  - destruct (writeBack t p template st) as [[[]|e] st2] eqn:Hwrite; [done|].
    intros [= -> <-].
    by destruct (writeBack_throws _ _ _ _ _ _ Hwrite) as (? & ? & ? & ?).
Qed.

Lemma thrown_error_is_missing_file_witness :
  let p := setenv "GEMINI_WRITE_SYSTEM_MD" "out.md"
             (setenv "GEMINI_SYSTEM_MD" "TRUE" Sample.bare) in
  let message := "missing system prompt file '/work/.gemini/system.md'" in
  let st' := Fs.mkState (Fs.nodes Sample.customDisk)
               [Fs.ExistsSync "/work/.gemini/system.md"] in
  getCoreSystemPrompt Sample.imports p None Sample.customDisk
  = (Fs.Thrown (Fs.JsError message), st') /\
  enabled (env p !! "GEMINI_SYSTEM_MD") = true /\
  Fs.lookup_node (Fs.nodes Sample.customDisk) (systemMdPath Sample.imports p) = None /\
  message = "missing system prompt file '" +:+ systemMdPath Sample.imports p +:+ "'" /\
  st' = Fs.mkState (Fs.nodes Sample.customDisk)
          (Fs.calls Sample.customDisk ++ [Fs.ExistsSync (systemMdPath Sample.imports p)]).
Proof.
  intros p message st'.
  assert (getCoreSystemPrompt Sample.imports p None Sample.customDisk
          = (Fs.Thrown (Fs.JsError message), st')) as Hrun by (vm_compute; reflexivity).
  split; [exact Hrun|].
  exact (thrown_error_is_missing_file Sample.imports p None Sample.customDisk
           message st' Hrun).
Defined.

(** ** What the call does to the disk *)

(** X4. With the write-back off the call only looks at the disk: whatever
    the outcome, the files and directories are as before, and the calls it
    has made are existence checks and reads. *)
Theorem no_write_back_is_read_only t p userMemory st :
  enabled (env p !! "GEMINI_WRITE_SYSTEM_MD") = false ->
  Fs.nodes (snd (getCoreSystemPrompt t p userMemory st)) = Fs.nodes st /\
  exists new,
    Fs.calls (snd (getCoreSystemPrompt t p userMemory st)) = Fs.calls st ++ new /\
    forallb readOnly new = true.
Proof.
  intros Hoff%(writePath_off t).
  rewrite run_cases, loadBasePrompt_cases.
  generalize (trim (templateLiteral t p)). intros template.
  destruct (enabled (env p !! "GEMINI_SYSTEM_MD")).
  - destruct (Fs.lookup_node (Fs.nodes st) (systemMdPath t p)) as [[data|]|];
      rewrite ?writeBack_off by done; (split; [done|]); cbn [snd Fs.calls];
      rewrite <-?app_assoc; by eexists.
  - rewrite writeBack_off by done. split; [done|].
    exists []. by rewrite app_nil_r.
Qed.

Lemma no_write_back_is_read_only_witness :
  let p := setenv "GEMINI_WRITE_SYSTEM_MD" "0" (setenv "GEMINI_SYSTEM_MD" "custom.md" Sample.bare) in
  enabled (env p !! "GEMINI_WRITE_SYSTEM_MD") = false /\
  Fs.nodes (snd (getCoreSystemPrompt Sample.imports p None Sample.customDisk))
  = Fs.nodes Sample.customDisk /\
  exists new,
    Fs.calls (snd (getCoreSystemPrompt Sample.imports p None Sample.customDisk))
    = Fs.calls Sample.customDisk ++ new /\
    forallb readOnly new = true.
Proof.
  intros p.
  assert (enabled (env p !! "GEMINI_WRITE_SYSTEM_MD") = false) as H1
    by (vm_compute; reflexivity).
  split; [exact H1|].
  exact (no_write_back_is_read_only Sample.imports p None Sample.customDisk H1).
Defined.

Lemma loadBasePrompt_nodes t p st :
  Fs.nodes (snd (loadBasePrompt t p st)) = Fs.nodes st.
Proof.
  rewrite loadBasePrompt_cases.
  destruct (enabled (env p !! "GEMINI_SYSTEM_MD")); [|done].
  by destruct (Fs.lookup_node (Fs.nodes st) (systemMdPath t p)) as [[data|]|].
Qed.

Lemma not_own_parent path segs : canonical path segs -> path ∉ parents path.
Proof.
  intros Hcanon (k & Hk & Hsame)%(parents_canonical _ _ Hcanon).
  destruct Hcanon as [Hplain ->].
  apply absolute_inj in Hsame; [|done|by apply Forall_take].
  apply (f_equal length) in Hsame. rewrite length_take in Hsame. lia.
Qed.

(** [mkdir_walk] fails when a file is in the way. *)
Lemma mkdir_walk_fails path above todo fs k data :
  1 <= k <= length todo ->
  fs !! Fs.absolute (above ++ take k todo) = Some (Fs.File data) ->
  exists e fs', Fs.mkdir_walk path above todo fs = (Some e, fs').
Proof.
  revert above fs k. induction todo as [|seg todo IH]; intros above fs k Hk Hfile;
    [simpl in Hk; lia|].
  simpl. destruct k as [|[|k]]; [lia| |].
  - change (take 1 (seg :: todo)) with [seg] in Hfile. rewrite Hfile. eauto.
  - change (take (S (S k)) (seg :: todo)) with ([seg] ++ take (S k) todo) in Hfile.
    rewrite app_assoc in Hfile. simpl in Hk.
    destruct (fs !! Fs.absolute (above ++ [seg])) as [[data'|]|] eqn:Hhere; [by eauto| |].
    + apply (IH _ _ (S k)); [lia|done].
    + apply (IH _ _ (S k)); [lia|].
      rewrite lookup_insert_ne; [done|]. intros Hsame. congruence.
Qed.

Lemma writable_intro fs path :
  (forall d data, d ∈ parents path -> fs !! d <> Some (Fs.File data)) ->
  Fs.lookup_node fs path <> Some Fs.Directory ->
  writable fs path = true.
Proof.
  intros Hway Hnode. unfold writable. apply andb_true_iff. split.
  - apply forallb_forall. intros d Hd%list_elem_of_In.
    specialize (Hway d). destruct (fs !! d) as [[data|]|]; [|done..].
    by destruct (Hway data).
  - by destruct (Fs.lookup_node fs path) as [[data|]|].
Qed.

(** A write-back that returns found nothing in its way. *)
Lemma writeBack_returns_writable t p base st st' path segs :
  writePath t p = Some path -> canonical path segs ->
  writeBack t p base st = (Fs.Returned tt, st') ->
  writable (Fs.nodes st) path = true.
Proof.
  intros Hpath Hcanon Hwrite.
  pose proof (parents_canonical _ _ Hcanon) as Hparents.
  revert Hwrite. unfold writeBack. rewrite Hpath. unfold Fs.bind, Fs.mkdirSync.
  destruct (Fs.mkdir_walk _ _ _ _) as [[e|] fs1] eqn:Hwalk; [done|].
  unfold Fs.writeFileSync. cbn [Fs.nodes Fs.calls Fs.record]. intros Hwrite.
  apply writable_intro.
  - intros d data (k & Hk & ->)%Hparents Hfile.
    destruct Hcanon as [Hplain ->].
    destruct segs as [|seg segs _] using rev_ind; [simpl in Hk; lia|].
    apply Forall_app in Hplain as [Hinit Hseg%Forall_inv].
    rewrite length_app in Hk. simpl in Hk.
    rewrite take_app_le in Hfile by lia.
    rewrite dirname_absolute, segments_absolute in Hwalk by done.
    destruct (mkdir_walk_fails (Fs.absolute segs) [] segs (Fs.nodes st) k data)
      as (e & fs' & Hfail); [lia|done|congruence].
  - intros Hdir.
    assert (Fs.lookup_node fs1 path = Some Fs.Directory) as Hdir1.
    { revert Hdir. unfold Fs.lookup_node. case_bool_decide; [done|]. intros Hdir.
      destruct (mkdir_walk_grows _ _ _ _ _ _ Hwalk path) as [-> | (Hnone & _)];
        [done|congruence]. }
    by rewrite Hdir1 in Hwrite.
Qed.

(** X5. Whatever the outcome of a call, every path of the disk keeps its
    node, with two exceptions: a missing directory above the write-back path
    may have been created, and the write-back path itself holds the base
    prompt once the call has returned.  So nothing is ever removed, and no
    file but the write-back target changes. *)
Theorem disk_frame t p userMemory st q :
  Path.isAbsolute (cwd p) = true ->
  let result := getCoreSystemPrompt t p userMemory st in
  (Fs.nodes (snd result) !! q = Fs.nodes st !! q \/
   (Fs.nodes st !! q = None /\ Fs.nodes (snd result) !! q = Some Fs.Directory /\
    exists path, writePath t p = Some path /\ q ∈ parents path) \/
   (writePath t p = Some q /\
    exists basePrompt,
      fst result = Fs.Returned (basePrompt +:+ memorySuffix userMemory) /\
      Fs.nodes (snd result) !! q = Some (Fs.File basePrompt))) /\
  (is_Some (Fs.nodes st !! q) -> is_Some (Fs.nodes (snd result) !! q)) /\
  (forall data, Fs.nodes st !! q = Some (Fs.File data) -> writePath t p <> Some q ->
     Fs.nodes (snd result) !! q = Some (Fs.File data)).
Proof.
  intros Hcwd result.
  assert (Fs.nodes (snd result) !! q = Fs.nodes st !! q \/
          (Fs.nodes st !! q = None /\ Fs.nodes (snd result) !! q = Some Fs.Directory /\
           exists path, writePath t p = Some path /\ q ∈ parents path) \/
          (writePath t p = Some q /\
           exists basePrompt,
             fst result = Fs.Returned (basePrompt +:+ memorySuffix userMemory) /\
             Fs.nodes (snd result) !! q = Some (Fs.File basePrompt))) as Hframe.
  { subst result. rewrite run_cases.
    pose proof (loadBasePrompt_nodes t p st) as Hnodes.
    destruct (loadBasePrompt t p st) as [[base|e] st1]; cbn [snd] in Hnodes;
      [|left; by rewrite <-Hnodes].
    destruct (writePath t p) as [path|] eqn:Hpath.
    - destruct (writePath_canonical t p path Hcwd Hpath) as (segs & Hcanon).
      destruct (writeBack t p base st1) as [r st2] eqn:Hwrite.
      destruct (writeBack_effect _ _ _ _ _ _ _ _ Hpath Hcanon Hwrite q)
        as [Hsame|[(Hnone & Hdir & Hparent)|(-> & -> & Hfile)]].
      + left. destruct r; cbn [snd]; congruence.
      + right. left. rewrite <-Hnodes.
        destruct r; cbn [snd]; split_and!; eauto.
      + right. right. split; [done|]. exists base. by split.
    - rewrite writeBack_off by done. left. cbn [snd]. by rewrite Hnodes. }
  split_and!; [done| |].
  - intros Hsome.
    destruct Hframe as [-> |[(Hnone & _)|(_ & base & _ & ->)]]; [done| |done].
    rewrite Hnone in Hsome. by destruct Hsome.
  - intros data Hfile Hother.
    destruct Hframe as [-> |[(Hnone & _)|(Hpath & _)]]; [done|congruence|done].
Qed.

Lemma disk_frame_witness :
  let p := setenv "GEMINI_WRITE_SYSTEM_MD" "out/copy.md"
             (setenv "GEMINI_SYSTEM_MD" "custom.md" Sample.bare) in
  Path.isAbsolute (cwd p) = true /\
  forall data,
    Fs.nodes Sample.customDisk !! "/work/custom.md" = Some (Fs.File data) ->
    writePath Sample.imports p <> Some "/work/custom.md" ->
    Fs.nodes (snd (getCoreSystemPrompt Sample.imports p None Sample.customDisk))
      !! "/work/custom.md" = Some (Fs.File data).
Proof.
  intros p.
  assert (Path.isAbsolute (cwd p) = true) as H1 by reflexivity.
  split; [exact H1|].
  exact (proj2 (proj2 (disk_frame Sample.imports p None Sample.customDisk
                         "/work/custom.md" H1))).
Defined.

(** X6. A write-back that finds something in its way is fatal: when the
    base prompt could be obtained (the override is off, or its file is there)
    and a file sits where a directory above the write-back path has to be, or
    a directory at the path itself, the call throws the system error of the
    failing [fs] call instead of returning the prompt, and the write-back
    path keeps what it had. *)
Theorem write_back_failure_is_fatal t p userMemory st path :
  Path.isAbsolute (cwd p) = true ->
  (enabled (env p !! "GEMINI_SYSTEM_MD") = true ->
   exists data, Fs.lookup_node (Fs.nodes st) (systemMdPath t p) = Some (Fs.File data)) ->
  writePath t p = Some path ->
  writable (Fs.nodes st) path = false ->
  exists code syscall failed st',
    getCoreSystemPrompt t p userMemory st
    = (Fs.Thrown (Fs.SystemError code syscall failed), st') /\
    Fs.nodes st' !! path = Fs.nodes st !! path.
Proof.
  intros Hcwd Hload Hpath Hblocked.
  destruct (writePath_canonical t p path Hcwd Hpath) as (segs & Hcanon).
  assert (exists base st1,
            loadBasePrompt t p st = (Fs.Returned base, st1) /\
            Fs.nodes st1 = Fs.nodes st) as (base & st1 & Hbase & Hnodes).
  { rewrite loadBasePrompt_cases.
    destruct (enabled (env p !! "GEMINI_SYSTEM_MD")); [|by eexists _, _].
    destruct Hload as [data ->]; [done|]. by eexists _, _. }
  rewrite run_cases, Hbase. rewrite <-Hnodes in Hblocked |- *.
  destruct (writeBack t p base st1) as [[[]|e] st'] eqn:Hwrite.
  - rewrite (writeBack_returns_writable _ _ _ _ _ _ _ Hpath Hcanon Hwrite) in Hblocked.
    discriminate.
  - destruct (writeBack_throws _ _ _ _ _ _ Hwrite) as (code & syscall & failed & ->).
    exists code, syscall, failed, st'. split; [done|].
    destruct (writeBack_effect _ _ _ _ _ _ _ _ Hpath Hcanon Hwrite path)
      as [Hsame|[(_ & _ & Hparent)|(_ & ? & _)]]; [done| |done].
    by destruct (not_own_parent _ _ Hcanon).
Qed.

Lemma write_back_failure_is_fatal_witness :
  let p := setenv "GEMINI_WRITE_SYSTEM_MD" "custom.md/copy.md"
             (setenv "GEMINI_SYSTEM_MD" "custom.md" Sample.bare) in
  (Path.isAbsolute (cwd p) = true /\
   (enabled (env p !! "GEMINI_SYSTEM_MD") = true ->
    exists data,
      Fs.lookup_node (Fs.nodes Sample.customDisk) (systemMdPath Sample.imports p)
      = Some (Fs.File data)) /\
   writePath Sample.imports p = Some "/work/custom.md/copy.md" /\
   writable (Fs.nodes Sample.customDisk) "/work/custom.md/copy.md" = false) /\
  exists code syscall failed st',
    getCoreSystemPrompt Sample.imports p None Sample.customDisk
    = (Fs.Thrown (Fs.SystemError code syscall failed), st') /\
    Fs.nodes st' !! "/work/custom.md/copy.md"
    = Fs.nodes Sample.customDisk !! "/work/custom.md/copy.md".
Proof.
  intros p.
  assert (Path.isAbsolute (cwd p) = true) as H1 by reflexivity.
  assert (enabled (env p !! "GEMINI_SYSTEM_MD") = true ->
          exists data,
            Fs.lookup_node (Fs.nodes Sample.customDisk) (systemMdPath Sample.imports p)
            = Some (Fs.File data)) as H2
    by (intros _; exists "Be brief."; vm_compute; reflexivity).
  assert (writePath Sample.imports p = Some "/work/custom.md/copy.md") as H3
    by (vm_compute; reflexivity).
  assert (writable (Fs.nodes Sample.customDisk) "/work/custom.md/copy.md" = false) as H4
    by (vm_compute; reflexivity).
  split; [by split_and!|].
  exact (write_back_failure_is_fatal Sample.imports p None Sample.customDisk
           "/work/custom.md/copy.md" H1 H2 H3 H4).
Defined.

(** ** The order of the calls *)

(** X7. The file system calls of one call follow a fixed protocol: at
    most one existence check and one read, both of the override path and in
    this order, then at most one [mkdirSync] of the directory of the
    write-back path and one [writeFileSync] of that path.  There is no read
    without the check, no write without the [mkdirSync], and nothing at all
    after a failed check. *)
Theorem call_protocol t p userMemory st :
  let result := getCoreSystemPrompt t p userMemory st in
  exists reads writes,
    Fs.calls (snd result) = Fs.calls st ++ reads ++ writes /\
    (reads = [] /\ enabled (env p !! "GEMINI_SYSTEM_MD") = false \/
     reads = [Fs.ExistsSync (systemMdPath t p)] /\ writes = [] /\
       fst result = Fs.Thrown (missingSystemPromptFile (systemMdPath t p)) \/
     reads = [Fs.ExistsSync (systemMdPath t p); Fs.ReadFileSync (systemMdPath t p)]) /\
    (writes = [] \/
     exists path,
       writePath t p = Some path /\
       (writes = [Fs.MkdirSync (Path.dirname path)] \/
        exists basePrompt,
          writes = [Fs.MkdirSync (Path.dirname path); Fs.WriteFileSync path basePrompt])).
Proof.
  intros result. subst result. rewrite run_cases, loadBasePrompt_cases.
  generalize (trim (templateLiteral t p)). intros template.
  assert (forall base st1 reads,
            Fs.calls st1 = Fs.calls st ++ reads ->
            exists writes,
              Fs.calls (snd (match writeBack t p base st1 with
                             | (Fs.Returned _, st2) =>
                                 (Fs.Returned (base +:+ memorySuffix userMemory), st2)
                             | (Fs.Thrown e, st2) => (Fs.Thrown e, st2)
                             end)) = Fs.calls st ++ reads ++ writes /\
              (writes = [] \/
               exists path,
                 writePath t p = Some path /\
                 (writes = [Fs.MkdirSync (Path.dirname path)] \/
                  exists basePrompt,
                    writes = [Fs.MkdirSync (Path.dirname path);
                              Fs.WriteFileSync path basePrompt]))) as Hwrites.
  { intros base st1 reads Hreads.
    destruct (writePath t p) as [path|] eqn:Hpath.
    - destruct (writeBack t p base st1) as [r st2] eqn:Hwrite.
      destruct (writeBack_calls _ _ _ _ _ _ _ Hpath Hwrite) as [Hcalls|Hcalls].
      + exists [Fs.MkdirSync (Path.dirname path)]. split; [|by eauto].
        destruct r; cbn [snd]; by rewrite Hcalls, Hreads, <-app_assoc.
      + exists [Fs.MkdirSync (Path.dirname path); Fs.WriteFileSync path base].
        split; [|by eauto 6].
        destruct r; cbn [snd]; by rewrite Hcalls, Hreads, <-app_assoc.
    - rewrite writeBack_off by done. exists []. split; [|by left].
      cbn [snd]. by rewrite Hreads, !app_nil_r. }
  destruct (enabled (env p !! "GEMINI_SYSTEM_MD")).
  - destruct (Fs.lookup_node (Fs.nodes st) (systemMdPath t p)) as [[data|]|].
    + destruct (Hwrites data
                  (Fs.mkState (Fs.nodes st)
                     ((Fs.calls st ++ [Fs.ExistsSync (systemMdPath t p)])
                      ++ [Fs.ReadFileSync (systemMdPath t p)]))
                  [Fs.ExistsSync (systemMdPath t p); Fs.ReadFileSync (systemMdPath t p)])
        as (writes & Hcalls & Hshape); [by rewrite <-app_assoc|].
      exists [Fs.ExistsSync (systemMdPath t p); Fs.ReadFileSync (systemMdPath t p)], writes.
      split_and!; [done|by right; right|done].
    + exists [Fs.ExistsSync (systemMdPath t p); Fs.ReadFileSync (systemMdPath t p)], [].
      split_and!; [by rewrite app_nil_r, <-app_assoc|by right; right|by left].
    + exists [Fs.ExistsSync (systemMdPath t p)], [].
      split_and!; [done|by right; left|by left].
  - destruct (Hwrites template st []) as (writes & Hcalls & Hshape);
      [by rewrite app_nil_r|].
    exists [], writes. split_and!; [done|by left|done].
Qed.

(** ** Writing twice, and reading back *)

Lemma slash_is_path v :
  startsWith "/" v = true ->
  enabled (Some v) = true /\ requestsDefault v = false.
Proof.
  destruct v as [|c v]; [done|].
  cbn [startsWith]. rewrite andb_true_r. intros <-%bool_decide_eq_true.
  unfold enabled, requestsDefault, includes.
  change (toLowerCase (String "/" v)) with (String "/"%char (toLowerCase v)).
  split; [apply andb_true_iff; split; [done|apply negb_true_iff]|];
    apply bool_decide_eq_false; intros Hin;
    repeat (apply elem_of_cons in Hin as [Hin|Hin]; [discriminate|]);
    by apply elem_of_nil in Hin.
Qed.

Lemma resolveCustomPath_canonical p path segs :
  canonical path segs -> resolveCustomPath p path = path.
Proof.
  intros Hcanon. unfold resolveCustomPath.
  assert (startsWith "~/" path = false) as -> by (by destruct Hcanon as [_ ->]).
  rewrite bool_decide_false by (by destruct Hcanon as [_ ->]).
  by apply (resolve_canonical _ _ segs).
Qed.

(** X8. Writing back is idempotent: with the override off and nothing in
    the way, a second call on the disk the first one has left returns the
    same string and leaves that disk as it is. *)
Theorem write_back_idempotent t p userMemory st path :
  Path.isAbsolute (cwd p) = true ->
  enabled (env p !! "GEMINI_SYSTEM_MD") = false ->
  writePath t p = Some path ->
  writable (Fs.nodes st) path = true ->
  exists out st' st'',
    getCoreSystemPrompt t p userMemory st = (Fs.Returned out, st') /\
    getCoreSystemPrompt t p userMemory st' = (Fs.Returned out, st'') /\
    Fs.nodes st'' = Fs.nodes st'.
Proof.
  intros Hcwd Hoff Hpath Hwritable.
  destruct (writePath_canonical t p path Hcwd Hpath) as (segs & Hcanon).
  set (base := trim (templateLiteral t p)).
  destruct (writeBack_succeeds t p base st path Hcwd Hpath Hwritable)
    as (st' & Hwrite & Hnode & Hdirs & _).
  assert (writable (Fs.nodes st') path = true) as Hwritable'.
  { apply writable_intro; [|by rewrite Hnode].
    intros d data Hd. by rewrite (Hdirs d Hd). }
  destruct (writeBack_succeeds t p base st' path Hcwd Hpath Hwritable')
    as (st'' & Hwrite' & _).
  exists (base +:+ memorySuffix userMemory), st', st''.
  split_and!.
  - by apply (run_composed _ _ _ _ _ _ _ (loadBasePrompt_default t p st Hoff)).
  - by apply (run_composed _ _ _ _ _ _ _ (loadBasePrompt_default t p st' Hoff)).
  - apply map_eq. intros q.
    destruct (writeBack_effect _ _ _ _ _ _ _ _ Hpath Hcanon Hwrite' q)
      as [Hsame|[(Hnone & _ & Hparent)|(-> & _ & Hfile)]]; [done| |].
    + by rewrite (Hdirs q Hparent) in Hnone.
    + rewrite Hfile. symmetry.
      by destruct (writeBack_returned _ _ _ _ _ _ Hpath Hwrite) as [? _].
Qed.

Lemma write_back_idempotent_witness :
  let p := setenv "GEMINI_WRITE_SYSTEM_MD" "true" Sample.bare in
  (Path.isAbsolute (cwd p) = true /\
   enabled (env p !! "GEMINI_SYSTEM_MD") = false /\
   writePath Sample.imports p = Some "/work/.gemini/system.md" /\
   writable (Fs.nodes Sample.customDisk) "/work/.gemini/system.md" = true) /\
  exists out st' st'',
    getCoreSystemPrompt Sample.imports p (Some "remember X") Sample.customDisk
    = (Fs.Returned out, st') /\
    getCoreSystemPrompt Sample.imports p (Some "remember X") st' = (Fs.Returned out, st'') /\
    Fs.nodes st'' = Fs.nodes st'.
Proof.
  intros p.
  assert (Path.isAbsolute (cwd p) = true) as H1 by reflexivity.
  assert (enabled (env p !! "GEMINI_SYSTEM_MD") = false) as H2 by (vm_compute; reflexivity).
  assert (writePath Sample.imports p = Some "/work/.gemini/system.md") as H3
    by (vm_compute; reflexivity).
  assert (writable (Fs.nodes Sample.customDisk) "/work/.gemini/system.md" = true) as H4
    by (vm_compute; reflexivity).
  split; [by split_and!|].
  exact (write_back_idempotent Sample.imports p (Some "remember X") Sample.customDisk
           "/work/.gemini/system.md" H1 H2 H3 H4).
Defined.

(** X9. What the write-back has written can be loaded as an override: after
    a call with the override off that wrote to [path], a call with
    [GEMINI_SYSTEM_MD] set to [path] and the write-back unset returns the
    same string as the first call, from the file alone, and changes
    nothing. *)
Theorem written_prompt_reloads t p userMemory st path :
  Path.isAbsolute (cwd p) = true ->
  enabled (env p !! "GEMINI_SYSTEM_MD") = false ->
  writePath t p = Some path ->
  writable (Fs.nodes st) path = true ->
  exists out st',
    getCoreSystemPrompt t p userMemory st = (Fs.Returned out, st') /\
    getCoreSystemPrompt t
      (setenv "GEMINI_SYSTEM_MD" path (unsetenv "GEMINI_WRITE_SYSTEM_MD" p)) userMemory st'
    = (Fs.Returned out,
       Fs.mkState (Fs.nodes st')
         (Fs.calls st' ++ [Fs.ExistsSync path; Fs.ReadFileSync path])).
Proof.
  intros Hcwd Hoff Hpath Hwritable.
  destruct (writePath_canonical t p path Hcwd Hpath) as (segs & Hcanon).
  set (base := trim (templateLiteral t p)).
  destruct (writeBack_succeeds t p base st path Hcwd Hpath Hwritable)
    as (st' & Hwrite & Hnode & _).
  exists (base +:+ memorySuffix userMemory), st'. split.
  - by apply (run_composed _ _ _ _ _ _ _ (loadBasePrompt_default t p st Hoff)).
  - set (p' := setenv "GEMINI_SYSTEM_MD" path (unsetenv "GEMINI_WRITE_SYSTEM_MD" p)).
    assert (env p' !! "GEMINI_SYSTEM_MD" = Some path) as Henv
      by (cbn [env setenv p']; apply lookup_insert_eq).
    assert (env p' !! "GEMINI_WRITE_SYSTEM_MD" = None) as Hnone.
    { cbn [env setenv unsetenv p']. rewrite lookup_insert_ne by done.
      apply lookup_delete_eq. }
    destruct (slash_is_path path) as [Hon Hcustom]; [by destruct Hcanon as [_ ->]|].
    assert (systemMdPath t p' = path) as Hsys.
    { rewrite (systemMdPath_custom t p' path) by done.
      by apply (resolveCustomPath_canonical _ _ segs). }
    rewrite run_cases, loadBasePrompt_cases, Henv, Hon, Hsys, Hnode.
    rewrite writeBack_off by (unfold writePath; by rewrite Hnone).
    by rewrite <-app_assoc.
Qed.

Lemma written_prompt_reloads_witness :
  let p := setenv "GEMINI_WRITE_SYSTEM_MD" "~/prompts/system.md" Sample.bare in
  (Path.isAbsolute (cwd p) = true /\
   enabled (env p !! "GEMINI_SYSTEM_MD") = false /\
   writePath Sample.imports p = Some "/home/user/prompts/system.md" /\
   writable (Fs.nodes Sample.emptyDisk) "/home/user/prompts/system.md" = true) /\
  exists out st',
    getCoreSystemPrompt Sample.imports p None Sample.emptyDisk = (Fs.Returned out, st') /\
    getCoreSystemPrompt Sample.imports
      (setenv "GEMINI_SYSTEM_MD" "/home/user/prompts/system.md"
         (unsetenv "GEMINI_WRITE_SYSTEM_MD" p)) None st'
    = (Fs.Returned out,
       Fs.mkState (Fs.nodes st')
         (Fs.calls st' ++ [Fs.ExistsSync "/home/user/prompts/system.md";
                           Fs.ReadFileSync "/home/user/prompts/system.md"])).
Proof.
  intros p.
  assert (Path.isAbsolute (cwd p) = true) as H1 by reflexivity.
  assert (enabled (env p !! "GEMINI_SYSTEM_MD") = false) as H2 by (vm_compute; reflexivity).
  assert (writePath Sample.imports p = Some "/home/user/prompts/system.md") as H3
    by (vm_compute; reflexivity).
  assert (writable (Fs.nodes Sample.emptyDisk) "/home/user/prompts/system.md" = true) as H4
    by (vm_compute; reflexivity).
  split; [by split_and!|].
  exact (written_prompt_reloads Sample.imports p None Sample.emptyDisk
           "/home/user/prompts/system.md" H1 H2 H3 H4).
Defined.

(** X10. With the override on and a write-back value of [1] or [true], the
    write-back goes to the override file itself and writes back what was
    read from it: the call returns, and the file reads as before. *)
Theorem write_back_echoes_override t p w userMemory st data :
  Path.isAbsolute (cwd p) = true ->
  enabled (env p !! "GEMINI_SYSTEM_MD") = true ->
  env p !! "GEMINI_WRITE_SYSTEM_MD" = Some w ->
  requestsDefault w = true ->
  Fs.lookup_node (Fs.nodes st) (systemMdPath t p) = Some (Fs.File data) ->
  writable (Fs.nodes st) (systemMdPath t p) = true ->
  exists st',
    getCoreSystemPrompt t p userMemory st
    = (Fs.Returned (data +:+ memorySuffix userMemory), st') /\
    Fs.lookup_node (Fs.nodes st') (systemMdPath t p)
    = Fs.lookup_node (Fs.nodes st) (systemMdPath t p) /\
    writes (Fs.calls st') = writes (Fs.calls st) ++ [(systemMdPath t p, data)].
Proof.
  intros Hcwd Hon Henv Hdefault Hfile Hwritable.
  assert (writePath t p = Some (systemMdPath t p)) as Hpath.
  { unfold writePath. by rewrite Henv, requestsDefault_enabled, Hdefault. }
  pose proof (loadBasePrompt_file t p st data Hon Hfile) as Hload.
  destruct (writeBack_succeeds t p data
              (Fs.record (Fs.ReadFileSync (systemMdPath t p))
                 (Fs.record (Fs.ExistsSync (systemMdPath t p)) st))
              (systemMdPath t p) Hcwd Hpath)
    as (st' & Hwrite & Hnode & _ & Hcalls); [done|].
  exists st'. split_and!.
  - by apply (run_composed _ _ _ _ _ _ _ Hload).
  - by rewrite Hnode, Hfile.
  - rewrite Hcalls. cbn [Fs.calls Fs.record].
    rewrite !writes_app. cbn. by rewrite !app_nil_r.
Qed.

Lemma write_back_echoes_override_witness :
  let p := setenv "GEMINI_WRITE_SYSTEM_MD" "1"
             (setenv "GEMINI_SYSTEM_MD" "custom.md" Sample.bare) in
  (Path.isAbsolute (cwd p) = true /\
   enabled (env p !! "GEMINI_SYSTEM_MD") = true /\
   env p !! "GEMINI_WRITE_SYSTEM_MD" = Some "1" /\
   requestsDefault "1" = true /\
   Fs.lookup_node (Fs.nodes Sample.customDisk) (systemMdPath Sample.imports p)
   = Some (Fs.File "Be brief.") /\
   writable (Fs.nodes Sample.customDisk) (systemMdPath Sample.imports p) = true) /\
  exists st',
    getCoreSystemPrompt Sample.imports p None Sample.customDisk
    = (Fs.Returned ("Be brief." +:+ memorySuffix None), st') /\
    Fs.lookup_node (Fs.nodes st') (systemMdPath Sample.imports p)
    = Fs.lookup_node (Fs.nodes Sample.customDisk) (systemMdPath Sample.imports p) /\
    writes (Fs.calls st')
    = writes (Fs.calls Sample.customDisk) ++ [(systemMdPath Sample.imports p, "Be brief.")].
Proof.
  intros p.
  assert (Path.isAbsolute (cwd p) = true) as H1 by reflexivity.
  assert (enabled (env p !! "GEMINI_SYSTEM_MD") = true) as H2 by (vm_compute; reflexivity).
  assert (env p !! "GEMINI_WRITE_SYSTEM_MD" = Some "1") as H3 by (vm_compute; reflexivity).
  assert (requestsDefault "1" = true) as H4 by (vm_compute; reflexivity).
  assert (Fs.lookup_node (Fs.nodes Sample.customDisk) (systemMdPath Sample.imports p)
          = Some (Fs.File "Be brief.")) as H5 by (vm_compute; reflexivity).
  assert (writable (Fs.nodes Sample.customDisk) (systemMdPath Sample.imports p) = true)
    as H6 by (vm_compute; reflexivity).
  split; [by split_and!|].
  exact (write_back_echoes_override Sample.imports p "1" None Sample.customDisk
           "Be brief." H1 H2 H3 H4 H5 H6).
Defined.

(** ** The switch words *)

Lemma defaultSystemMdPath_ext t p p' :
  cwd p = cwd p' -> defaultSystemMdPath t p = defaultSystemMdPath t p'.
Proof. unfold defaultSystemMdPath. by intros ->. Qed.

(** X11. The values [0] and [false], in any mix of upper and lower case,
    switch a feature off exactly as an unset variable does: for either
    variable, the call with such a value is the call without the
    variable. *)
Theorem switched_off_value_is_unset t p v userMemory st :
  includes ["0"; "false"] (toLowerCase v) = true ->
  getCoreSystemPrompt t (setenv "GEMINI_SYSTEM_MD" v p) userMemory st
  = getCoreSystemPrompt t (unsetenv "GEMINI_SYSTEM_MD" p) userMemory st /\
  getCoreSystemPrompt t (setenv "GEMINI_WRITE_SYSTEM_MD" v p) userMemory st
  = getCoreSystemPrompt t (unsetenv "GEMINI_WRITE_SYSTEM_MD" p) userMemory st.
Proof.
  intros Hword.
  assert (enabled (Some v) = false) as Hv
    by (unfold enabled; by rewrite Hword, andb_false_r).
  assert (forall q, env q !! "GEMINI_SYSTEM_MD" = Some v \/
                    env q !! "GEMINI_SYSTEM_MD" = None ->
            enabled (env q !! "GEMINI_SYSTEM_MD") = false) as Hoff
    by (by intros q [-> | ->]).
  assert (forall q, env q !! "GEMINI_WRITE_SYSTEM_MD" = Some v \/
                    env q !! "GEMINI_WRITE_SYSTEM_MD" = None ->
            writePath t q = None) as Hnone.
  { intros q Hq. unfold writePath. destruct Hq as [-> | ->]; [|done]. by rewrite Hv. }
  split.
  - apply run_ext.
    + unfold loadBasePrompt. rewrite !Hoff.
      * f_equal. f_equal. apply templateLiteral_ext; [|done].
        cbn [env setenv unsetenv]. by rewrite lookup_insert_ne, lookup_delete_ne.
      * right. cbn [env unsetenv]. apply lookup_delete_eq.
      * left. cbn [env setenv]. apply lookup_insert_eq.
    + apply writePath_ext; [|rewrite !systemMdPath_disabled|..]; try done.
      * cbn [env setenv unsetenv]. by rewrite lookup_insert_ne, lookup_delete_ne.
      * apply Hoff. right. cbn [env unsetenv]. apply lookup_delete_eq.
      * apply Hoff. left. cbn [env setenv]. apply lookup_insert_eq.
  - apply run_ext.
    + apply loadBasePrompt_ext; try done;
        cbn [env setenv unsetenv]; by rewrite lookup_insert_ne, lookup_delete_ne.
    + rewrite !Hnone; [done|right|left]; cbn [env setenv unsetenv];
        [apply lookup_delete_eq|apply lookup_insert_eq].
Qed.

Lemma switched_off_value_is_unset_witness :
  includes ["0"; "false"] (toLowerCase "FaLsE") = true /\
  getCoreSystemPrompt Sample.imports (setenv "GEMINI_SYSTEM_MD" "FaLsE" Sample.bare)
    None Sample.customDisk
  = getCoreSystemPrompt Sample.imports (unsetenv "GEMINI_SYSTEM_MD" Sample.bare)
      None Sample.customDisk.
Proof.
  assert (includes ["0"; "false"] (toLowerCase "FaLsE") = true) as H1
    by (vm_compute; reflexivity).
  split; [exact H1|].
  exact (proj1 (switched_off_value_is_unset Sample.imports Sample.bare "FaLsE" None
                  Sample.customDisk H1)).
Defined.

(** X12. The values [1] and [true] are told apart from paths without regard
    to case, and the value itself is then never used: for either variable,
    two values that both read [1] or [true] give the same call. *)
Theorem default_request_spelling t p v v' userMemory st :
  requestsDefault v = true -> requestsDefault v' = true ->
  getCoreSystemPrompt t (setenv "GEMINI_SYSTEM_MD" v p) userMemory st
  = getCoreSystemPrompt t (setenv "GEMINI_SYSTEM_MD" v' p) userMemory st /\
  getCoreSystemPrompt t (setenv "GEMINI_WRITE_SYSTEM_MD" v p) userMemory st
  = getCoreSystemPrompt t (setenv "GEMINI_WRITE_SYSTEM_MD" v' p) userMemory st.
Proof.
  intros Hv Hv'.
  assert (forall u q, requestsDefault u = true ->
            systemMdPath t (setenv "GEMINI_SYSTEM_MD" u q) = defaultSystemMdPath t q)
    as Hsys.
  { intros u q Hu.
    rewrite (systemMdPath_default_request _ _ u)
      by (done || cbn [env setenv]; apply lookup_insert_eq).
    by apply defaultSystemMdPath_ext. }
  split.
  - apply run_ext.
    + unfold loadBasePrompt. cbn [env setenv]. rewrite !lookup_insert_eq.
      rewrite !requestsDefault_enabled by done.
      change (mkProcess (<["GEMINI_SYSTEM_MD":=v]> (env p)) (homedir p) (cwd p)
                (isGitRepository p)) with (setenv "GEMINI_SYSTEM_MD" v p).
      change (mkProcess (<["GEMINI_SYSTEM_MD":=v']> (env p)) (homedir p) (cwd p)
                (isGitRepository p)) with (setenv "GEMINI_SYSTEM_MD" v' p).
      by rewrite !Hsys.
    + apply writePath_ext; [|by rewrite !Hsys|done..].
      cbn [env setenv]. by rewrite !lookup_insert_ne.
  - apply run_ext.
    + apply loadBasePrompt_ext; try done;
        cbn [env setenv]; by rewrite !lookup_insert_ne.
    + unfold writePath. cbn [env setenv]. rewrite !lookup_insert_eq.
      rewrite !requestsDefault_enabled, Hv, Hv' by done.
      apply (f_equal Some), systemMdPath_ext; [|done..].
      cbn [env setenv]. by rewrite !lookup_insert_ne.
Qed.

Lemma default_request_spelling_witness :
  (requestsDefault "TRUE" = true /\ requestsDefault "1" = true) /\
  getCoreSystemPrompt Sample.imports (setenv "GEMINI_WRITE_SYSTEM_MD" "TRUE" Sample.bare)
    None Sample.customDisk
  = getCoreSystemPrompt Sample.imports (setenv "GEMINI_WRITE_SYSTEM_MD" "1" Sample.bare)
      None Sample.customDisk.
Proof.
  assert (requestsDefault "TRUE" = true) as H1 by (vm_compute; reflexivity).
  assert (requestsDefault "1" = true) as H2 by (vm_compute; reflexivity).
  split; [by split|].
  exact (proj2 (default_request_spelling Sample.imports Sample.bare "TRUE" "1" None
                  Sample.customDisk H1 H2)).
Defined.

(** ** Path values *)

(** X13. In a process with an absolute working directory every path the
    function resolves, the override path and the write-back path included,
    is absolute and normalized; resolving such a path again gives the same
    path, and a value that already is absolute and normalized is taken as it
    stands, with its case. *)
Theorem resolved_paths_are_normalized t p :
  Path.isAbsolute (cwd p) = true ->
  (exists segs, canonical (systemMdPath t p) segs) /\
  (forall path, writePath t p = Some path -> exists segs, canonical path segs) /\
  (forall v, exists segs, canonical (resolveCustomPath p v) segs) /\
  (forall v, resolveCustomPath p (resolveCustomPath p v) = resolveCustomPath p v) /\
  (forall v segs, canonical v segs -> resolveCustomPath p v = v).
Proof.
  intros Hcwd.
  assert (forall v, exists segs, canonical (resolveCustomPath p v) segs) as Hresolved
    by (intros v; by apply resolve_is_canonical).
  split_and!.
  - by apply systemMdPath_canonical.
  - intros path. by apply writePath_canonical.
  - done.
  - intros v. destruct (Hresolved v) as (segs & Hcanon).
    by apply (resolveCustomPath_canonical _ _ segs).
  - intros v segs. apply resolveCustomPath_canonical.
Qed.

Lemma resolved_paths_are_normalized_witness :
  let p := setenv "GEMINI_SYSTEM_MD" "../Shared//./Prompt.md" Sample.bare in
  Path.isAbsolute (cwd p) = true /\
  systemMdPath Sample.imports p = "/Shared/Prompt.md" /\
  exists segs, canonical (systemMdPath Sample.imports p) segs.
Proof.
  intros p.
  assert (Path.isAbsolute (cwd p) = true) as H1 by reflexivity.
  split_and!; [exact H1|vm_compute; reflexivity|].
  exact (proj1 (resolved_paths_are_normalized Sample.imports p H1)).
Defined.

Lemma endsWithSlash_cons c c' s :
  Path.endsWithSlash (String c (String c' s)) = Path.endsWithSlash (String c' s).
Proof. reflexivity. Qed.

Lemma endsWithSlash_join segs :
  Forall (fun seg => plain seg = true) segs -> segs <> [] ->
  Path.endsWithSlash (join_slash segs) = false.
Proof.
  induction 1 as [|seg segs Hseg Hsegs IH]; [done|]. intros _.
  destruct segs as [|seg' segs].
  - by apply endsWithSlash_slashFree, plain_slashFree.
  - rewrite join_slash_cons, endsWithSlash_app by done.
    destruct (join_slash_plain_head seg' segs) as (c & s & _ & Heq);
      [by inversion Hsegs|].
    rewrite Heq, endsWithSlash_cons, <-Heq. by apply IH.
Qed.

Lemma join_canonical_many dir segs rest :
  canonical dir segs ->
  Forall (fun seg => plain seg = true) rest -> rest <> [] ->
  Path.join [dir; join_slash rest] = Fs.absolute (segs ++ rest).
Proof.
  intros [Hsegs ->] Hrest Hne. unfold Path.join.
  destruct rest as [|seg rest]; [done|].
  destruct (join_slash_plain_head seg rest) as (c & s & Hc & Heq);
    [by inversion Hrest|].
  rewrite filter_cons_True by done.
  rewrite filter_cons_True by (by rewrite Heq).
  rewrite filter_nil, join_slash_cons by done.
  change (join_slash [join_slash (seg :: rest)]) with (join_slash (seg :: rest)).
  unfold Path.normalize.
  assert (Path.endsWithSlash
            (Fs.absolute segs +:+ String "/"%char (join_slash (seg :: rest))) = false)
    as ->.
  { rewrite endsWithSlash_app. rewrite Heq, endsWithSlash_cons, <-Heq.
    by apply endsWithSlash_join. }
  change (truthy (Fs.absolute segs +:+ String "/"%char (join_slash (seg :: rest))))
    with true.
  change (Path.isAbsolute
            (Fs.absolute segs +:+ String "/"%char (join_slash (seg :: rest)))) with true.
  cbv beta iota zeta delta [negb].
  unfold Path.normalizeString.
  assert (Path.normalize_segments false
            (Fs.absolute segs +:+ String "/"%char (join_slash (seg :: rest)))
          = segs ++ seg :: rest) as ->.
  { unfold Path.normalize_segments.
    destruct (split_absolute_app segs (join_slash (seg :: rest)) Hsegs)
      as (empties & Hempties & ->).
    rewrite split_join by (by auto using Forall_plain_slashFree).
    rewrite !foldl_app, (foldl_normalize_step_empties _ _ empties) by done.
    rewrite (foldl_normalize_step_plain _ _ segs) by done.
    rewrite (foldl_normalize_step_plain _ _ (seg :: rest)) by done.
    by rewrite app_nil_r, <-rev_app_distr, rev_involutive. }
  assert (truthy (join_slash (segs ++ seg :: rest)) = true) as ->.
  { destruct segs as [|s0 segs]; [by rewrite app_nil_l, Heq|].
    destruct (join_slash_plain_head s0 (segs ++ seg :: rest)) as (c' & s' & _ & Heq');
      [by inversion Hsegs|].
    change ((s0 :: segs) ++ seg :: rest) with (s0 :: (segs ++ seg :: rest)).
    by rewrite Heq'. }
  reflexivity.
Qed.

(** X14. A value [~/] followed by a relative path of plain segments names
    that path below the home directory, however deep, and the working
    directory plays no part in it. *)
Theorem home_shorthand_expands_below_home p home rest :
  canonical (homedir p) home ->
  Forall (fun seg => plain seg = true) rest -> rest <> [] ->
  resolveCustomPath p ("~/" +:+ join_slash rest) = Fs.absolute (home ++ rest).
Proof.
  intros Hhome Hrest Hne. unfold resolveCustomPath.
  change (startsWith "~/" ("~/" +:+ join_slash rest)) with true.
  change (slice 2 ("~/" +:+ join_slash rest)) with (join_slash rest). cbv iota.
  rewrite (join_canonical_many _ home) by done.
  apply (resolve_canonical _ _ (home ++ rest)).
  split; [|done]. destruct Hhome as [Hplain _]. by apply Forall_app.
Qed.

Lemma home_shorthand_expands_below_home_witness :
  let p := mkProcess ∅ "/home/user" "relative/cwd" (fun _ => false) in
  (canonical (homedir p) ["home"; "user"] /\
   Forall (fun seg => plain seg = true) ["prompts"; "v2"; "system.md"] /\
   ["prompts"; "v2"; "system.md"] <> []) /\
  resolveCustomPath p "~/prompts/v2/system.md" = "/home/user/prompts/v2/system.md".
Proof.
  intros p.
  assert (canonical (homedir p) ["home"; "user"]) as H1
    by (split; [repeat constructor|reflexivity]).
  assert (Forall (fun seg => plain seg = true) ["prompts"; "v2"; "system.md"]) as H2
    by (repeat constructor).
  assert (["prompts"; "v2"; "system.md"] <> []) as H3 by discriminate.
  split; [by split_and!|].
  exact (home_shorthand_expands_below_home p ["home"; "user"]
           ["prompts"; "v2"; "system.md"] H1 H2 H3).
Defined.

Lemma relative_value_is_literal seg rest :
  plain seg = true -> seg <> "~" ->
  startsWith "~/" (join_slash (seg :: rest)) = false /\ join_slash (seg :: rest) <> "~".
Proof.
  intros (Hne & _ & _ & Hfree)%plain_spec Htilde.
  destruct seg as [|c seg]; [done|].
  apply slashFree_cons in Hfree as [Hc Hfree].
  assert (exists s, join_slash (String c seg :: rest) = String c (seg +:+ s) /\
                    (seg = "" -> s = "" \/ exists s', s = String "/"%char s'))
    as (s & -> & Hs).
  { destruct rest as [|seg' rest].
    - exists "". split; [by rewrite append_nil_r|by left].
    - rewrite join_slash_cons, append_cons by done. eexists. split; [done|]. eauto. }
  destruct (decide (c = "~"%char)) as [->|Hc'].
  - destruct seg as [|c2 seg]; [done|].
    apply slashFree_cons in Hfree as [Hc2 _].
    rewrite append_cons. split; [|discriminate].
    cbn [startsWith]. by rewrite (bool_decide_false ("/"%char = c2)), andb_false_r.
  - split; [|congruence].
    cbn [startsWith]. by rewrite (bool_decide_false ("~"%char = c)).
Qed.

(** X15. Every other path value is relative to the working directory: a
    relative path of plain segments that does not start with the segment [~]
    names that path below the working directory, and the home directory
    plays no part in it. *)
Theorem relative_value_resolves_below_cwd p base seg rest :
  canonical (cwd p) base ->
  Forall (fun s => plain s = true) (seg :: rest) -> seg <> "~" ->
  resolveCustomPath p (join_slash (seg :: rest)) = Fs.absolute (base ++ seg :: rest).
Proof.
  intros Hcwd Hplain Htilde.
  destruct (relative_value_is_literal seg rest) as [Hslash Hne];
    [by inversion Hplain|done|].
  rewrite resolveCustomPath_literal by done.
  by apply resolve_relative.
Qed.

Lemma relative_value_resolves_below_cwd_witness :
  let p := mkProcess ∅ "not/absolute" "/work" (fun _ => false) in
  (canonical (cwd p) ["work"] /\
   Forall (fun s => plain s = true) ["conf"; "System.MD"] /\ "conf" <> "~") /\
  resolveCustomPath p "conf/System.MD" = "/work/conf/System.MD".
Proof.
  intros p.
  assert (canonical (cwd p) ["work"]) as H1 by (split; [repeat constructor|reflexivity]).
  assert (Forall (fun s => plain s = true) ["conf"; "System.MD"]) as H2
    by (repeat constructor).
  assert ("conf" <> "~") as H3 by discriminate.
  split; [by split_and!|].
  exact (relative_value_resolves_below_cwd p ["work"] "conf" ["System.MD"] H1 H2 H3).
Defined.

(** ** White space around the memory *)

Lemma trimStart_app_whitespace l s :
  whitespaceOnly l = true -> trimStart (l +:+ s) = trimStart s.
Proof.
  induction l as [|c l IH]; [done|].
  intros [Hc Hl]%whitespaceOnly_cons.
  by rewrite append_cons, trimStart_cons, Hc, IH.
Qed.

Lemma trimEnd_app_whitespace s r :
  whitespaceOnly r = true -> trimEnd (s +:+ r) = trimEnd s.
Proof.
  intros Hr. induction s as [|c s IH]; [by apply trimEnd_empty|].
  by rewrite append_cons, !trimEnd_cons, IH.
Qed.

Lemma trimStart_app s r :
  whitespaceOnly s = false -> trimStart (s +:+ r) = trimStart s +:+ r.
Proof.
  induction s as [|c s IH]; [done|].
  rewrite append_cons, !trimStart_cons. simpl.
  destruct (is_whitespace c); [apply IH|by rewrite append_cons].
Qed.

Lemma trim_padding l memory r :
  whitespaceOnly l = true -> whitespaceOnly r = true ->
  trim (l +:+ memory +:+ r) = trim memory.
Proof.
  intros Hl Hr. unfold trim. rewrite trimStart_app_whitespace by done.
  destruct (whitespaceOnly memory) eqn:Hmemory.
  - rewrite trimStart_app_whitespace by done.
    change (trim r = trim memory).
    by rewrite (proj2 (trim_empty r)), (proj2 (trim_empty memory)).
  - by rewrite trimStart_app, trimEnd_app_whitespace.
Qed.

Lemma memorySuffix_trim memory :
  memorySuffix (Some memory) =
    if bool_decide (trim memory = "") then "" else separator +:+ trim memory.
Proof.
  unfold memorySuffix. destruct memory as [|c memory]; [done|].
  cbn [truthy andb].
  by destruct (trim (String c memory)).
Qed.

(** X16. White space around [userMemory] is of no consequence: a memory
    padded with white space on either side gives the same call as the memory
    itself. *)
Theorem memory_padding_is_ignored t p l memory r st :
  whitespaceOnly l = true -> whitespaceOnly r = true ->
  getCoreSystemPrompt t p (Some (l +:+ memory +:+ r)) st
  = getCoreSystemPrompt t p (Some memory) st.
Proof.
  intros Hl Hr. rewrite !getCoreSystemPrompt_steps.
  by rewrite !memorySuffix_trim, trim_padding.
Qed.

Lemma memory_padding_is_ignored_witness :
  let p := setenv "GEMINI_SYSTEM_MD" "custom.md" Sample.bare in
  let l := String (ascii_of_nat 9) (String (ascii_of_nat 160) " ") in
  (whitespaceOnly l = true /\ whitespaceOnly (LF +:+ LF) = true) /\
  getCoreSystemPrompt Sample.imports p (Some (l +:+ "remember X" +:+ LF +:+ LF))
    Sample.customDisk
  = getCoreSystemPrompt Sample.imports p (Some "remember X") Sample.customDisk.
Proof.
  intros p l.
  assert (whitespaceOnly l = true) as H1 by reflexivity.
  assert (whitespaceOnly (LF +:+ LF) = true) as H2 by reflexivity.
  split; [by split|].
  exact (memory_padding_is_ignored Sample.imports p l "remember X" (LF +:+ LF)
           Sample.customDisk H1 H2).
Defined.

(** ** The git sections *)

(** X17. The two texts that depend on the git probe go together: in a git
    repository the default template holds the git section behind the
    sandbox section and the commit remark at the end of the refactoring
    example; outside of one it holds neither, and nothing in their place. *)
Theorem git_sections_go_together t p :
  trim (templateLiteral t p) =
    if isGitRepository p (cwd p) then
      slice 1 (Template.beforeSandbox t) +:+ sandboxFunction p +:+ LF +:+ LF +:+
      Template.gitSection +:+ Template.examplesHead t +:+ Template.commitRemark +:+
      trimEnd (Template.examplesTail t)
    else
      slice 1 (Template.beforeSandbox t) +:+ sandboxFunction p +:+ LF +:+ LF +:+
      Template.examplesHead t +:+ trimEnd (Template.examplesTail t).
Proof.
  rewrite template_trim. unfold gitFunction, commitFunction.
  by destruct (isGitRepository p (cwd p)).
Qed.

(** ** The memory and the disk *)

(** X18. [userMemory] reaches the returned string only: the calls made, the
    disk they leave and the error thrown, if any, are the same for every
    memory. *)
Theorem memory_never_reaches_disk t p userMemory userMemory' st :
  snd (getCoreSystemPrompt t p userMemory st)
  = snd (getCoreSystemPrompt t p userMemory' st) /\
  forall e,
    fst (getCoreSystemPrompt t p userMemory st) = Fs.Thrown e <->
    fst (getCoreSystemPrompt t p userMemory' st) = Fs.Thrown e.
Proof.
  rewrite !run_cases.
  destruct (loadBasePrompt t p st) as [[base|e'] st1]; [|done].
  by destruct (writeBack t p base st1) as [[[]|e'] st2].
Qed.
